(** * jira-github-mcp: a shallow embedding of the duplicate-detection and
      event-processing pipeline

    The development follows the Python sources:
    - [src/github_client.py]: the trigger classifier and the detail extractor;
    - [src/jira_client.py]: the issue cache and the similarity scorer;
    - [src/webhook_server.py] and [src/mcp_server.py]: the orchestration,
      the webhook ingress and the server of tools;
    - [src/config.py] and [src/auth.py]: the configuration read from the
      environment and the login of the Jira client.

    Conventions.  Python [str] and [bytes] are Rocq [string]s whose characters
    are read as ASCII code points; Python [float] is the kernel's binary64
    [float]; Python [int] is [Z].  Functions of third-party packages
    (fuzzywuzzy, hmac/hashlib, json, the Jira and GitHub SDKs) are not part of
    the repository: pure ones are fields of the class [PyLib], effectful ones
    are answered by an oracle and recorded in a trace of calls. *)

From Stdlib Require Import Bool Ascii String List Arith ZArith Lia.
From Stdlib Require Import DecimalString Floats Uint63 Sorted Permutation.
Import ListNotations.

#[local] Set Warnings "-inexact-float,-register-all,-notation-for-abbreviation".

Local Open Scope list_scope.
Local Open Scope string_scope.

(** ** Python strings *)

Module PyStr.

Definition LF : ascii := "010"%char.
Definition CR : ascii := "013"%char.
Definition nl : string := String LF EmptyString.

(** [c.isspace()] on ASCII: TAB, LF, VT, FF, CR, FS, GS, RS, US and SPACE.
    The same class is the regular expressions' [\s] on [str] patterns. *)
Definition is_space (c : ascii) : bool :=
  let n := nat_of_ascii c in
  (((9 <=? n) && (n <=? 13)) || ((28 <=? n) && (n <=? 32)))%nat.

Definition is_upper (c : ascii) : bool :=
  let n := nat_of_ascii c in ((65 <=? n) && (n <=? 90))%nat.

Definition is_lower (c : ascii) : bool :=
  let n := nat_of_ascii c in ((97 <=? n) && (n <=? 122))%nat.

Definition lower_char (c : ascii) : ascii :=
  if is_upper c then ascii_of_nat (nat_of_ascii c + 32) else c.

Definition upper_char (c : ascii) : ascii :=
  if is_lower c then ascii_of_nat (nat_of_ascii c - 32) else c.

(** [s.lower()] *)
Fixpoint lower (s : string) : string :=
  match s with
  | EmptyString => EmptyString
  | String c s' => String (lower_char c) (lower s')
  end.

(** [s.title()]: a cased character is upper-cased when the previous
    character is not cased, lower-cased otherwise. *)
Fixpoint title_from (prev_cased : bool) (s : string) : string :=
  match s with
  | EmptyString => EmptyString
  | String c s' =>
      if is_upper c || is_lower c
      then String (if prev_cased then lower_char c else upper_char c)
                  (title_from true s')
      else String c (title_from false s')
  end.

Definition title (s : string) : string := title_from false s.

Fixpoint lstrip (s : string) : string :=
  match s with
  | EmptyString => EmptyString
  | String c s' => if is_space c then lstrip s' else s
  end.

(** [rstrip] keeps a character when something that is not white space
    follows it, or when it is not white space itself. *)
Fixpoint rstrip (s : string) : string :=
  match s with
  | EmptyString => EmptyString
  | String c s' =>
      match rstrip s' with
      | EmptyString => if is_space c then EmptyString else String c EmptyString
      | t => String c t
      end
  end.

(** [s.strip()] *)
Definition strip (s : string) : string := rstrip (lstrip s).

(** [s.split(sep)] for a one-character separator: the pieces between the
    separators, always at least one piece. *)
Fixpoint split_on (sep : ascii) (s : string) : list string :=
  match s with
  | EmptyString => [EmptyString]
  | String c s' =>
      if Ascii.eqb c sep then EmptyString :: split_on sep s'
      else match split_on sep s' with
           | [] => [String c EmptyString]
           | p :: ps => String c p :: ps
           end
  end.

(** [sep.join(parts)] *)
Fixpoint join (sep : string) (parts : list string) : string :=
  match parts with
  | [] => EmptyString
  | [p] => p
  | p :: ps => p ++ sep ++ join sep ps
  end.

(** [s.replace(c, by)] for a one-character [c]. *)
Fixpoint replace_char (c : ascii) (by_ : string) (s : string) : string :=
  match s with
  | EmptyString => EmptyString
  | String x s' =>
      if Ascii.eqb x c then by_ ++ replace_char c by_ s'
      else String x (replace_char c by_ s')
  end.

(** [s[:n]] *)
Fixpoint take (n : nat) (s : string) : string :=
  match n, s with
  | S n', String c s' => String c (take n' s')
  | _, _ => EmptyString
  end.

(** The string with the given character codes. *)
Fixpoint of_codes (l : list nat) : string :=
  match l with
  | [] => EmptyString
  | n :: l' => String (ascii_of_nat n) (of_codes l')
  end.

(** [str(n)] for an [int]. *)
Definition str_of_Z (n : Z) : string := NilZero.string_of_int (Z.to_int n).

(** The truth value of a string: [if s:] holds for a non-empty [s]. *)
Definition truthy (s : string) : bool :=
  match s with EmptyString => false | _ => true end.

(** All characters are ASCII (code below 128). *)
Fixpoint is_ascii (s : string) : bool :=
  match s with
  | EmptyString => true
  | String c s' => (nat_of_ascii c <? 128)%nat && is_ascii s'
  end.

End PyStr.

(** ** The fragment of Python's [re] the sources use

    A backtracking matcher in the list-of-successes style: [rmatch] returns
    every way the pattern can match at the start of the text, in the order
    the backtracking engine tries them, so the engine's answer is the head
    of the list.  Each success carries the matched text, the remaining text
    and the text of the pattern's capture group (the patterns of the sources
    have at most one). *)

Module Re.

Import PyStr.

Inductive regex : Type :=
| Lit (s : string)                (* literal text *)
| Plus (cls : ascii -> bool)      (* [...]+ or \s+, greedy *)
| Opt (r : regex)                 (* r?, greedy *)
| Alt (r1 r2 : regex)             (* r1|r2 *)
| Seq (r1 r2 : regex)             (* r1 r2 *)
| Group (r : regex).              (* (r) *)

Record success : Type := mkSuccess {
  matched : string;
  rest : string;
  group1 : option string
}.

Definition char_eq (ignorecase : bool) (p c : ascii) : bool :=
  if ignorecase then Ascii.eqb (lower_char p) (lower_char c)
  else Ascii.eqb p c.

(** The literal [l] at the start of [s]: the matched text and the rest. *)
Fixpoint match_lit (ic : bool) (l s : string) : option (string * string) :=
  match l with
  | EmptyString => Some (EmptyString, s)
  | String p l' =>
      match s with
      | EmptyString => None
      | String c s' =>
          if char_eq ic p c
          then match match_lit ic l' s' with
               | Some (m, r) => Some (String c m, r)
               | None => None
               end
          else None
      end
  end.

(** The ways [cls+] matches at the start of [s], longest first. *)
Fixpoint match_plus (cls : ascii -> bool) (s : string) : list (string * string) :=
  match s with
  | EmptyString => []
  | String c s' =>
      if cls c
      then (map (fun mr => (String c (fst mr), snd mr)) (match_plus cls s')
            ++ [(String c EmptyString, s')])%list
      else []
  end.

Definition first_group (g1 g2 : option string) : option string :=
  match g2 with Some _ => g2 | None => g1 end.

Fixpoint rmatch (ic : bool) (r : regex) (s : string) : list success :=
  match r with
  | Lit l =>
      match match_lit ic l s with
      | Some (m, t) => [mkSuccess m t None]
      | None => []
      end
  | Plus cls => map (fun mr => mkSuccess (fst mr) (snd mr) None) (match_plus cls s)
  | Opt r1 => (rmatch ic r1 s ++ [mkSuccess EmptyString s None])%list
  | Alt r1 r2 => (rmatch ic r1 s ++ rmatch ic r2 s)%list
  | Seq r1 r2 =>
      flat_map
        (fun a =>
           map (fun b => mkSuccess (matched a ++ matched b) (rest b)
                                   (first_group (group1 a) (group1 b)))
               (rmatch ic r2 (rest a)))
        (rmatch ic r1 s)
  | Group r1 => map (fun a => mkSuccess (matched a) (rest a) (Some (matched a)))
                    (rmatch ic r1 s)
  end.

(** [re.search(pattern, s, flags)]: the first position, from the left, at
    which the pattern matches, with the engine's preferred match there. *)
Fixpoint search (ic : bool) (r : regex) (s : string) : option success :=
  match rmatch ic r s with
  | a :: _ => Some a
  | [] =>
      match s with
      | EmptyString => None
      | String _ s' => search ic r s'
      end
  end.

(** [m.group(1)]; the patterns that are asked for it all have the group. *)
Definition group_1 (m : success) : string :=
  match group1 m with Some g => g | None => EmptyString end.

Definition is_colon_or_space (c : ascii) : bool :=
  Ascii.eqb c ":"%char || is_space c.

Definition not_newline (c : ascii) : bool :=
  negb (Ascii.eqb c LF || Ascii.eqb c CR).

End Re.

(** ** [src/types.py]: the dataclasses the pipeline uses

    A [datetime] is a count of microseconds. *)

Module Types.

Definition datetime : Type := Z.

Record JiraStatus : Type := mkJiraStatus {
  status_name : string;
  category_key : string
}.

Record JiraIssueType : Type := mkJiraIssueType { type_name : string }.

Record JiraProject : Type := mkJiraProject {
  project_key_ : string;
  project_name : string
}.

Record JiraUser : Type := mkJiraUser {
  display_name : string;
  email_address : string
}.

Module JiraIssue.
Record t : Type := mk {
  id : string;
  key : string;
  summary : string;
  description : option string;
  status : option JiraStatus;
  issue_type : option JiraIssueType;
  project : option JiraProject;
  assignee : option JiraUser;
  reporter : option JiraUser;
  created : option datetime;
  updated : option datetime;
  labels : list string
}.
End JiraIssue.

Module IssueMatchResult.
Record t : Type := mk {
  score : float;
  issue : JiraIssue.t;
  matched_fields : list string
}.
End IssueMatchResult.

Module CreateJiraIssueRequest.
Record t : Type := mk {
  summary : string;
  issue_type : string;
  project_key : string;
  description : option string;
  labels : list string;
  assignee : option string;
  priority : option string
}.
End CreateJiraIssueRequest.

Module GitHubPullRequest.
Record t : Type := mk {
  id : Z;
  number : Z;
  title : string;
  body : option string;
  user : option string;                 (* GitHubUser.login *)
  head : option (string * string);      (* GitHubBranch: ref, sha *)
  base : option (string * string);
  state : string;
  created_at : option datetime;
  html_url : option string
}.
End GitHubPullRequest.

Module GitHubComment.
Record t : Type := mk {
  id : Z;
  body : string;
  user : option string;
  created_at : option datetime;
  pull_request_number : option Z
}.
End GitHubComment.

Module ProcessingResult.
Record t : Type := mk {
  action : string;                      (* 'created', 'found_similar', 'skipped' *)
  issue : option JiraIssue.t;
  similarity : option float;
  reason : option string
}.
End ProcessingResult.

Record JiraConfig : Type := mkJiraConfig {
  host : string;
  username : string;
  api_token : string;
  project_key : string;
  auth_method : string
}.

Record GitHubConfig : Type := mkGitHubConfig {
  token : string;
  webhook_secret : string;
  owner : string;
  repo : string
}.

Record ServerConfig : Type := mkServerConfig {
  port : Z;
  name : string
}.

Record Config : Type := mkConfig {
  jira : JiraConfig;
  github : GitHubConfig;
  server : ServerConfig
}.

End Types.

(** ** JSON values, as [json.loads] returns them *)

Module Json.

Inductive json : Type :=
| JNull
| JBool (b : bool)
| JNum (n : Z)
| JStr (s : string)
| JList (l : list json)
| JDict (d : list (string * json)).

(** The first binding of [k] in a [dict]. *)
Fixpoint lookup (k : string) (d : list (string * json)) : option json :=
  match d with
  | [] => None
  | (k', v) :: d' => if String.eqb k k' then Some v else lookup k d'
  end.

End Json.

(** ** Pure functions of the Python packages the sources call *)

Class PyLib : Type := {
  (** [json.loads(text)]; [None] stands for its [JSONDecodeError] *)
  json_loads : string -> option Json.json;
  (** [data.decode("utf-8")]; [None] stands for its [UnicodeDecodeError] *)
  utf8_decode : string -> option string;
  (** [str(v)] for a JSON value put in an f-string *)
  str_json : Json.json -> string;
  (** [fuzz.token_sort_ratio(s1, s2)], an [int] *)
  token_sort_ratio : string -> string -> Z;
  (** [hmac.new(key, msg, hashlib.sha256).hexdigest()] *)
  hmac_sha256_hexdigest : string -> string -> string;
  (** [datetime.fromisoformat(s)]; [None] stands for its [ValueError] *)
  fromisoformat : string -> option Types.datetime;
  (** [f"{x:.1f}"] *)
  format_1f : float -> string
}.

(** ** Python's [min] and [list.sort] *)

Module PyBuiltins.

Local Open Scope float_scope.

(** [min(a, b)]: the first argument unless the second is smaller. *)
Definition min2 (a b : float) : float := if b <? a then b else a.

(** [float(n)] for a small non-negative [int] (exact below 2^53). *)
Definition float_of_Z (n : Z) : float := of_uint63 (Uint63.of_Z n).

(** [n / 100] for an [int] [n]: true division. *)
Definition div100 (n : Z) : float := float_of_Z n / 100.

Section Sort.
Context {A K : Type} (key : A -> K) (lt : K -> K -> bool).

(** Put [x] in front of the first element whose key is not smaller than
    the key of [x]; only [<] on keys is used, as in [list.sort]. *)
Fixpoint insert_sorted (x : A) (l : list A) : list A :=
  match l with
  | [] => [x]
  | y :: l' => if lt (key y) (key x) then y :: insert_sorted x l' else x :: l
  end.

(** A stable ascending sort. *)
Fixpoint sort_ascending (l : list A) : list A :=
  match l with
  | [] => []
  | x :: l' => insert_sorted x (sort_ascending l')
  end.

(** [l.sort(key=key, reverse=reverse)].  With [reverse=True] the list is
    reversed, sorted in ascending order and reversed again, which keeps the
    sort stable. *)
Definition list_sort (reverse : bool) (l : list A) : list A :=
  if reverse then rev (sort_ascending (rev l)) else sort_ascending l.

End Sort.

End PyBuiltins.

(** ** Exceptions, SDK calls and the state the servers thread

    A run of the server is a function of a [World], which answers every call
    to the Jira and GitHub SDKs and reads the clock.  Answers may depend on
    the calls made so far.  The state holds the fields of the [JiraClient]
    object, the trace of calls and the log. *)

Module Effects.

Import PyStr Types Json.

(** Exceptions, all of them subclasses of [Exception]. *)
Inductive exn : Type :=
| Exception (msg : string)                       (* raise Exception(msg) *)
| HTTPException (status_code : Z) (detail : string)
| JSONDecodeError
| UnicodeDecodeError
| KeyError (k : string)
| TypeError (msg : string)
| AttributeError (msg : string)
| ValueError (msg : string)
| SdkError (msg : string).                       (* JIRAError, GithubException, ... *)

(** [str(error)] *)
Definition str_exn (e : exn) : string :=
  match e with
  | Exception msg => msg
  | HTTPException c d => str_of_Z c ++ ": " ++ d
  | JSONDecodeError => "Expecting value"
  | UnicodeDecodeError => "'utf-8' codec can't decode"
  | KeyError k => "'" ++ k ++ "'"
  | TypeError msg => msg
  | AttributeError msg => msg
  | ValueError msg => msg
  | SdkError msg => msg
  end.

(** What [_transform_jira_issue] reads of an issue of the Jira SDK.  An
    attribute that is missing or falsy is [None]. *)
Record RawUser : Type := mkRawUser {
  displayName : string;
  emailAddress : option string
}.

Record RawIssue : Type := mkRawIssue {
  raw_id : string;
  raw_key : string;
  f_summary : string;
  f_description : option string;
  f_status : option (string * option string);    (* name, statusCategory.key *)
  f_issuetype : option string;
  f_project : option (string * string);          (* key, name *)
  f_assignee : option RawUser;
  f_reporter : option RawUser;
  f_created : option string;
  f_updated : option string;
  f_labels : option (list string)
}.

(** The [fields] argument of [jira.create_issue]. *)
Record IssueFields : Type := mkIssueFields {
  fd_project : string;
  fd_summary : string;
  fd_description : string;
  fd_issuetype : string;
  fd_labels : list string;
  fd_assignee : option string;
  fd_priority : option string
}.

(** What [add_comment] reads of a comment of the GitHub SDK. *)
Record RawComment : Type := mkRawComment {
  c_id : Z;
  c_body : string;
  c_user : option string;
  c_created_at : datetime
}.

Inductive call : Type :=
| SearchIssues (jql : string) (maxResults : Z) (fields : list string)
| CreateIssue (fields : IssueFields)             (* jira.create_issue *)
| FetchIssue (key : string)                      (* jira.issue *)
| GetPull (number : Z)                           (* repo.get_pull *)
| GetIssue (number : Z)                          (* repo.get_issue *)
| CreateComment (number : Z) (body : string)     (* issue.create_comment *)
| JsonLoads (text : string).                     (* json.loads *)

Record World : Type := mkWorld {
  w_search_issues : list call -> string -> Z -> list string -> exn + list RawIssue;
  w_create_issue : list call -> IssueFields -> exn + string;     (* the new key *)
  w_issue : list call -> string -> exn + RawIssue;
  w_get_pull : list call -> Z -> exn + GitHubPullRequest.t;
  w_get_issue : list call -> Z -> option exn;                    (* [None]: found *)
  w_create_comment : list call -> Z -> string -> exn + RawComment;
  w_now : list call -> datetime                                  (* datetime.now() *)
}.

Inductive level : Type := INFO | WARNING | ERROR.

Record State : Type := mkState {
  issues : list JiraIssue.t;          (* JiraClient.issues *)
  last_sync : option datetime;        (* JiraClient.last_sync *)
  trace : list call;
  log : list (level * string)
}.

Inductive outcome (A : Type) : Type :=
| Ok (a : A)
| Raise (e : exn).
Arguments Ok {A} a.
Arguments Raise {A} e.

Definition M (A : Type) : Type := State -> outcome A * State.

Definition ret {A} (a : A) : M A := fun st => (Ok a, st).

Definition bind {A B} (m : M A) (k : A -> M B) : M B :=
  fun st =>
    match m st with
    | (Ok a, st') => k a st'
    | (Raise e, st') => (Raise e, st')
    end.

Definition raise {A} (e : exn) : M A := fun st => (Raise e, st).

(** [try: m  except Exception as error: handler(error)] *)
Definition try_except {A} (m : M A) (handler : exn -> M A) : M A :=
  fun st =>
    match m st with
    | (Ok a, st') => (Ok a, st')
    | (Raise e, st') => handler e st'
    end.

Definition lift {A} (r : exn + A) : M A :=
  match r with
  | inl e => raise e
  | inr a => ret a
  end.

(** An SDK call: it is recorded, and the world answers it. *)
Definition perform {A} (c : call) (answer : list call -> exn + A) : M A :=
  fun st =>
    let st' := mkState (issues st) (last_sync st) (trace st ++ [c]) (log st) in
    match answer (trace st) with
    | inl e => (Raise e, st')
    | inr a => (Ok a, st')
    end.

Definition logger (lv : level) (msg : string) : M unit :=
  fun st => (Ok tt, mkState (issues st) (last_sync st) (trace st) (log st ++ [(lv, msg)])).

Definition get_state : M State := fun st => (Ok st, st).

Definition set_issues (l : list JiraIssue.t) : M unit :=
  fun st => (Ok tt, mkState l (last_sync st) (trace st) (log st)).

Definition set_last_sync (t : option datetime) : M unit :=
  fun st => (Ok tt, mkState (issues st) t (trace st) (log st)).

Definition datetime_now (w : World) : M datetime :=
  fun st => (Ok (w_now w (trace st)), st).

End Effects.

Declare Scope py_scope.
Delimit Scope py_scope with py.
Notation "x <- c1 ;; c2" := (Effects.bind c1 (fun x => c2))
  (at level 61, c1 at next level, right associativity) : py_scope.
Notation "c1 ;; c2" := (Effects.bind c1 (fun _ => c2))
  (at level 61, right associativity) : py_scope.

(** ** [src/github_client.py]: classifier and extractor *)

Module GitHubClient.

Import PyStr Re Types Effects.
Local Open Scope py_scope.

(** [r'create\s+jira'] and its five siblings. *)
Definition two_words (w1 w2 : string) : regex :=
  Seq (Lit w1) (Seq (Plus is_space) (Lit w2)).

Definition triggers : list regex :=
  [ two_words "create" "jira";
    two_words "make" "jira";
    two_words "new" "jira";
    two_words "jira" "issue";
    two_words "create" "issue";
    two_words "create" "ticket" ].

Definition is_some {A : Type} (o : option A) : bool :=
  match o with Some _ => true | None => false end.

(** [is_create_jira_comment] *)
Definition is_create_jira_comment (comment : string) : bool :=
  let comment_lower := lower comment in
  existsb (fun trigger => is_some (search false trigger comment_lower)) triggers.

(** [r'summary[:\s]+([^\n\r]+)'] *)
Definition summary_re : regex :=
  Seq (Lit "summary") (Seq (Plus is_colon_or_space) (Group (Plus not_newline))).

(** [r'type[:\s]+(bug|task|story|epic)'] *)
Definition type_re : regex :=
  Seq (Lit "type")
      (Seq (Plus is_colon_or_space)
           (Group (Alt (Lit "bug") (Alt (Lit "task") (Alt (Lit "story") (Lit "epic")))))).

(** [r'labels?[:\s]+([^\n\r]+)'] *)
Definition labels_re : regex :=
  Seq (Lit "label")
      (Seq (Opt (Lit "s"))
           (Seq (Plus is_colon_or_space) (Group (Plus not_newline)))).

Record JiraDetails : Type := mkJiraDetails {
  summary : string;
  description : string;
  issue_type : string;
  labels : list string
}.

(** [_get_pr_url] *)
Definition _get_pr_url (config : Config) (number : Z) : string :=
  "https://github.com/" ++ owner (github config) ++ "/" ++ repo (github config)
  ++ "/pull/" ++ str_of_Z number.

(** [if pr_number:] holds for a number that is present and not zero. *)
Definition number_truthy (n : option Z) : option Z :=
  match n with
  | Some k => if Z.eqb k 0 then None else Some k
  | None => None
  end.

Definition body_truthy (b : option string) : option string :=
  match b with
  | Some s => if truthy s then Some s else None
  | None => None
  end.

(** [extract_jira_details] *)
Definition extract_jira_details (config : Config) (comment pr_title : string)
    (pr_body : option string) (pr_number : option Z) : JiraDetails :=
  let summary_match := search true summary_re comment in
  let type_match := search true type_re comment in
  let labels_match := search true labels_re comment in
  let summary :=
    match summary_match with
    | Some m => strip (group_1 m)
    | None => "[GitHub PR] " ++ pr_title
    end in
  let issue_type :=
    match type_match with
    | Some m => title (group_1 m)
    | None => "Task"
    end in
  let labels :=
    app ["github-pr"]
        match labels_match with
        | Some m => map strip (split_on ","%char (group_1 m))
        | None => []
        end in
  let description_parts :=
    app ["Created from GitHub Pull Request" ++ nl]
   (app match number_truthy pr_number with
        | Some n => ["**Original PR:** [#" ++ str_of_Z n ++ " " ++ pr_title ++ "]("
                     ++ _get_pr_url config n ++ ")" ++ nl]
        | None => []
        end
   (app match body_truthy pr_body with
        | Some b => ["**PR Description:**" ++ nl ++ b ++ nl]
        | None => []
        end
        ["**Comment that triggered creation:**" ++ nl ++ comment])) in
  mkJiraDetails summary (join nl description_parts) issue_type labels.

(** [get_pull_request]: an error of the SDK is logged and turned into
    [None].  The world answers with the pull request as
    [_transform_pull_request] reads it. *)
Definition get_pull_request (w : World) (number : Z)
  : M (option GitHubPullRequest.t) :=
  try_except
    (pr <- perform (GetPull number) (fun h => w_get_pull w h number) ;;
     ret (Some pr))
    (fun error =>
       logger ERROR ("Error fetching PR #" ++ str_of_Z number ++ ": " ++ str_exn error) ;;
       ret None).

(** [add_comment] *)
Definition add_comment (w : World) (number : Z) (body : string)
  : M GitHubComment.t :=
  try_except
    (perform (GetIssue number)
       (fun h => match w_get_issue w h number with
                 | Some e => inl e
                 | None => inr tt
                 end) ;;
     comment <- perform (CreateComment number body)
                        (fun h => w_create_comment w h number body) ;;
     ret (GitHubComment.mk (c_id comment) (c_body comment) (c_user comment)
            (Some (c_created_at comment)) (Some number)))
    (fun error =>
       logger ERROR ("Error adding comment to PR #" ++ str_of_Z number ++ ": "
                     ++ str_exn error) ;;
       raise error).

End GitHubClient.


(** ** [src/jira_client.py]: the issue cache and the similarity scorer *)

Module JiraClient.

Import PyStr PyBuiltins Types Effects.
Local Open Scope py_scope.

Section WithLib.
Context {lib : PyLib}.

Section Scoring.
Local Open Scope float_scope.

Definition summary_score (search_text : string) (issue : JiraIssue.t) : float :=
  div100 (token_sort_ratio (lower search_text) (lower (JiraIssue.summary issue))).

Definition description_score (search_text : string) (issue : JiraIssue.t) : float :=
  match JiraIssue.description issue with
  | Some d =>
      if truthy d
      then div100 (token_sort_ratio (lower search_text) (lower d))
      else 0
  | None => 0
  end.

Definition labels_score (search_text : string) (issue : JiraIssue.t) : float :=
  match JiraIssue.labels issue with
  | [] => 0
  | ls =>
      let labels_text := join " " ls in
      div100 (token_sort_ratio (lower search_text) (lower labels_text))
  end.

Definition combined_score (search_text : string) (issue : JiraIssue.t) : float :=
  let combined :=
    summary_score search_text issue * 0.7
    + description_score search_text issue * 0.3
    + labels_score search_text issue * 0.2 in
  min2 combined 1.0.

Definition matched_fields_of (search_text : string) (threshold : float)
    (issue : JiraIssue.t) : list string :=
  app (if threshold <=? summary_score search_text issue then ["summary"%string] else [])
 (app (if threshold <=? description_score search_text issue then ["description"%string] else [])
      (if threshold <=? labels_score search_text issue then ["labels"%string] else [])).

(** One turn of the loop of [find_similar_issues]. *)
Definition score_issue (search_text : string) (threshold : float)
    (results : list IssueMatchResult.t) (issue : JiraIssue.t)
  : list IssueMatchResult.t :=
  let combined_score := combined_score search_text issue in
  if threshold <=? combined_score
  then app results
           [IssueMatchResult.mk combined_score issue
              (matched_fields_of search_text threshold issue)]
  else results.

(** [find_similar_issues], as a function of the cached issues. *)
Definition find_similar_issues (issues : list JiraIssue.t) (search_text : string)
    (threshold : float) : list IssueMatchResult.t :=
  match issues with
  | [] => []
  | _ =>
      let results := fold_left (score_issue search_text threshold) issues [] in
      list_sort IssueMatchResult.score PrimFloat.ltb true results
  end.

End Scoring.

(** [_transform_jira_issue]; a date that does not parse raises
    [ValueError]. *)
Definition parse_date (s : option string) : exn + option datetime :=
  match s with
  | Some d =>
      if truthy d
      then match fromisoformat (replace_char "Z"%char "+00:00" d) with
           | Some t => inr (Some t)
           | None => inl (ValueError ("Invalid isoformat string: " ++ d))
           end
      else inr None
  | None => inr None
  end.

Definition transform_user (u : option RawUser) : option JiraUser :=
  match u with
  | Some r => Some (mkJiraUser (displayName r)
                      (match emailAddress r with Some e => e | None => "" end))
  | None => None
  end.

Definition _transform_jira_issue (issue : RawIssue) : exn + JiraIssue.t :=
  match parse_date (f_created issue) with
  | inl e => inl e
  | inr created =>
      match parse_date (f_updated issue) with
      | inl e => inl e
      | inr updated =>
          let status :=
            match f_status issue with
            | Some (n, c) =>
                Some (mkJiraStatus n (match c with Some k => k | None => "unknown" end))
            | None => None
            end in
          let issue_type := option_map mkJiraIssueType (f_issuetype issue) in
          let project :=
            option_map (fun kn => mkJiraProject (fst kn) (snd kn)) (f_project issue) in
          inr (JiraIssue.mk (raw_id issue) (raw_key issue) (f_summary issue)
                 (f_description issue) status issue_type project
                 (transform_user (f_assignee issue)) (transform_user (f_reporter issue))
                 created updated
                 (match f_labels issue with Some l => l | None => [] end))
      end
  end.

(** [[self._transform_jira_issue(issue) for issue in issues]] *)
Fixpoint transform_all (l : list RawIssue) : exn + list JiraIssue.t :=
  match l with
  | [] => inr []
  | issue :: l' =>
      match _transform_jira_issue issue with
      | inl e => inl e
      | inr t =>
          match transform_all l' with
          | inl e => inl e
          | inr ts => inr (t :: ts)
          end
      end
  end.

Definition sync_fields : list string :=
  ["id"; "key"; "summary"; "description"; "status"; "issuetype"; "project";
   "assignee"; "reporter"; "created"; "updated"; "labels"].

Section WithWorld.
Context (config : Config) (w : World).

(** [sync_issues] *)
Definition sync_issues : M unit :=
  try_except
    (logger INFO "Syncing Jira issues..." ;;
     let jql := "project = " ++ project_key (jira config) ++ " ORDER BY updated DESC" in
     found <- perform (SearchIssues jql 1000 sync_fields)
                      (fun h => w_search_issues w h jql 1000 sync_fields) ;;
     transformed <- lift (transform_all found) ;;
     set_issues transformed ;;
     now <- datetime_now w ;;
     set_last_sync (Some now) ;;
     logger INFO ("Synced " ++ str_of_Z (Z.of_nat (length transformed))
                  ++ " issues from Jira"))
    (fun error =>
       logger ERROR ("Error syncing Jira issues: " ++ str_exn error) ;;
       raise error).

(** [get_all_issues] *)
Definition get_all_issues : M (list JiraIssue.t) :=
  st <- get_state ;; ret (issues st).

(** [find_similar_issues] as a method: it reads [self.issues]. *)
Definition find_similar_issues_ (search_text : string) (threshold : float)
  : M (list IssueMatchResult.t) :=
  st <- get_state ;; ret (find_similar_issues (issues st) search_text threshold).

Definition option_truthy (o : option string) : option string :=
  match o with
  | Some s => if truthy s then Some s else None
  | None => None
  end.

(** [create_issue] *)
Definition create_issue (request : CreateJiraIssueRequest.t) : M JiraIssue.t :=
  try_except
    (let issue_data :=
       mkIssueFields
         (CreateJiraIssueRequest.project_key request)
         (CreateJiraIssueRequest.summary request)
         (match CreateJiraIssueRequest.description request with
          | Some d => d
          | None => ""
          end)
         (CreateJiraIssueRequest.issue_type request)
         (CreateJiraIssueRequest.labels request)
         (option_truthy (CreateJiraIssueRequest.assignee request))
         (option_truthy (CreateJiraIssueRequest.priority request)) in
     new_key <- perform (CreateIssue issue_data) (fun h => w_create_issue w h issue_data) ;;
     created_issue <- perform (FetchIssue new_key) (fun h => w_issue w h new_key) ;;
     transformed_issue <- lift (_transform_jira_issue created_issue) ;;
     st <- get_state ;;
     set_issues (transformed_issue :: issues st) ;;
     logger INFO ("Created Jira issue: " ++ new_key) ;;
     ret transformed_issue)
    (fun error =>
       logger ERROR ("Error creating Jira issue: " ++ str_exn error) ;;
       raise error).

(** [needs_sync]: true when never synced or when the last sync is more
    than five minutes old. *)
Definition five_minutes : Z := 300000000.

Definition needs_sync : M bool :=
  st <- get_state ;;
  match last_sync st with
  | None => ret true
  | Some t =>
      now <- datetime_now w ;;
      let five_minutes_ago := (now - five_minutes)%Z in
      ret (t <? five_minutes_ago)%Z
  end.

End WithWorld.
End WithLib.

End JiraClient.


(** ** [src/webhook_server.py] *)

Module WebhookServer.

Import PyStr Types Json Effects GitHubClient JiraClient.
Local Open Scope py_scope.

(** [hmac.compare_digest(a, b)] on two [str]: equality, and [TypeError]
    when one of them has a non-ASCII character. *)
Definition compare_digest (a b : string) : exn + bool :=
  if is_ascii a && is_ascii b then inr (String.eqb a b)
  else inl (TypeError "comparing strings with non-ASCII characters is not supported").

(** [v[k]] on a JSON value. *)
Definition getitem (v : json) (k : string) : exn + json :=
  match v with
  | JDict d =>
      match lookup k d with
      | Some x => inr x
      | None => inl (KeyError k)
      end
  | _ => inl (TypeError "indices must be integers")
  end.

(** [v == s] for a string [s]. *)
Definition eq_str (v : json) (s : string) : bool :=
  match v with
  | JStr t => String.eqb t s
  | _ => false
  end.

(** [s in t] on strings. *)
Fixpoint is_substring (s t : string) : bool :=
  if prefix s t then true
  else match t with
       | EmptyString => false
       | String _ t' => is_substring s t'
       end.

(** [k in v] for a string [k]. *)
Definition contains (v : json) (k : string) : exn + bool :=
  match v with
  | JDict d => inr (GitHubClient.is_some (lookup k d))
  | JList l => inr (existsb (fun x => eq_str x k) l)
  | JStr t => inr (is_substring k t)
  | _ => inl (TypeError "argument is not iterable")
  end.

(** The number of a pull request, an [int] in the payloads of GitHub; any
    other value is refused here, before it reaches [pr_number : int]. *)
Definition as_int (v : json) : exn + Z :=
  match v with
  | JNum n => inr n
  | _ => inl (TypeError "pull request number is not an int")
  end.

(** [[label["name"] for label in labels]] *)
Fixpoint label_names (l : list json) : exn + list json :=
  match l with
  | [] => inr []
  | label :: l' =>
      match getitem label "name" with
      | inl e => inl e
      | inr n =>
          match label_names l' with
          | inl e => inl e
          | inr ns => inr (n :: ns)
          end
      end
  end.

Definition iterate (v : json) : exn + list json :=
  match v with
  | JList l => inr l
  | JDict d => inr (map (fun kv => JStr (fst kv)) d)
  | JStr t => inr (map (fun c => JStr (String c EmptyString)) (list_ascii_of_string t))
  | _ => inl (TypeError "object is not iterable")
  end.

Definition icon_found : string := of_codes [195; 176; 197; 184; 226; 128; 157].
Definition icon_created : string := of_codes [195; 162; 197; 147; 226; 128; 166].
Definition icon_error : string := of_codes [195; 162; 197; 146].

Section WithEnv.
Context {lib : PyLib} (config : Config) (w : World).

(** [_verify_signature] *)
Definition _verify_signature (payload : string) (signature : option string)
  : exn + bool :=
  match option_truthy signature with
  | None => inr false
  | Some sg =>
      let expected_signature :=
        "sha256=" ++ hmac_sha256_hexdigest (webhook_secret (github config)) payload in
      compare_digest expected_signature sg
  end.

Definition found_similar_comment (best_match : IssueMatchResult.t) : string :=
  let k := JiraIssue.key (IssueMatchResult.issue best_match) in
  icon_found ++ " **Found similar existing Jira issue:**" ++ nl ++ nl
  ++ "[" ++ k ++ "](" ++ host (jira config) ++ "/browse/" ++ k ++ ") - "
  ++ JiraIssue.summary (IssueMatchResult.issue best_match) ++ nl ++ nl
  ++ "**Similarity score:** "
  ++ format_1f (IssueMatchResult.score best_match * 100)%float ++ "%" ++ nl
  ++ "**Matched fields:** " ++ join ", " (IssueMatchResult.matched_fields best_match)
  ++ nl ++ nl
  ++ "Please check if this existing issue covers your request before creating a new one.".

Definition created_comment (new_issue : JiraIssue.t) : string :=
  let k := JiraIssue.key new_issue in
  icon_created ++ " **Created Jira issue:**" ++ nl ++ nl
  ++ "[" ++ k ++ "](" ++ host (jira config) ++ "/browse/" ++ k ++ ") - "
  ++ JiraIssue.summary new_issue ++ nl ++ nl
  ++ "**Type:** "
  ++ match JiraIssue.issue_type new_issue with
     | Some t => type_name t
     | None => "Unknown"
     end ++ nl
  ++ "**Labels:** "
  ++ match JiraIssue.labels new_issue with
     | [] => "None"
     | ls => join ", " ls
     end.

Definition error_comment (error : exn) : string :=
  icon_error ++ " **Error creating Jira issue:**" ++ nl ++ nl
  ++ str_exn error ++ nl ++ nl
  ++ "Please check the server logs or try again later.".

(** The [try] block of [_process_pr_comment_for_jira]. *)
Definition process_try (pr_number : Z) (comment : string) (threshold : float)
  : M ProcessingResult.t :=
  if negb (is_create_jira_comment comment)
  then
    logger INFO "Comment does not request Jira creation" ;;
    ret (ProcessingResult.mk "skipped" None None (Some "No Jira creation request found"))
  else
    found <- get_pull_request w pr_number ;;
    match found with
    | None => raise (Exception ("Pull request #" ++ str_of_Z pr_number ++ " not found"))
    | Some pr =>
        let jira_details :=
          extract_jira_details config comment (GitHubPullRequest.title pr)
            (GitHubPullRequest.body pr) (Some (GitHubPullRequest.number pr)) in
        stale <- needs_sync w ;;
        (if stale : bool
         then logger INFO "Syncing Jira issues..." ;; sync_issues config w
         else ret tt) ;;
        let search_text := summary jira_details ++ " " ++ description jira_details in
        similar_issues <- find_similar_issues_ search_text threshold ;;
        match similar_issues with
        | best_match :: _ =>
            logger INFO ("Found similar issue: "
                         ++ JiraIssue.key (IssueMatchResult.issue best_match) ++ " ("
                         ++ format_1f (IssueMatchResult.score best_match * 100)%float
                         ++ "% similarity)") ;;
            add_comment w pr_number (found_similar_comment best_match) ;;
            ret (ProcessingResult.mk "found_similar"
                   (Some (IssueMatchResult.issue best_match))
                   (Some (IssueMatchResult.score best_match)) None)
        | [] =>
            logger INFO "Creating new Jira issue..." ;;
            let request :=
              CreateJiraIssueRequest.mk (summary jira_details) (issue_type jira_details)
                (project_key (jira config)) (Some (description jira_details))
                (labels jira_details) None None in
            new_issue <- create_issue w request ;;
            add_comment w pr_number (created_comment new_issue) ;;
            logger INFO ("Created Jira issue: " ++ JiraIssue.key new_issue) ;;
            ret (ProcessingResult.mk "created" (Some new_issue) None None)
        end
    end.

(** The [except Exception as error] block of [_process_pr_comment_for_jira]. *)
Definition process_except (pr_number : Z) (error : exn) : M ProcessingResult.t :=
  logger ERROR ("Error processing PR comment for Jira: " ++ str_exn error) ;;
  try_except
    (add_comment w pr_number (error_comment error) ;; ret tt)
    (fun comment_error =>
       logger ERROR ("Failed to add error comment: " ++ str_exn comment_error)) ;;
  raise error.

(** [_process_pr_comment_for_jira] *)
Definition _process_pr_comment_for_jira (pr_number : Z) (comment : string)
    (threshold : float) : M ProcessingResult.t :=
  try_except (process_try pr_number comment threshold) (process_except pr_number).

(** [_handle_issue_comment] *)
Definition _handle_issue_comment (payload : json) : M unit :=
  action <- lift (getitem payload "action") ;;
  if negb (eq_str action "created") then ret tt
  else
    comment <- lift (getitem payload "comment") ;;
    issue <- lift (getitem payload "issue") ;;
    is_pr <- lift (contains issue "pull_request") ;;
    if negb is_pr then ret tt
    else
      number <- lift (getitem issue "number") ;;
      comment_body <- lift (getitem comment "body") ;;
      match comment_body with
      | JStr text =>
          pr_number <- lift (as_int number) ;;
          logger INFO ("Processing comment on PR #" ++ str_of_Z pr_number ++ ": "
                       ++ take 100 text ++ "...") ;;
          if is_create_jira_comment text
          then _process_pr_comment_for_jira pr_number text 0.7%float ;; ret tt
          else ret tt
      | JList l =>
          logger INFO ("Processing comment on PR #" ++ str_json number ++ ": "
                       ++ str_json (JList (firstn 100 l)) ++ "...") ;;
          raise (AttributeError "'list' object has no attribute 'lower'")
      | _ => raise (TypeError "object is not subscriptable")
      end.

(** [_handle_pull_request] *)
Definition _handle_pull_request (payload : json) : M unit :=
  action <- lift (getitem payload "action") ;;
  pr <- lift (getitem payload "pull_request") ;;
  number <- lift (getitem pr "number") ;;
  pr_title <- lift (getitem pr "title") ;;
  logger INFO ("PR #" ++ str_json number ++ " " ++ str_json action ++ ": "
               ++ str_json pr_title) ;;
  if eq_str action "opened"
  then
    pr_labels <- lift (match pr with
                       | JDict d =>
                           match lookup "labels" d with
                           | Some v => iterate v
                           | None => inr []
                           end
                       | _ => inl (AttributeError "object has no attribute 'get'")
                       end) ;;
    names <- lift (label_names pr_labels) ;;
    if existsb (fun x => eq_str x "needs-jira") names
    then
      let comment :=
        "Auto-triggered: Create Jira issue for this PR" ++ nl ++ nl
        ++ "Type: Task" ++ nl ++ "Summary: " ++ str_json pr_title in
      pr_number <- lift (as_int number) ;;
      _process_pr_comment_for_jira pr_number comment 0.7%float ;; ret tt
    else ret tt
  else ret tt.

Definition str_opt (o : option string) : string :=
  match o with Some s => s | None => "None" end.

(** [_handle_webhook_event] *)
Definition _handle_webhook_event (event_type : option string) (payload : json)
  : M unit :=
  try_except
    (match event_type with
     | Some "issue_comment" => _handle_issue_comment payload
     | Some "pull_request" => _handle_pull_request payload
     | _ => logger INFO ("Unhandled webhook event: " ++ str_opt event_type)
     end)
    (fun error =>
       logger ERROR ("Error handling webhook event " ++ str_opt event_type ++ ": "
                     ++ str_exn error)).

(** A task handed to [background_tasks.add_task]: the arguments of
    [_handle_webhook_event]. *)
Definition task : Type := (option string * json)%type.

(** [json.loads(body.decode("utf-8"))]; the call of [json.loads] is recorded. *)
Definition parse_payload (body : string) : M json :=
  match utf8_decode body with
  | None => raise UnicodeDecodeError
  | Some text =>
      perform (JsonLoads text)
              (fun _ => match json_loads text with
                        | Some v => inr v
                        | None => inl JSONDecodeError
                        end)
  end.

(** The [try] block of the [/webhook] route. *)
Definition webhook_try (body : string) (signature event_type : option string)
  : M (json * list task) :=
  verified <- lift (_verify_signature body signature) ;;
  if negb verified then raise (HTTPException 401 "Invalid signature")
  else
    payload <- parse_payload body ;;
    logger INFO ("Received GitHub webhook: " ++ str_opt event_type) ;;
    ret (JDict [("success", JBool true)], [(event_type, payload)]).

(** The route [POST /webhook], [github_webhook]: the response and the
    background tasks it leaves.  [except json.JSONDecodeError] comes first,
    [except Exception] catches every other exception raised in the [try]
    block. *)
Definition github_webhook (body : string) (signature event_type : option string)
  : M (json * list task) :=
  try_except (webhook_try body signature event_type)
    (fun error =>
       match error with
       | JSONDecodeError => raise (HTTPException 400 "Invalid JSON payload")
       | _ =>
           logger ERROR ("Webhook error: " ++ str_exn error) ;;
           raise (HTTPException 500 "Internal server error")
       end).

(** The route [POST /trigger-jira-creation], [manual_trigger]. *)
Definition manual_trigger (pr_number : Z) (comment : string)
  : M ProcessingResult.t :=
  try_except (_process_pr_comment_for_jira pr_number comment 0.7%float)
    (fun error =>
       logger ERROR ("Manual trigger error: " ++ str_exn error) ;;
       raise (HTTPException 500 (str_exn error))).

End WithEnv.

End WebhookServer.

(** ** [src/mcp_server.py]: the tool [process_pr_comment_for_jira] *)

Module McpServer.

Import PyStr Types Json Effects GitHubClient JiraClient.
Local Open Scope py_scope.

Definition icon_found : string := of_codes [240; 159; 148; 141].
Definition icon_created : string := of_codes [226; 156; 133].

Section WithEnv.
Context {lib : PyLib} (config : Config) (w : World).

(** [_process_pr_comment_for_jira_impl] *)
Definition _process_pr_comment_for_jira_impl (pr_number : Z) (comment : string)
    (threshold : float) : M string :=
  if negb (is_create_jira_comment comment)
  then ret "Comment does not contain a request to create a Jira issue"
  else
    found <- get_pull_request w pr_number ;;
    match found with
    | None => raise (Exception ("Pull request #" ++ str_of_Z pr_number ++ " not found"))
    | Some pr =>
        let jira_details :=
          extract_jira_details config comment (GitHubPullRequest.title pr)
            (GitHubPullRequest.body pr) (Some (GitHubPullRequest.number pr)) in
        stale <- needs_sync w ;;
        (if stale : bool then sync_issues config w else ret tt) ;;
        let search_text := summary jira_details ++ " " ++ description jira_details in
        similar_issues <- find_similar_issues_ search_text threshold ;;
        match similar_issues with
        | best_match :: _ =>
            let k := JiraIssue.key (IssueMatchResult.issue best_match) in
            let pct := format_1f (IssueMatchResult.score best_match * 100)%float in
            add_comment w pr_number
              (icon_found ++ " Found similar existing Jira issue: [" ++ k ++ "]("
               ++ host (jira config) ++ "/browse/" ++ k ++ ") - "
               ++ JiraIssue.summary (IssueMatchResult.issue best_match) ++ nl ++ nl
               ++ "Similarity score: " ++ pct ++ "%" ++ nl
               ++ "Matched fields: "
               ++ join ", " (IssueMatchResult.matched_fields best_match) ++ nl ++ nl
               ++ "Please check if this existing issue covers your request before creating a new one.") ;;
            ret ("Found similar existing issue: " ++ k ++ " (" ++ pct
                 ++ "% similarity). Added comment to PR with details.")
        | [] =>
            let request :=
              CreateJiraIssueRequest.mk (summary jira_details) (issue_type jira_details)
                (project_key (jira config)) (Some (description jira_details))
                (labels jira_details) None None in
            new_issue <- create_issue w request ;;
            let k := JiraIssue.key new_issue in
            add_comment w pr_number
              (icon_created ++ " Created Jira issue: [" ++ k ++ "]("
               ++ host (jira config) ++ "/browse/" ++ k ++ ") - "
               ++ JiraIssue.summary new_issue) ;;
            ret ("Created new Jira issue: " ++ k ++ " - " ++ JiraIssue.summary new_issue)
        end
    end.

End WithEnv.

End McpServer.

(** ** A sample library, configuration and worlds

    Concrete instances on which the general statements below are run. *)

Module Sample.

Import PyStr Types Json Effects.

(** A library whose fuzzy ratio is 100 on equal texts and 60 otherwise. *)
#[local] Instance lib : PyLib := {|
  json_loads := fun text => if String.eqb text "{}" then Some (JDict []) else None;
  utf8_decode := fun data => if is_ascii data then Some data else None;
  str_json := fun v => match v with JStr s => s | JNum n => str_of_Z n | _ => "?" end;
  token_sort_ratio := fun a b => if String.eqb a b then 100%Z else 60%Z;
  hmac_sha256_hexdigest := fun _ _ => "5d41402abc4b2a76b9719d911017c592";
  fromisoformat := fun _ => Some 0%Z;
  format_1f := fun _ => "0.0"
|}.

Definition config : Config :=
  mkConfig (mkJiraConfig "https://jira.example" "bot" "secret" "PROJ" "basic")
           (mkGitHubConfig "token" "hook-secret" "octo" "demo")
           (mkServerConfig 3000 "jira-github").

Definition raw_issue (k s : string) : RawIssue :=
  mkRawIssue "1" k s None None None None None None None None None.

Definition pull (n : Z) (t : string) : GitHubPullRequest.t :=
  GitHubPullRequest.mk 1 n t None None None None "open" None None.

(** Every call succeeds; the project holds one issue. *)
Definition world : World := {|
  w_search_issues := fun _ _ _ _ => inr [raw_issue "PROJ-1" "Fix login page styling"];
  w_create_issue := fun _ _ => inr "PROJ-2";
  w_issue := fun _ k => inr (raw_issue k "Created from a pull request");
  w_get_pull := fun _ n => inr (pull n "Add retry to the uploader");
  w_get_issue := fun _ _ => None;
  w_create_comment := fun _ _ b => inr (mkRawComment 1 b None 0%Z);
  w_now := fun h => Z.of_nat (List.length h)
|}.

(** Every call to Jira or GitHub fails. *)
Definition broken_world : World := {|
  w_search_issues := fun _ _ _ _ => inl (SdkError "Jira is down");
  w_create_issue := fun _ _ => inl (SdkError "Jira is down");
  w_issue := fun _ _ => inl (SdkError "Jira is down");
  w_get_pull := fun _ _ => inl (SdkError "GitHub is down");
  w_get_issue := fun _ _ => Some (SdkError "GitHub is down");
  w_create_comment := fun _ _ _ => inl (SdkError "GitHub is down");
  w_now := fun h => Z.of_nat (List.length h)
|}.

(** GitHub answers; the search of Jira fails. *)
Definition sync_fails : World := {|
  w_search_issues := fun _ _ _ _ => inl (SdkError "Jira is down");
  w_create_issue := fun _ _ => inr "PROJ-2";
  w_issue := fun _ k => inr (raw_issue k "Created from a pull request");
  w_get_pull := fun _ n => inr (pull n "Add retry to the uploader");
  w_get_issue := fun _ _ => None;
  w_create_comment := fun _ _ b => inr (mkRawComment 1 b None 0%Z);
  w_now := fun h => Z.of_nat (List.length h)
|}.

(** The project is empty and the creation of an issue fails. *)
Definition create_fails : World := {|
  w_search_issues := fun _ _ _ _ => inr [];
  w_create_issue := fun _ _ => inl (SdkError "Field 'issuetype' is required");
  w_issue := fun _ k => inr (raw_issue k "Created from a pull request");
  w_get_pull := fun _ n => inr (pull n "Add retry to the uploader");
  w_get_issue := fun _ _ => None;
  w_create_comment := fun _ _ b => inr (mkRawComment 1 b None 0%Z);
  w_now := fun h => Z.of_nat (List.length h)
|}.

(** The project is empty and no comment can be posted. *)
Definition comment_fails : World := {|
  w_search_issues := fun _ _ _ _ => inr [];
  w_create_issue := fun _ _ => inr "PROJ-2";
  w_issue := fun _ k => inr (raw_issue k "Created from a pull request");
  w_get_pull := fun _ n => inr (pull n "Add retry to the uploader");
  w_get_issue := fun _ _ => None;
  w_create_comment := fun _ _ _ => inl (SdkError "Resource not accessible");
  w_now := fun h => Z.of_nat (List.length h)
|}.

Definition issue (k s : string) : JiraIssue.t :=
  JiraIssue.mk "1" k s None None None None None None None None [].

Definition request : CreateJiraIssueRequest.t :=
  CreateJiraIssueRequest.mk "Add retry" "Task" "PROJ" None [] None None.

(** A server that has never synced, and one that synced at time 0. *)
Definition fresh : State := mkState [] None [] [].
Definition synced : State := mkState [issue "PROJ-1" "Fix login page styling"] (Some 0%Z) [] [].

(** With the sample library and the query "login page", an item whose three
    field scores are 0.6: its combined score is 0.72. *)
Definition vague_issue : JiraIssue.t :=
  JiraIssue.mk "7" "PROJ-7" "Uploader drops files" (Some "Large files time out")
    None None None None None None None ["backend"].

(** An item whose summary is that query up to case, with the combined
    score 0.7, and a second item with the combined score 0.72. *)
Definition exact_issue : JiraIssue.t :=
  JiraIssue.mk "8" "PROJ-8" "Login Page" None None None None None None None None [].

Definition vague_issue2 : JiraIssue.t :=
  JiraIssue.mk "9" "PROJ-9" "Retry the download" (Some "Flaky network")
    None None None None None None None ["client"].

End Sample.

(** ** Notions used in the statements

    Helper definitions of the properties below: names for states and
    requests, shapes of comments, the order on floats, and the
    specification's own wording of the scorer. *)

Module Spec.

Import PyStr Re Types Json Effects PyBuiltins GitHubClient JiraClient.

(** The query [sync_issues] sends. *)
Definition sync_jql (config : Config) : string :=
  "project = " ++ project_key (jira config) ++ " ORDER BY updated DESC".

(** The request as [create_issue] hands it to the SDK. *)
Definition issue_data_of (request : CreateJiraIssueRequest.t) : IssueFields :=
  mkIssueFields
    (CreateJiraIssueRequest.project_key request)
    (CreateJiraIssueRequest.summary request)
    (match CreateJiraIssueRequest.description request with
     | Some d => d
     | None => ""
     end)
    (CreateJiraIssueRequest.issue_type request)
    (CreateJiraIssueRequest.labels request)
    (option_truthy (CreateJiraIssueRequest.assignee request))
    (option_truthy (CreateJiraIssueRequest.priority request)).

(** The state with one more line of log, and with more calls recorded. *)
Definition add_log (st : State) (lv : level) (msg : string) : State :=
  mkState (issues st) (last_sync st) (trace st) (log st ++ [(lv, msg)]).

Definition add_calls (st : State) (cs : list call) : State :=
  mkState (issues st) (last_sync st) (trace st ++ cs) (log st).

(** The header that verifies a body. *)
Definition expected_signature {lib : PyLib} (config : Config) (body : string)
  : string :=
  "sha256=" ++ hmac_sha256_hexdigest (webhook_secret (github config)) body.

(** No position inside [pre] starts a match of [r] in [pre ++ s]. *)
Fixpoint no_match_before (ic : bool) (r : regex) (pre s : string) : bool :=
  match pre with
  | EmptyString => true
  | String _ pre' =>
      match rmatch ic r (pre ++ s) with
      | [] => no_match_before ic r pre' s
      | _ :: _ => false
      end
  end.

Definition class_all (cls : ascii -> bool) (s : string) : bool :=
  forallb cls (list_ascii_of_string s).

(** The text stops, or goes on with a character outside the class. *)
Definition stops (cls : ascii -> bool) (s : string) : bool :=
  match s with
  | EmptyString => true
  | String c _ => negb (cls c)
  end.

(** [kw] matches, in any case, somewhere in [s]. *)
Fixpoint occurs_ci (kw s : string) : bool :=
  match match_lit true kw s with
  | Some _ => true
  | None =>
      match s with
      | EmptyString => false
      | String _ s' => occurs_ci kw s'
      end
  end.

(** [t] is [w] up to the case of its letters. *)
Definition case_variant (w t : string) : bool :=
  match match_lit true w t with
  | Some (_, EmptyString) => true
  | _ => false
  end.

Definition type_words : list string := ["bug"; "task"; "story"; "epic"].

Definition is_type_word (t : string) : bool :=
  existsb (fun w => case_variant w t) type_words.

(** A value of a field: not empty, on one line, and starting with a
    character that is neither a colon nor white space. *)
Definition plain_value (v : string) : bool :=
  truthy v && stops is_colon_or_space v && class_all not_newline v.

(** The three structured fields, their patterns, and what the extraction
    makes of a match. *)
Inductive field : Type := FSummary | FType | FLabels.

Definition pattern_of (f : field) : regex :=
  match f with
  | FSummary => summary_re
  | FType => type_re
  | FLabels => labels_re
  end.

Definition extracted (f : field) (m : success) : list string :=
  match f with
  | FSummary => [strip (group_1 m)]
  | FType => [title (group_1 m)]
  | FLabels => map strip (split_on ","%char (group_1 m))
  end.

Definition field_value (f : field) (d : JiraDetails) : list string :=
  match f with
  | FSummary => [summary d]
  | FType => [issue_type d]
  | FLabels => List.tl (labels d)
  end.

(** [x] is a number. *)
Definition is_num (x : float) : Prop := is_nan x = false.

Section Sorted.
Context {A K : Type} (key : A -> K) (lt : K -> K -> bool) (ok : K -> Prop).

(** Every key is one on which the order is known to behave. *)
Definition keys_ok (l : list A) : Prop := Forall (fun a => ok (key a)) l.

(** No later element has a smaller key. *)
Definition ascending (l : list A) : Prop :=
  StronglySorted (fun a b => lt (key b) (key a) = false) l.

(** No later element has a greater key. *)
Definition descending (l : list A) : Prop :=
  StronglySorted (fun a b => lt (key a) (key b) = false) l.

(** Neither key is smaller than the other. *)
Definition same_key (v k : K) : bool := negb (lt v k) && negb (lt k v).

End Sorted.

Section Scores.
Local Open Scope float_scope.

(** The combined score as the specification writes it. *)
Definition spec_combined (summaryScore descriptionScore labelsScore : float) : float :=
  min2 1.0 (0.7 * summaryScore + 0.3 * descriptionScore + 0.2 * labelsScore).

(** The combined score of the code, from the three ratios. *)
Definition combined_of_ratios (rs rd rl : Z) : float :=
  min2 (div100 rs * 0.7 + div100 rd * 0.3 + div100 rl * 0.2) 1.0.

Definition in_unit (x : float) : bool :=
  negb (is_nan x) && (0 <=? x) && (x <=? 1).

(** What is checked of every triple of ratios between 0 and 100: the three
    field scores and the combined score are numbers of [[0, 1]], and the
    code's formula and the specification's give the same float. *)
Definition triple_ok (rs rd rl : Z) : bool :=
  in_unit (div100 rs) && in_unit (div100 rd) && in_unit (div100 rl)
  && in_unit (combined_of_ratios rs rd rl)
  && Leibniz.eqb (combined_of_ratios rs rd rl)
                 (spec_combined (div100 rs) (div100 rd) (div100 rl)).

Definition ratios : list Z := map Z.of_nat (seq 0 101).

Context {lib : PyLib}.

(** The ratios of fuzzywuzzy are integers between 0 and 100. *)
Definition ratio_range : Prop :=
  forall a b, (0 <= token_sort_ratio a b <= 100)%Z.

(** The three ratios behind the field scores of an issue; a field that is
    absent or empty counts for 0. *)
Definition summary_ratio (q : string) (i : JiraIssue.t) : Z :=
  token_sort_ratio (lower q) (lower (JiraIssue.summary i)).

Definition description_ratio (q : string) (i : JiraIssue.t) : Z :=
  match JiraIssue.description i with
  | Some d => if truthy d then token_sort_ratio (lower q) (lower d) else 0%Z
  | None => 0%Z
  end.

Definition labels_ratio (q : string) (i : JiraIssue.t) : Z :=
  match JiraIssue.labels i with
  | [] => 0%Z
  | ls => token_sort_ratio (lower q) (lower (join " " ls))
  end.

(** The item passes the cutoff. *)
Definition passes (q : string) (th : float) (i : JiraIssue.t) : bool :=
  th <=? combined_score q i.

(** The result built for an item that passes. *)
Definition result_of (q : string) (th : float) (i : JiraIssue.t) : IssueMatchResult.t :=
  IssueMatchResult.mk (combined_score q i) i (matched_fields_of q th i).

(** The matched fields as the specification words them: the fields whose
    own score is at or above the threshold. *)
Definition field_scores (q : string) (i : JiraIssue.t) : list (string * float) :=
  [("summary"%string, summary_score q i);
   ("description"%string, description_score q i);
   ("labels"%string, labels_score q i)].

Definition spec_matched_fields (q : string) (th : float) (i : JiraIssue.t) : list string :=
  map fst (filter (fun f => th <=? snd f) (field_scores q i)).

End Scores.

End Spec.

(** ** Further notions and sample data *)

Module Notions.

Import PyStr Re Types Json Effects PyBuiltins GitHubClient JiraClient WebhookServer Spec.

(** A created comment on pull request 7 that asks for a Jira issue. *)
Definition comment_payload : json :=
  JDict [("action", JStr "created");
         ("comment", JDict [("body", JStr "please create jira issue")]);
         ("issue", JDict [("number", JNum 7); ("pull_request", JDict [])])].

(** The comment [_handle_pull_request] writes for a pull request labelled
    [needs-jira]. *)
Definition auto_comment (title : string) : string :=
  "Auto-triggered: Create Jira issue for this PR" ++ nl ++ nl
  ++ "Type: Task" ++ nl ++ "Summary: " ++ title.

(** An opened pull request 7 with the label [needs-jira]. *)
Definition opened_payload : json :=
  JDict [("action", JStr "opened");
         ("pull_request",
          JDict [("number", JNum 7); ("title", JStr "Add retry to the uploader");
                 ("labels", JList [JDict [("name", JStr "bug")];
                                   JDict [("name", JStr "needs-jira")]])])].

(** Every call a computation makes satisfies [P]. *)
Definition only {A : Type} (P : call -> Prop) (m : M A) : Prop :=
  forall st o st', m st = (o, st') ->
    exists new, trace st' = (trace st ++ new)%list /\ Forall P new.

(** A computation leaves the cached issues and the time of the last sync
    as they are. *)
Definition keeps_cache {A : Type} (m : M A) : Prop :=
  forall st o st', m st = (o, st') ->
    issues st' = issues st /\ last_sync st' = last_sync st.

(** The first call a computation makes is [c]. *)
Definition starts_with {A : Type} (c : call) (m : M A) : Prop :=
  forall st o st', m st = (o, st') ->
    exists rest, trace st' = (trace st ++ c :: rest)%list.

Definition any_call (c : call) : Prop := True.

Definition is_github_call (c : call) : Prop :=
  match c with
  | GetPull _ | GetIssue _ | CreateComment _ _ => True
  | _ => False
  end.

Definition is_create_issue (c : call) : Prop :=
  match c with
  | CreateIssue _ => True
  | _ => False
  end.

Definition not_create_issue (c : call) : Prop :=
  match c with
  | CreateIssue _ => False
  | _ => True
  end.

(** The text [_process_pr_comment_for_jira] searches the cache for. *)
Definition search_text_of (config : Config) (comment : string)
    (pr : GitHubPullRequest.t) : string :=
  let jira_details :=
    extract_jira_details config comment (GitHubPullRequest.title pr)
      (GitHubPullRequest.body pr) (Some (GitHubPullRequest.number pr)) in
  summary jira_details ++ " " ++ description jira_details.

(** The request [_process_pr_comment_for_jira] sends to create an issue. *)
Definition request_of (config : Config) (comment : string)
    (pr : GitHubPullRequest.t) : CreateJiraIssueRequest.t :=
  let jira_details :=
    extract_jira_details config comment (GitHubPullRequest.title pr)
      (GitHubPullRequest.body pr) (Some (GitHubPullRequest.number pr)) in
  CreateJiraIssueRequest.mk (summary jira_details) (issue_type jira_details)
    (project_key (jira config)) (Some (description jira_details))
    (labels jira_details) None None.

(** The state after the check of the cache's age, and the sync if the
    cache is stale. *)
Definition synced_from {lib : PyLib} (config : Config) (w : World) (st1 st2 : State)
  : Prop :=
  exists stale, needs_sync w st1 = (Ok stale, st1)
    /\ if stale : bool
       then sync_issues config w (add_log st1 INFO "Syncing Jira issues...") = (Ok tt, st2)
       else st2 = st1.

(** The names of the labels of a pull request of a payload, as
    [_handle_pull_request] collects them. *)
Definition pr_label_names (pr : json) : exn + list json :=
  match pr with
  | JDict d =>
      match lookup "labels" d with
      | Some v =>
          match iterate v with
          | inr l => label_names l
          | inl e => inl e
          end
      | None => inr []
      end
  | _ => inl (AttributeError "object has no attribute 'get'")
  end.

(** The payload of an opened pull request [pr] that carries the label
    [needs-jira]. *)
Definition opened_with_needs_jira (payload pr : json) : Prop :=
  exists names,
    getitem payload "action" = inr (JStr "opened")
    /\ getitem payload "pull_request" = inr pr
    /\ pr_label_names pr = inr names
    /\ existsb (fun x => eq_str x "needs-jira") names = true.

(** The payload of a new comment [text] on the pull request [n]. *)
Definition comment_event (payload : json) (n : Z) (text : string) : Prop :=
  exists comment issue,
    getitem payload "action" = inr (JStr "created")
    /\ getitem payload "comment" = inr comment
    /\ getitem payload "issue" = inr issue
    /\ contains issue "pull_request" = inr true
    /\ getitem issue "number" = inr (JNum n)
    /\ getitem comment "body" = inr (JStr text).

(** The calls to the Jira SDK. *)
Definition is_jira_call (c : call) : bool :=
  match c with
  | SearchIssues _ _ _ | CreateIssue _ | FetchIssue _ => true
  | _ => false
  end.

Definition jira_calls (l : list call) : list call := filter is_jira_call l.

(** Two states with the same calls to Jira, the same cache and the same
    time of the last sync. *)
Definition same_jira (s1 s2 : State) : Prop :=
  jira_calls (trace s1) = jira_calls (trace s2)
  /\ issues s1 = issues s2 /\ last_sync s1 = last_sync s2.

(** The pairs of words of the six patterns of [is_create_jira_comment]. *)
Definition trigger_words : list (string * string) :=
  [("create", "jira"); ("make", "jira"); ("new", "jira"); ("jira", "issue");
   ("create", "issue"); ("create", "ticket")].

(** [s] holds the two words with white space between them. *)
Definition has_phrase (s : string) (words : string * string) : Prop :=
  exists before space after,
    space <> EmptyString /\ class_all is_space space = true
    /\ s = before ++ fst words ++ space ++ snd words ++ after.

(** The two dates of an issue of the SDK are absent, empty, or accepted by
    [fromisoformat]. *)
Definition date_ok {lib : PyLib} (s : option string) : bool :=
  match parse_date s with
  | inr _ => true
  | inl _ => false
  end.

Definition dates_ok {lib : PyLib} (issue : RawIssue) : bool :=
  date_ok (f_created issue) && date_ok (f_updated issue).

End Notions.

(** ** config.py *)

Module ConfigPy.

Import PyStr Types Effects.

(** [os.environ] as [load_dotenv()] leaves it. *)
Definition environ : Type := string -> option string.

Section WithEnviron.

Variable env : environ.

(** [int(s)] for a [str]; [None] stands for its [ValueError]. *)
Variable int_of_str : string -> option Z.

(** [get_required_env_var] *)
Definition get_required_env_var (name : string) : exn + string :=
  match env name with
  | Some value =>
      if truthy value then inr value
      else inl (ValueError ("Required environment variable " ++ name ++ " is not set"))
  | None => inl (ValueError ("Required environment variable " ++ name ++ " is not set"))
  end.

(** [get_optional_env_var]: [os.getenv(name, default)] *)
Definition get_optional_env_var (name default : string) : string :=
  match env name with
  | Some value => value
  | None => default
  end.

Definition and_then {A B} (r : exn + A) (k : A -> exn + B) : exn + B :=
  match r with
  | inl e => inl e
  | inr a => k a
  end.

(** [load_config]: the arguments are evaluated in the order written. *)
Definition load_config : exn + Config :=
  and_then (get_required_env_var "JIRA_HOST") (fun host =>
  and_then (get_required_env_var "JIRA_USERNAME") (fun username =>
  and_then (get_required_env_var "JIRA_API_TOKEN") (fun api_token =>
  and_then (get_required_env_var "JIRA_PROJECT_KEY") (fun project_key =>
  let auth_method := get_optional_env_var "JIRA_AUTH_METHOD" "basic" in
  and_then (get_required_env_var "GITHUB_TOKEN") (fun token =>
  and_then (get_required_env_var "GITHUB_WEBHOOK_SECRET") (fun webhook_secret =>
  and_then (get_required_env_var "GITHUB_OWNER") (fun owner =>
  and_then (get_required_env_var "GITHUB_REPO") (fun repo =>
  let port_text := get_optional_env_var "PORT" "3000" in
  match int_of_str port_text with
  | None => inl (ValueError ("invalid literal for int() with base 10: '"
                             ++ port_text ++ "'"))
  | Some port =>
      let name := get_optional_env_var "MCP_SERVER_NAME" "jira-github-mcp" in
      inr (mkConfig (mkJiraConfig host username api_token project_key auth_method)
                    (mkGitHubConfig token webhook_secret owner repo)
                    (mkServerConfig port name))
  end)))))))).

End WithEnviron.

Definition required_fields (config : Config) : list (string * string) :=
  [(host (jira config), "JIRA_HOST");
   (username (jira config), "JIRA_USERNAME");
   (api_token (jira config), "JIRA_API_TOKEN");
   (project_key (jira config), "JIRA_PROJECT_KEY");
   (token (github config), "GITHUB_TOKEN");
   (webhook_secret (github config), "GITHUB_WEBHOOK_SECRET");
   (owner (github config), "GITHUB_OWNER");
   (repo (github config), "GITHUB_REPO")].

(** [validate_config] *)
Definition validate_config (config : Config) : exn + unit :=
  let missing_fields :=
    map snd (filter (fun p => negb (truthy (fst p))) (required_fields config)) in
  match missing_fields with
  | [] => inr tt
  | _ => inl (ValueError ("Missing required environment variables: "
                          ++ join ", " missing_fields))
  end.

(** [get_config]: the module's global [config] is read, and set before the
    validation. *)
Definition get_config (env : environ) (int_of_str : string -> option Z)
    (config : option Config) : (exn + Config) * option Config :=
  match config with
  | Some c => (inr c, config)
  | None =>
      match load_config env int_of_str with
      | inl e => (inl e, None)
      | inr c =>
          match validate_config c with
          | inl e => (inl e, Some c)
          | inr _ => (inr c, Some c)
          end
      end
  end.

(** The configuration made of the environment's values and a port. *)
Definition config_of (env : environ) (port : Z) : Config :=
  let value name := get_optional_env_var env name "" in
  mkConfig
    (mkJiraConfig (value "JIRA_HOST") (value "JIRA_USERNAME") (value "JIRA_API_TOKEN")
       (value "JIRA_PROJECT_KEY") (get_optional_env_var env "JIRA_AUTH_METHOD" "basic"))
    (mkGitHubConfig (value "GITHUB_TOKEN") (value "GITHUB_WEBHOOK_SECRET")
       (value "GITHUB_OWNER") (value "GITHUB_REPO"))
    (mkServerConfig port (get_optional_env_var env "MCP_SERVER_NAME" "jira-github-mcp")).

(** The names [load_config] requires, in the order it reads them. *)
Definition required_names : list string :=
  ["JIRA_HOST"; "JIRA_USERNAME"; "JIRA_API_TOKEN"; "JIRA_PROJECT_KEY";
   "GITHUB_TOKEN"; "GITHUB_WEBHOOK_SECRET"; "GITHUB_OWNER"; "GITHUB_REPO"].

(** A variable is set to a non-empty value. *)
Definition is_set (env : environ) (name : string) : bool :=
  match env name with
  | Some value => truthy value
  | None => false
  end.

(** [int] on the decimal digits of a port number. *)
Fixpoint digits_value (acc : Z) (s : string) : option Z :=
  match s with
  | EmptyString => Some acc
  | String c s' =>
      let n := nat_of_ascii c in
      if ((48 <=? n) && (n <=? 57))%nat
      then digits_value (10 * acc + Z.of_nat (n - 48)) s'
      else None
  end.

Definition sample_int (s : string) : option Z :=
  match s with
  | EmptyString => None
  | _ => digits_value 0 s
  end.

(** An environment with every required variable but [GITHUB_OWNER]. *)
Definition sample_env (name : string) : option string :=
  if String.eqb name "JIRA_HOST" then Some "https://example.atlassian.net"
  else if String.eqb name "JIRA_USERNAME" then Some "dev@example.com"
  else if String.eqb name "JIRA_API_TOKEN" then Some "secret"
  else if String.eqb name "JIRA_PROJECT_KEY" then Some "PROJ"
  else if String.eqb name "GITHUB_TOKEN" then Some "ghp_token"
  else if String.eqb name "GITHUB_WEBHOOK_SECRET" then Some "hook"
  else if String.eqb name "GITHUB_OWNER" then Some ""
  else if String.eqb name "PORT" then Some "8080"
  else None.

(** The same with [GITHUB_OWNER] and [GITHUB_REPO]. *)
Definition full_env (name : string) : option string :=
  if String.eqb name "GITHUB_OWNER" then Some "octo"
  else if String.eqb name "GITHUB_REPO" then Some "demo"
  else sample_env name.

End ConfigPy.

(** ** auth.py and the constructor of [JiraClient] *)

Module AuthPy.

Import PyStr Types Effects.

Definition b64_alphabet : string :=
  "ABCDEFGHIJKLMNOPQRSTUVWXYZabcdefghijklmnopqrstuvwxyz0123456789+/".

Definition b64_char (n : nat) : ascii :=
  match String.get n b64_alphabet with
  | Some c => c
  | None => "="%char
  end.

(** [base64.b64encode] on the bytes of a string. *)
Fixpoint b64encode (s : string) : string :=
  match s with
  | EmptyString => EmptyString
  | String a EmptyString =>
      let x := nat_of_ascii a in
      String (b64_char (x / 4)) (String (b64_char (x mod 4 * 16)) "==")
  | String a (String b EmptyString) =>
      let x := nat_of_ascii a in
      let y := nat_of_ascii b in
      String (b64_char (x / 4))
        (String (b64_char (x mod 4 * 16 + y / 16))
           (String (b64_char (y mod 16 * 4)) "="))
  | String a (String b (String c s')) =>
      let x := nat_of_ascii a in
      let y := nat_of_ascii b in
      let z := nat_of_ascii c in
      String (b64_char (x / 4))
        (String (b64_char (x mod 4 * 16 + y / 16))
           (String (b64_char (y mod 16 * 4 + z / 64))
              (String (b64_char (z mod 64)) (b64encode s'))))
  end.

Inductive authenticator : Type :=
| BearerAuthenticator (token : string)
| BasicAuthenticator (username password : string).

(** [BearerAuthenticator.__init__] *)
Definition new_bearer (token : string) : exn + authenticator :=
  if negb (truthy token)
  then inl (ValueError "Bearer authentication requires a token")
  else inr (BearerAuthenticator token).

(** [BasicAuthenticator.__init__] *)
Definition new_basic (username password : string) : exn + authenticator :=
  if negb (truthy username) || negb (truthy password)
  then inl (ValueError "Basic authentication requires both username and password/token")
  else inr (BasicAuthenticator username password).

(** [get_headers] of the two classes, a [dict] of one entry. *)
Definition get_headers (a : authenticator) : list (string * string) :=
  match a with
  | BearerAuthenticator token => [("Authorization", "Bearer " ++ token)]
  | BasicAuthenticator username password =>
      let auth_string := username ++ ":" ++ password in
      let encoded_auth := b64encode auth_string in
      [("Authorization", "Basic " ++ encoded_auth)]
  end.

(** [create_authenticator]; [None] is Python's [None]. *)
Definition create_authenticator (username api_token : option string)
    (auth_method : string) : exn + authenticator :=
  if String.eqb auth_method "basic" then
    match username, api_token with
    | Some u, Some t => new_basic u t
    | _, _ => inl (ValueError "Basic authentication requires both username and api_token")
    end
  else if String.eqb auth_method "bearer" then
    match api_token with
    | Some t => new_bearer t
    | None => inl (ValueError "Bearer authentication requires an api_token")
    end
  else inl (ValueError ("Unknown authentication method: " ++ auth_method)).

(** [s.replace(old, new)] for a non-empty [old]: the occurrences are
    replaced from the left, without overlap.  [skip] counts the characters
    of an occurrence still to pass. *)
Fixpoint replace_from (old new : string) (skip : nat) (s : string) : string :=
  match s with
  | EmptyString => EmptyString
  | String c s' =>
      match skip with
      | S k => replace_from old new k s'
      | O =>
          if String.prefix old s
          then new ++ replace_from old new (String.length old - 1) s'
          else String c (replace_from old new 0 s')
      end
  end.

Definition replace (old new s : string) : string := replace_from old new 0 s.

(** [headers.get(k, default)] *)
Fixpoint dict_get (k : string) (d : list (string * string)) (default : string) : string :=
  match d with
  | [] => default
  | (k', v) :: d' => if String.eqb k k' then v else dict_get k d' default
  end.

(** The keyword arguments of the call [JIRA(...)]. *)
Inductive jira_arguments : Type :=
| basic_auth (server username api_token : string)
| token_auth (server token : string).

(** What the constructor leaves: the client of the SDK, the empty cache
    and no time of sync. *)
Record client (J : Type) : Type := mkClient {
  jira_sdk : J;
  issues0 : list JiraIssue.t;
  last_sync0 : option datetime
}.
Arguments mkClient {J}.

Section Init.

Context {J : Type}.

(** The class [JIRA] of the SDK: its constructor may raise. *)
Variable JIRA : jira_arguments -> exn + J.

(** The authenticator of [JiraClient.__init__]: the [try] block and its
    [except ValueError], with the warning logged. *)
Definition init_authenticator (config : Config)
  : (exn + authenticator) * list (level * string) :=
  let jc := jira config in
  match create_authenticator (Some (username jc)) (Some (api_token jc)) (auth_method jc) with
  | inr a => (inr a, [])
  | inl (ValueError msg) =>
      (create_authenticator (Some (username jc)) (Some (api_token jc)) "basic",
       [(WARNING, "Invalid auth method '" ++ auth_method jc
                  ++ "', falling back to basic auth: " ++ msg)])
  | inl e => (inl e, [])
  end.

(** The arguments [JiraClient.__init__] builds [JIRA] with. *)
Definition init_arguments (config : Config) (a : authenticator) : jira_arguments :=
  let jc := jira config in
  let auth_headers := get_headers a in
  let auth_header := dict_get "Authorization" auth_headers "" in
  if String.prefix "Basic " auth_header then
    basic_auth (host jc) (username jc) (api_token jc)
  else if String.prefix "Bearer " auth_header then
    let token := replace "Bearer " "" auth_header in
    token_auth (host jc) token
  else
    basic_auth (host jc) (username jc) (api_token jc).

(** The end of the constructor: the call of [JIRA], the empty cache and
    the last message. *)
Definition connect (config : Config) (logs : list (level * string))
    (arguments : jira_arguments) : (exn + client J) * list (level * string) :=
  match JIRA arguments with
  | inl e => (inl e, logs)
  | inr j =>
      (inr (mkClient j [] None),
       app logs [(INFO, "Initialized Jira client with " ++ auth_method (jira config)
                        ++ " authentication")])
  end.

(** [JiraClient.__init__] *)
Definition init (config : Config) : (exn + client J) * list (level * string) :=
  match init_authenticator config with
  | (inl e, logs) => (inl e, logs)
  | (inr a, logs) => connect config logs (init_arguments config a)
  end.

End Init.

(** [old] occurs in [s]. *)
Definition occurs (old s : string) : Prop :=
  exists before after, s = before ++ old ++ after.

(** A configuration for the login, with the given user, token and method. *)
Definition login_config (user tok method : string) : Config :=
  mkConfig (mkJiraConfig "https://example.atlassian.net" user tok "PROJ" method)
           (mkGitHubConfig "ghp_token" "hook" "octo" "demo")
           (mkServerConfig 3000 "jira-github-mcp").

End AuthPy.

(** ** [src/mcp_server.py]: the server of tools *)

Module McpTools.

Import PyStr Types Json Effects GitHubClient JiraClient WebhookServer.
Local Open Scope py_scope.

(** A handler of a tool: [async def handler(args: dict) -> str]. *)
Definition handler : Type := json -> M string.

(** [SimpleMCPServer]: the list [tools] and the [dict] [tool_handlers]. *)
Record SimpleMCPServer : Type := mkServer {
  server_name : string;
  tools : list json;
  tool_handlers : list (string * handler)
}.

(** [SimpleMCPServer.__init__] *)
Definition new_server (name : string) : SimpleMCPServer := mkServer name [] [].

(** [d[k] = v]: the binding of [k] is replaced where it is, or added last. *)
Fixpoint dict_set {V : Type} (k : string) (v : V) (d : list (string * V))
  : list (string * V) :=
  match d with
  | [] => [(k, v)]
  | (k', v') :: d' =>
      if String.eqb k k' then (k, v) :: d' else (k', v') :: dict_set k v d'
  end.

Fixpoint dict_find {V : Type} (k : string) (d : list (string * V)) : option V :=
  match d with
  | [] => None
  | (k', v) :: d' => if String.eqb k k' then Some v else dict_find k d'
  end.

(** [add_tool] *)
Definition add_tool (name description : string) (input_schema : json) (h : handler)
    (s : SimpleMCPServer) : SimpleMCPServer :=
  mkServer (server_name s)
    (tools s ++ [JDict [("name", JStr name); ("description", JStr description);
                        ("inputSchema", input_schema)]])
    (dict_set name h (tool_handlers s)).

(** [v.get(k, default)] *)
Definition get (v : json) (k : string) (default : json) : exn + json :=
  match v with
  | JDict d =>
      match lookup k d with
      | Some x => inr x
      | None => inr default
      end
  | _ => inl (AttributeError "object has no attribute 'get'")
  end.

Definition text_content (text : string) : json :=
  JDict [("content", JList [JDict [("type", JStr "text"); ("text", JStr text)]])].

Definition error_content (text : string) : json :=
  JDict [("content", JList [JDict [("type", JStr "text"); ("text", JStr text)]]);
         ("isError", JBool true)].

(** [tool_name in self.tool_handlers]: the keys are strings; a list or a
    dict is not hashable. *)
Definition find_handler (s : SimpleMCPServer) (tool_name : json)
  : exn + option handler :=
  match tool_name with
  | JStr n => inr (dict_find n (tool_handlers s))
  | JList _ => inl (TypeError "unhashable type: 'list'")
  | JDict _ => inl (TypeError "unhashable type: 'dict'")
  | _ => inr None
  end.

(** [handle_request] *)
Definition handle_request {lib : PyLib} (s : SimpleMCPServer) (request : json)
  : M json :=
  method <- lift (get request "method" JNull) ;;
  params <- lift (get request "params" (JDict [])) ;;
  if eq_str method "tools/list" then ret (JDict [("tools", JList (tools s))])
  else if eq_str method "tools/call" then
    tool_name <- lift (get params "name" JNull) ;;
    arguments <- lift (get params "arguments" (JDict [])) ;;
    found <- lift (find_handler s tool_name) ;;
    match found with
    | Some h =>
        try_except
          (result <- h arguments ;; ret (text_content result))
          (fun e => ret (error_content ("Error: " ++ str_exn e)))
    | None => ret (error_content ("Unknown tool: " ++ str_json tool_name))
    end
  else ret (JDict [("error", JStr ("Unknown method: " ++ str_json method))]).

(** An argument of a tool that the dataclass declares a [str]; any other
    value is refused here. *)
Definition as_str (v : json) : exn + string :=
  match v with
  | JStr t => inr t
  | _ => inl (TypeError "argument is not a str")
  end.

(** The same for [Optional[str]]. *)
Definition as_optional_str (v : json) : exn + option string :=
  match v with
  | JNull => inr None
  | JStr t => inr (Some t)
  | _ => inl (TypeError "argument is not a str")
  end.

(** The same for [List[str]]. *)
Fixpoint as_str_list (l : list json) : exn + list string :=
  match l with
  | [] => inr []
  | v :: l' =>
      match as_str v, as_str_list l' with
      | inr t, inr ts => inr (t :: ts)
      | inl e, _ => inl e
      | _, inl e => inl e
      end
  end.

Definition as_labels (v : json) : exn + list string :=
  match v with
  | JList l => as_str_list l
  | _ => inl (TypeError "argument is not a list")
  end.

Section WithEnv.
Context {lib : PyLib} (config : Config) (w : World).

(** [_sync_jira_issues] *)
Definition _sync_jira_issues (args : json) : M string :=
  sync_issues config w ;;
  all <- get_all_issues ;;
  let count := Z.of_nat (List.length all) in
  ret ("Successfully synced " ++ str_of_Z count ++ " Jira issues").

(** The [CreateJiraIssueRequest] of [_create_jira_issue]: the arguments are
    read in the order of the keywords. *)
Definition request_of_args (args : json) : exn + CreateJiraIssueRequest.t :=
  match getitem args "summary" with
  | inl e => inl e
  | inr summary =>
  match get args "description" JNull with
  | inl e => inl e
  | inr description =>
  match getitem args "issueType" with
  | inl e => inl e
  | inr issue_type =>
  match get args "labels" (JList []) with
  | inl e => inl e
  | inr labels =>
  match get args "assignee" JNull with
  | inl e => inl e
  | inr assignee =>
  match get args "priority" JNull with
  | inl e => inl e
  | inr priority =>
  match as_str summary, as_optional_str description, as_str issue_type with
  | inr s, inr d, inr t =>
      match as_labels labels, as_optional_str assignee, as_optional_str priority with
      | inr ls, inr a, inr p =>
          inr (CreateJiraIssueRequest.mk s t (project_key (jira config)) d ls a p)
      | inl e, _, _ => inl e
      | _, inl e, _ => inl e
      | _, _, inl e => inl e
      end
  | inl e, _, _ => inl e
  | _, inl e, _ => inl e
  | _, _, inl e => inl e
  end end end end end end end.

(** [_create_jira_issue] *)
Definition _create_jira_issue (args : json) : M string :=
  request <- lift (request_of_args args) ;;
  new_issue <- create_issue w request ;;
  ret ("Created Jira issue: " ++ JiraIssue.key new_issue ++ " - "
       ++ JiraIssue.summary new_issue).

(** [start]: the first sync, whose failure is logged. *)
Definition start : M unit :=
  try_except
    (sync_issues config w ;; logger INFO "Initial Jira sync completed")
    (fun error =>
       logger ERROR ("Failed to sync Jira issues on startup: " ++ str_exn error)) ;;
  logger INFO (name (server config) ++ " MCP server started").

End WithEnv.

(** A request that calls the tool [tool] with [arguments]. *)
Definition tools_call (tool : string) (arguments : json) : json :=
  JDict [("method", JStr "tools/call");
         ("params", JDict [("name", JStr tool); ("arguments", arguments)])].

(** A request [dict] whose [params], when given, are a [dict] with a
    hashable [name]. *)
Definition well_formed (request : json) : bool :=
  match request with
  | JDict d =>
      match lookup "params" d with
      | None => true
      | Some (JDict p) =>
          match lookup "name" p with
          | Some (JList _) | Some (JDict _) => false
          | _ => true
          end
      | Some _ => false
      end
  | _ => false
  end.

(** A server with the two tools of the Jira cache. *)
Definition sample_server {lib : PyLib} (config : Config) (w : World) : SimpleMCPServer :=
  add_tool "create_jira_issue" "Create a new Jira issue"
    (JDict [("type", JStr "object")]) (_create_jira_issue config w)
    (add_tool "sync_jira_issues" "Sync all Jira issues from the configured project"
       (JDict [("type", JStr "object"); ("properties", JDict [])])
       (_sync_jira_issues config w)
       (new_server "jira-github-mcp")).

(** The names of the tools a server lists. *)
Definition tool_name_of (tool : json) : json :=
  match tool with
  | JDict d => match lookup "name" d with Some v => v | None => JNull end
  | _ => JNull
  end.

Definition listed (s : SimpleMCPServer) (n : string) : Prop :=
  In (JStr n) (map tool_name_of (tools s)).

(** The servers built with [add_tool]. *)
Inductive built : SimpleMCPServer -> Prop :=
| built_new name : built (new_server name)
| built_add name description input_schema h s :
    built s -> built (add_tool name description input_schema h s).

End McpTools.

(** ** [JiraClient.get_boards] *)

Module Boards.

Import PyStr Types Json Effects JiraClient.
Local Open Scope py_scope.

(** [JiraBoard] *)
Record JiraBoard : Type := mkJiraBoard {
  board_id : Z;
  board_name : string;
  board_type : string;
  board_project_key : option json
}.

(** What [get_boards] reads of a board of the SDK; [b_location] is [None]
    for a board without the attribute [location]. *)
Record RawBoard : Type := mkRawBoard {
  b_id : Z;
  b_name : string;
  b_type : string;
  b_location : option json
}.

(** The truth value of a JSON value. *)
Definition json_truthy (v : json) : bool :=
  match v with
  | JNull => false
  | JBool b => b
  | JNum n => negb (Z.eqb n 0)
  | JStr t => truthy t
  | JList l => match l with [] => false | _ => true end
  | JDict d => match d with [] => false | _ => true end
  end.

(** [hasattr(board, 'location') and board.location], and the [dict] that
    [location.get] then needs. *)
Definition location_of (board : RawBoard) : exn + option (list (string * json)) :=
  match b_location board with
  | Some v =>
      if json_truthy v
      then match v with
           | JDict d => inr (Some d)
           | _ => inl (AttributeError "object has no attribute 'get'")
           end
      else inr None
  | None => inr None
  end.

(** [location.get('projectKey')] *)
Definition project_key_of (location : list (string * json)) : json :=
  match lookup "projectKey" location with
  | Some v => v
  | None => JNull
  end.

(** One turn of the loop of [get_boards]. *)
Definition add_board (key : string) (project_boards : list JiraBoard)
    (board : RawBoard) : exn + list JiraBoard :=
  match location_of board with
  | inl e => inl e
  | inr (Some location) =>
      if WebhookServer.eq_str (project_key_of location) key
      then inr (app project_boards
                  [mkJiraBoard (b_id board) (b_name board) (b_type board)
                     (Some (project_key_of location))])
      else inr project_boards
  | inr None =>
      inr (app project_boards
             [mkJiraBoard (b_id board) (b_name board) (b_type board) None])
  end.

(** The loop [for board in boards]. *)
Fixpoint for_boards (key : string) (boards : list RawBoard)
    (project_boards : list JiraBoard) : exn + list JiraBoard :=
  match boards with
  | [] => inr project_boards
  | board :: boards' =>
      match add_board key project_boards board with
      | inl e => inl e
      | inr project_boards' => for_boards key boards' project_boards'
      end
  end.

Section WithSdk.
Context (config : Config).

(** [self.jira.boards()] *)
Variable jira_boards : M (list RawBoard).

(** [get_boards] *)
Definition get_boards : M (list JiraBoard) :=
  try_except
    (boards <- jira_boards ;;
     lift (for_boards (project_key (jira config)) boards []))
    (fun error =>
       logger ERROR ("Error fetching Jira boards: " ++ str_exn error) ;;
       raise error).

End WithSdk.

(** The location of a board of the SDK, when it has one, is a [dict]. *)
Definition location_typed (board : RawBoard) : bool :=
  match location_of board with
  | inr _ => true
  | inl _ => false
  end.

(** A board of the SDK that has no location, or the location of the
    project [key]. *)
Definition board_kept (key : string) (board : RawBoard) : bool :=
  match location_of board with
  | inr (Some location) => WebhookServer.eq_str (project_key_of location) key
  | _ => true
  end.

(** A board of another project, one of the project, and one without
    location. *)
Definition sample_boards : list RawBoard :=
  [mkRawBoard 1 "Other" "scrum" (Some (JDict [("projectKey", JStr "OTHER")]));
   mkRawBoard 2 "Ours" "kanban" (Some (JDict [("projectKey", JStr "PROJ")]));
   mkRawBoard 3 "Loose" "scrum" None].

End Boards.

(** * Properties *)

(** ** The issue cache *)

Module CacheFacts.

Import PyStr Types Json Effects JiraClient Spec.

Ltac run :=
  unfold try_except, bind, ret, raise, lift, perform, logger, get_state,
    set_issues, set_last_sync, datetime_now in *; simpl in *.

Section WithEnv.
Context {lib : PyLib} (config : Config) (w : World).

(** A run of [sync_issues] is decided by the answer to the search and by
    the transformation of the issues found. *)
Lemma sync_issues_run (st : State) :
  sync_issues config w st =
  let tr := (trace st ++ [SearchIssues (sync_jql config) 1000 sync_fields])%list in
  let lg := (log st ++ [(INFO, "Syncing Jira issues...")])%list in
  match w_search_issues w (trace st) (sync_jql config) 1000 sync_fields with
  | inl e =>
      (Raise e, mkState (issues st) (last_sync st) tr
                  (lg ++ [(ERROR, "Error syncing Jira issues: " ++ str_exn e)]))
  | inr found =>
      match transform_all found with
      | inl e =>
          (Raise e, mkState (issues st) (last_sync st) tr
                      (lg ++ [(ERROR, "Error syncing Jira issues: " ++ str_exn e)]))
      | inr items =>
          (Ok tt, mkState items (Some (w_now w tr)) tr
                    (lg ++ [(INFO, "Synced " ++ str_of_Z (Z.of_nat (length items))
                                   ++ " issues from Jira")]))
      end
  end.
Proof.
  unfold sync_issues, sync_jql. run.
  destruct (w_search_issues w (trace st) _ 1000 sync_fields) as [e|found]; simpl.
  - reflexivity.
  - destruct (transform_all found) as [e|items]; reflexivity.
Qed.

End WithEnv.

(** C10.  [sync_issues] is atomic on failure.  When the search of the Jira
    SDK raises [e], [sync_issues] raises [e] and leaves [issues] and
    [last_sync] as they were; whenever a run changes one of the two, the
    search succeeded, the run returned normally, [issues] is the list of the
    transformed issues and [last_sync] is the clock's reading. *)
Theorem sync_issues_atomic {lib : PyLib} (config : Config) (w : World) (st : State) :
  let fetch := w_search_issues w (trace st) (sync_jql config) 1000 sync_fields in
  let now := w_now w (trace st ++ [SearchIssues (sync_jql config) 1000 sync_fields]) in
  (forall e, fetch = inl e ->
     exists st', sync_issues config w st = (Raise e, st')
                 /\ issues st' = issues st /\ last_sync st' = last_sync st)
  /\ (forall e st', sync_issues config w st = (Raise e, st') ->
        issues st' = issues st /\ last_sync st' = last_sync st)
  /\ (forall o st', sync_issues config w st = (o, st') ->
        issues st' <> issues st \/ last_sync st' <> last_sync st ->
        exists found items,
          fetch = inr found /\ transform_all found = inr items
          /\ o = Ok tt /\ issues st' = items /\ last_sync st' = Some now).
Proof.
  intros fetch now. subst fetch now.
  split; [| split].
  - intros e He. rewrite sync_issues_run. cbv zeta. rewrite He.
    eexists. split; [reflexivity | split; reflexivity].
  - intros e st'. rewrite sync_issues_run. cbv zeta.
    destruct (w_search_issues w (trace st) _ 1000 sync_fields) as [e1|found].
    + intros H. inversion H. split; reflexivity.
    + destruct (transform_all found) as [e1|items]; intros H; inversion H.
      split; reflexivity.
  - intros o st'. rewrite sync_issues_run. cbv zeta.
    destruct (w_search_issues w (trace st) _ 1000 sync_fields) as [e1|found].
    + intros H [C|C]; inversion H; subst; simpl in C; congruence.
    + destruct (transform_all found) as [e1|items] eqn:Ht; intros H C.
      * destruct C as [C|C]; inversion H; subst; simpl in C; congruence.
      * inversion H; subst. exists found, items.
        split; [reflexivity |]. split; [exact Ht |].
        do 2 (split; [reflexivity |]). reflexivity.
Qed.

(** A run of [create_issue], step by step. *)
Lemma create_issue_run {lib : PyLib} (w : World) (request : CreateJiraIssueRequest.t)
    (st : State) :
  create_issue w request st =
  let data := issue_data_of request in
  let tr1 := (trace st ++ [CreateIssue data])%list in
  let failed e tr :=
    (Raise e, mkState (issues st) (last_sync st) tr
                (log st ++ [(ERROR, "Error creating Jira issue: " ++ str_exn e)])) in
  match w_create_issue w (trace st) data with
  | inl e => failed e tr1
  | inr new_key =>
      let tr2 := (tr1 ++ [FetchIssue new_key])%list in
      match w_issue w tr1 new_key with
      | inl e => failed e tr2
      | inr created =>
          match _transform_jira_issue created with
          | inl e => failed e tr2
          | inr item =>
              (Ok item, mkState (item :: issues st) (last_sync st) tr2
                          (log st ++ [(INFO, "Created Jira issue: " ++ new_key)]))
          end
      end
  end.
Proof.
  unfold create_issue, issue_data_of. run.
  destruct (w_create_issue w (trace st) _) as [e|new_key]; simpl; [reflexivity|].
  destruct (w_issue w _ new_key) as [e|created]; simpl; [reflexivity|].
  destruct (_transform_jira_issue created) as [e|item]; reflexivity.
Qed.

(** A failed creation leaves the cache as it was. *)
Lemma create_issue_failure_keeps_cache {lib : PyLib} (w : World)
    (request : CreateJiraIssueRequest.t) (st : State) e st' :
  create_issue w request st = (Raise e, st') ->
  issues st' = issues st /\ last_sync st' = last_sync st.
Proof.
  rewrite create_issue_run. cbv zeta.
  destruct (w_create_issue w (trace st) _) as [e1|new_key].
  { intros H; inversion H; split; reflexivity. }
  destruct (w_issue w _ new_key) as [e1|created].
  { intros H; inversion H; split; reflexivity. }
  destruct (_transform_jira_issue created) as [e1|item];
    intros H; inversion H; split; reflexivity.
Qed.

(** C7.  On a successful creation the new item is put in front of the cached
    items, which keep their places and their order, and [last_sync] is not
    touched. *)
Theorem create_issue_prepends {lib : PyLib} (w : World)
    (request : CreateJiraIssueRequest.t) (st : State) item st'
    (H : create_issue w request st = (Ok item, st')) :
  issues st' = item :: issues st /\ last_sync st' = last_sync st.
Proof.
  revert H. rewrite create_issue_run. cbv zeta.
  destruct (w_create_issue w (trace st) _) as [e1|new_key].
  { intros H; inversion H. }
  destruct (w_issue w _ new_key) as [e1|created].
  { intros H; inversion H. }
  destruct (_transform_jira_issue created) as [e1|item'];
    intros H; inversion H; split; reflexivity.
Qed.

(** The creation succeeds in the sample world: the created issue is in
    front of the issue cached before. *)
Lemma create_issue_prepends_witness :
  let run := create_issue (lib := Sample.lib) Sample.world Sample.request Sample.synced in
  issues (snd run) = Sample.issue "PROJ-2" "Created from a pull request"
                     :: issues Sample.synced
  /\ last_sync (snd run) = last_sync Sample.synced.
Proof.
  cbv zeta.
  eapply (create_issue_prepends (lib := Sample.lib) Sample.world Sample.request
            Sample.synced).
  vm_compute. reflexivity.
Defined.

(** [needs_sync] makes no call and changes nothing; it answers [True] when
    the cache was never synced or when more than five minutes have passed
    since the last sync. *)
Theorem needs_sync_stale (w : World) (st : State) :
  needs_sync w st
  = (Ok match last_sync st with
        | None => true
        | Some t => (five_minutes <? w_now w (trace st) - t)%Z
        end, st).
Proof.
  unfold needs_sync. run. destruct (last_sync st) as [t|]; [|reflexivity].
  simpl. f_equal. f_equal.
  destruct (Z.ltb_spec t (w_now w (trace st) - five_minutes));
    destruct (Z.ltb_spec five_minutes (w_now w (trace st) - t)); first [reflexivity | lia].
Qed.

(** Two syncs in a row, the project answering the same both times, leave
    the same cached items. *)
Theorem sync_issues_idempotent {lib : PyLib} (config : Config) (w : World)
    (st st1 : State)
    (H1 : sync_issues config w st = (Ok tt, st1))
    (Hsame : w_search_issues w (trace st1) (sync_jql config) 1000 sync_fields
             = w_search_issues w (trace st) (sync_jql config) 1000 sync_fields) :
  exists st2, sync_issues config w st1 = (Ok tt, st2) /\ issues st2 = issues st1.
Proof.
  revert H1. rewrite !sync_issues_run. cbv zeta. rewrite Hsame.
  destruct (w_search_issues w (trace st) _ 1000 sync_fields) as [e|found];
    [discriminate|].
  destruct (transform_all found) as [e|items]; [discriminate|].
  intros H1. inversion H1; subst. eexists. split; reflexivity.
Qed.

Lemma sync_issues_idempotent_witness :
  let st1 := snd (sync_issues (lib := Sample.lib) Sample.config Sample.world Sample.fresh) in
  exists st2,
    sync_issues (lib := Sample.lib) Sample.config Sample.world st1 = (Ok tt, st2)
    /\ issues st2 = issues st1.
Proof.
  cbv zeta.
  apply (sync_issues_idempotent (lib := Sample.lib) Sample.config Sample.world
           Sample.fresh); vm_compute; reflexivity.
Defined.

End CacheFacts.

(** ** The orchestration of [_process_pr_comment_for_jira] *)

Module OrchestratorFacts.

Import PyStr Types Json Effects GitHubClient JiraClient WebhookServer Spec.

Ltac run := CacheFacts.run.

(** A run of [add_comment], step by step. *)
Lemma add_comment_run (w : World) (n : Z) (body : string) (st : State) :
  add_comment w n body st =
  let failed e cs :=
    (Raise e, add_log (add_calls st cs) ERROR
                ("Error adding comment to PR #" ++ str_of_Z n ++ ": " ++ str_exn e)) in
  match w_get_issue w (trace st) n with
  | Some e => failed e [GetIssue n]
  | None =>
      match w_create_comment w (trace st ++ [GetIssue n]) n body with
      | inl e => failed e [GetIssue n; CreateComment n body]
      | inr c =>
          (Ok (GitHubComment.mk (c_id c) (c_body c) (c_user c)
                 (Some (c_created_at c)) (Some n)),
           add_calls st [GetIssue n; CreateComment n body])
      end
  end.
Proof.
  unfold add_comment, add_log, add_calls. run.
  destruct (w_get_issue w (trace st) n) as [e|]; simpl; [reflexivity|].
  destruct (w_create_comment w _ n body) as [e|c]; simpl;
    rewrite <- app_assoc; reflexivity.
Qed.

Section WithEnv.
Context {lib : PyLib} (config : Config) (w : World).

(** A run of the [except] block: the error is logged, the comment is
    attempted, a failure of the attempt is logged, the error is raised. *)
Lemma process_except_run (n : Z) (e : exn) (st : State) :
  process_except w n e st =
  let st1 := add_log st ERROR ("Error processing PR comment for Jira: " ++ str_exn e) in
  match add_comment w n (error_comment e) st1 with
  | (Ok _, st2) => (Raise e, st2)
  | (Raise e2, st2) =>
      (Raise e, add_log st2 ERROR ("Failed to add error comment: " ++ str_exn e2))
  end.
Proof.
  unfold process_except, add_log. run.
  destruct (add_comment w n (error_comment e) _) as [[c|e2] st2]; reflexivity.
Qed.

(** The [try] block raises only after the creation-request check. *)
Lemma process_try_raises_after_check n comment th st e st1 :
  process_try config w n comment th st = (Raise e, st1) ->
  is_create_jira_comment comment = true.
Proof.
  unfold process_try.
  destruct (is_create_jira_comment comment); [reflexivity|].
  simpl. run. intros H. inversion H.
Qed.

End WithEnv.

(** C2, as the code has it.  A comment the classifier rejects is answered
    with the outcome [skipped] and the reason the code gives, and no call is
    made: the trace, the cached issues and [last_sync] are what they were,
    only a line of log is added.  The MCP tool answers with its own text and
    leaves the whole state as it was. *)
Theorem skipped_without_calls {lib : PyLib} (config : Config) (w : World)
    (n : Z) (comment : string) (th : float) (st : State)
    (H : is_create_jira_comment comment = false) :
  _process_pr_comment_for_jira config w n comment th st =
    (Ok (ProcessingResult.mk "skipped" None None (Some "No Jira creation request found")),
     add_log st INFO "Comment does not request Jira creation")
  /\ McpServer._process_pr_comment_for_jira_impl config w n comment th st =
       (Ok "Comment does not contain a request to create a Jira issue", st).
Proof.
  unfold _process_pr_comment_for_jira, process_try,
    McpServer._process_pr_comment_for_jira_impl, add_log.
  rewrite H. simpl. run. split; reflexivity.
Qed.

Lemma skipped_without_calls_witness :
  _process_pr_comment_for_jira (lib := Sample.lib) Sample.config Sample.world 7
      "looks good to me" 0.7%float Sample.fresh =
    (Ok (ProcessingResult.mk "skipped" None None (Some "No Jira creation request found")),
     add_log Sample.fresh INFO "Comment does not request Jira creation")
  /\ McpServer._process_pr_comment_for_jira_impl (lib := Sample.lib) Sample.config
       Sample.world 7 "looks good to me" 0.7%float Sample.fresh =
       (Ok "Comment does not contain a request to create a Jira issue", Sample.fresh).
Proof.
  apply (skipped_without_calls (lib := Sample.lib) Sample.config Sample.world 7
           "looks good to me" 0.7%float Sample.fresh).
  vm_compute. reflexivity.
Defined.

(** The reason the code returns is not the one the specification quotes,
    and the MCP tool returns a text, not an outcome. *)
Lemma skipped_reason_counterexample :
  is_create_jira_comment "looks good to me" = false
  /\ exists r,
       fst (_process_pr_comment_for_jira (lib := Sample.lib) Sample.config Sample.world 7
              "looks good to me" 0.7%float Sample.fresh) = Ok r
       /\ ProcessingResult.action r = "skipped"
       /\ ProcessingResult.reason r = Some "No Jira creation request found"
       /\ ProcessingResult.reason r <> Some "no creation request found"
       /\ fst (McpServer._process_pr_comment_for_jira_impl (lib := Sample.lib)
                Sample.config Sample.world 7 "looks good to me" 0.7%float Sample.fresh)
          = Ok "Comment does not contain a request to create a Jira issue".
Proof.
  split; [vm_compute; reflexivity|].
  eexists. split; [vm_compute; reflexivity|].
  split; [reflexivity|]. split; [reflexivity|].
  split; [simpl; discriminate | vm_compute; reflexivity].
Qed.

(** C8.  When the [try] block of [_process_pr_comment_for_jira] raises [e]
    (which it does only after the creation-request check), the handler
    calls [add_comment] with the error text on the same pull request, and
    raises [e] again whatever becomes of that call: when looking up the
    thread or posting the comment raises [e2], that failure is logged and
    nothing else happens. *)
Theorem error_comment_then_reraise {lib : PyLib} (config : Config) (w : World)
    (n : Z) (comment : string) (th : float) (st : State) (e : exn) (st1 : State)
    (H : process_try config w n comment th st = (Raise e, st1)) :
  is_create_jira_comment comment = true
  /\ exists st2,
       _process_pr_comment_for_jira config w n comment th st = (Raise e, st2)
       /\ issues st2 = issues st1 /\ last_sync st2 = last_sync st1
       /\ let posted := CreateComment n (error_comment e) in
          let swallowed e2 :=
            In (ERROR, "Failed to add error comment: " ++ str_exn e2) (log st2) in
          (exists e2, w_get_issue w (trace st1) n = Some e2
                      /\ trace st2 = (trace st1 ++ [GetIssue n])%list
                      /\ swallowed e2)
          \/ (exists e2, w_get_issue w (trace st1) n = None
                         /\ w_create_comment w (trace st1 ++ [GetIssue n]) n
                              (error_comment e) = inl e2
                         /\ trace st2 = (trace st1 ++ [GetIssue n; posted])%list
                         /\ swallowed e2)
          \/ (exists c, w_get_issue w (trace st1) n = None
                        /\ w_create_comment w (trace st1 ++ [GetIssue n]) n
                             (error_comment e) = inr c
                        /\ trace st2 = (trace st1 ++ [GetIssue n; posted])%list).
Proof.
  split; [eapply process_try_raises_after_check; eassumption|].
  unfold _process_pr_comment_for_jira, try_except. rewrite H.
  rewrite process_except_run. cbv zeta. rewrite add_comment_run. cbv zeta.
  simpl trace.
  destruct (w_get_issue w (trace st1) n) as [e2|] eqn:Hi.
  - eexists. split; [reflexivity|]. split; [reflexivity|]. split; [reflexivity|].
    left. exists e2. split; [reflexivity|]. split; [reflexivity|].
    simpl. apply in_or_app. right. left. reflexivity.
  - destruct (w_create_comment w _ n (error_comment e)) as [e2|c] eqn:Hc.
    + eexists. split; [reflexivity|]. split; [reflexivity|]. split; [reflexivity|].
      right. left. exists e2. do 3 (split; [reflexivity|]).
      simpl. apply in_or_app. right. left. reflexivity.
    + eexists. split; [reflexivity|]. split; [reflexivity|]. split; [reflexivity|].
      right. right. exists c. do 2 (split; [reflexivity|]). reflexivity.
Qed.

(** In the world where every call fails, the pull request is not found, the
    error comment cannot be posted either, and the first error is the one
    that is raised. *)
Lemma error_comment_then_reraise_witness :
  let comment := "please create jira issue" in
  let e := Exception "Pull request #7 not found" in
  is_create_jira_comment comment = true
  /\ fst (_process_pr_comment_for_jira (lib := Sample.lib) Sample.config
            Sample.broken_world 7 comment 0.7%float Sample.fresh) = Raise e.
Proof.
  cbv zeta.
  destruct (error_comment_then_reraise (lib := Sample.lib) Sample.config
              Sample.broken_world 7 "please create jira issue" 0.7%float Sample.fresh
              (Exception "Pull request #7 not found")
              (snd (process_try (lib := Sample.lib) Sample.config Sample.broken_world 7
                      "please create jira issue" 0.7%float Sample.fresh)))
    as [Hc [st2 [Hrun _]]].
  - vm_compute. reflexivity.
  - split; [exact Hc|]. rewrite Hrun. reflexivity.
Defined.

(** Failures of the other steps: of the cache sync, of the creation of the
    issue, and of the comment on the created issue.  Each time the error
    comment is attempted and the first error is raised; in the last world
    the error comment fails too, which changes nothing. *)
Example failures_at_each_step :
  let run w :=
    _process_pr_comment_for_jira (lib := Sample.lib) Sample.config w 7
      "please create jira issue" 0.7%float Sample.fresh in
  let last_call w := last (trace (snd (run w))) (GetPull 0) in
  fst (run Sample.sync_fails) = Raise (SdkError "Jira is down")
  /\ last_call Sample.sync_fails
     = CreateComment 7 (error_comment (SdkError "Jira is down"))
  /\ fst (run Sample.create_fails) = Raise (SdkError "Field 'issuetype' is required")
  /\ last_call Sample.create_fails
     = CreateComment 7 (error_comment (SdkError "Field 'issuetype' is required"))
  /\ fst (run Sample.comment_fails) = Raise (SdkError "Resource not accessible")
  /\ last_call Sample.comment_fails
     = CreateComment 7 (error_comment (SdkError "Resource not accessible"))
  /\ issues (snd (run Sample.comment_fails))
     = [Sample.issue "PROJ-2" "Created from a pull request"].
Proof. cbv zeta. repeat split; vm_compute; reflexivity. Qed.

(** The caller in the webhook path, [_handle_webhook_event], logs whatever
    its handlers raise and returns normally. *)
Theorem handle_webhook_event_returns {lib : PyLib} (config : Config) (w : World)
    (event_type : option string) (payload : json) (st : State) :
  exists st', _handle_webhook_event config w event_type payload st = (Ok tt, st').
Proof.
  unfold _handle_webhook_event, try_except.
  match goal with |- context [match ?m st with _ => _ end] => destruct (m st) as [[[]|e] st1] end.
  - eexists; reflexivity.
  - unfold logger. eexists; reflexivity.
Qed.

End OrchestratorFacts.

(** ** The webhook ingress *)

Module IngressFacts.

Import PyStr Types Json Effects WebhookServer Spec.

Ltac run := CacheFacts.run.

Lemma compare_digest_true (a b : string) : compare_digest a b = inr true -> a = b.
Proof.
  unfold compare_digest. destruct (is_ascii a && is_ascii b); [|discriminate].
  intros H. apply String.eqb_eq. congruence.
Qed.

Section WithEnv.
Context {lib : PyLib} (config : Config) (w : World).

(** An absent or empty signature header fails verification. *)
Lemma verify_signature_absent (body : string) :
  _verify_signature config body None = inr false
  /\ _verify_signature config body (Some "") = inr false.
Proof. split; reflexivity. Qed.

(** Verification succeeds exactly on the header ["sha256=" ++ hexdigest];
    the digest is a string of hexadecimal digits, hence ASCII. *)
Lemma verify_signature_exact (body : string) (signature : option string)
    (Hhex : is_ascii (hmac_sha256_hexdigest (webhook_secret (github config)) body) = true) :
  _verify_signature config body signature = inr true
  <-> signature = Some (expected_signature config body).
Proof.
  unfold _verify_signature, expected_signature, JiraClient.option_truthy.
  split.
  - destruct signature as [sg|]; [|discriminate].
    destruct (truthy sg); [|discriminate].
    intros H. apply compare_digest_true in H. congruence.
  - intros ->. unfold compare_digest. simpl. rewrite Hhex. simpl.
    rewrite String.eqb_refl. reflexivity.
Qed.

(** A request whose verification fails is answered before [json.loads] is
    called; the [HTTPException] with status 401 is raised inside the [try]
    block, whose [except Exception] turns it into status 500. *)
Lemma bad_signature_run (body : string) (signature event_type : option string)
    (st : State) :
  _verify_signature config body signature = inr false ->
  webhook_try config body signature event_type st
    = (Raise (HTTPException 401 "Invalid signature"), st)
  /\ github_webhook config body signature event_type st
     = (Raise (HTTPException 500 "Internal server error"),
        add_log st ERROR "Webhook error: 401: Invalid signature").
Proof.
  intros Hv. unfold github_webhook, webhook_try. run. rewrite Hv. simpl.
  split; reflexivity.
Qed.

End WithEnv.

(** C3, at the request without a signature header.  The route raises the
    [HTTPException] of status 500, not 401; no call is recorded, so the body
    was not parsed. *)
Theorem absent_signature_answered_with_500 {lib : PyLib} (config : Config) (w : World)
    (body : string) (event_type : option string) (st : State) :
  github_webhook config body None event_type st
  = (Raise (HTTPException 500 "Internal server error"),
     add_log st ERROR "Webhook error: 401: Invalid signature")
  /\ trace (snd (github_webhook config body None event_type st)) = trace st.
Proof.
  destruct (bad_signature_run config body None event_type st) as [_ H].
  - reflexivity.
  - rewrite H. split; reflexivity.
Qed.

(** The signature check: it succeeds exactly on the header
    ["sha256=" ++ hexdigest], and fails on an absent or empty header. *)
Theorem verify_signature_spec {lib : PyLib} (config : Config) (body : string)
    (signature : option string)
    (Hhex : is_ascii (hmac_sha256_hexdigest (webhook_secret (github config)) body) = true) :
  (_verify_signature config body signature = inr true
   <-> signature = Some (expected_signature config body))
  /\ _verify_signature config body None = inr false
  /\ _verify_signature config body (Some "") = inr false.
Proof.
  split; [apply verify_signature_exact, Hhex | apply verify_signature_absent].
Qed.

Lemma verify_signature_spec_witness :
  _verify_signature (lib := Sample.lib) Sample.config "{}"
    (Some "sha256=5d41402abc4b2a76b9719d911017c592") = inr true
  /\ _verify_signature (lib := Sample.lib) Sample.config "{}"
       (Some "sha256=5d41402abc4b2a76b9719d911017c593") = inr false.
Proof.
  destruct (verify_signature_spec (lib := Sample.lib) Sample.config "{}"
              (Some "sha256=5d41402abc4b2a76b9719d911017c592") eq_refl) as [[_ H] _].
  split; [apply H; reflexivity | vm_compute; reflexivity].
Defined.

End IngressFacts.

(** ** The detail extractor *)

Module ExtractFacts.

Import PyStr Re Types GitHubClient Spec.

Lemma search_head ic r s a tl : rmatch ic r s = a :: tl -> search ic r s = Some a.
Proof. intros H. destruct s; simpl; rewrite H; reflexivity. Qed.

Lemma search_skips ic r pre s :
  no_match_before ic r pre s = true -> search ic r (pre ++ s) = search ic r s.
Proof.
  induction pre as [|c pre IH]; simpl; [reflexivity|].
  destruct (rmatch ic r (String c (pre ++ s))); [exact IH | discriminate].
Qed.

(** The leftmost match is the answer of [search], wherever it lies. *)
Lemma search_leftmost ic r pre s a tl :
  no_match_before ic r pre s = true ->
  rmatch ic r s = a :: tl ->
  search ic r (pre ++ s) = Some a.
Proof.
  intros Hpre Hm. rewrite (search_skips _ _ _ _ Hpre). eapply search_head; eassumption.
Qed.

(** A greedy [cls+] takes the whole run of the class first. *)
Lemma match_plus_greedy cls run tail :
  run <> EmptyString -> class_all cls run = true -> stops cls tail = true ->
  exists tl, match_plus cls (run ++ tail) = (run, tail) :: tl.
Proof.
  induction run as [|c run IH]; [congruence|].
  intros _ Hall Hstop. unfold class_all in Hall. simpl in Hall.
  apply andb_prop in Hall. destruct Hall as [Hc Hall].
  simpl. rewrite Hc.
  destruct run as [|d run].
  - simpl. destruct tail as [|t tail]; simpl.
    + eexists; reflexivity.
    + simpl in Hstop. apply negb_true_iff in Hstop. rewrite Hstop. simpl.
      eexists; reflexivity.
  - destruct IH as [tl Htl]; [congruence | exact Hall | exact Hstop |].
    rewrite Htl. simpl. eexists; reflexivity.
Qed.

(** A field written [keyword separators value]: the keyword in any case,
    one or more colons or white space, and a value that runs to the end of
    its line.  The preferred match captures the value. *)
Lemma field_match (kw : string) (k sep v tail : string) :
  match_lit true kw (k ++ sep ++ v ++ tail) = Some (k, sep ++ v ++ tail) ->
  sep <> EmptyString -> class_all is_colon_or_space sep = true ->
  v <> EmptyString -> stops is_colon_or_space v = true ->
  class_all not_newline v = true -> stops not_newline tail = true ->
  exists tl,
    rmatch true (Seq (Lit kw) (Seq (Plus is_colon_or_space) (Group (Plus not_newline))))
           (k ++ sep ++ v ++ tail)
    = mkSuccess (k ++ sep ++ v) tail (Some v) :: tl.
Proof.
  intros Hk Hsep Hsepc Hv Hvs Hvc Htail.
  assert (Hstop : stops is_colon_or_space (v ++ tail) = true).
  { destruct v; [congruence | exact Hvs]. }
  destruct (match_plus_greedy _ sep (v ++ tail) Hsep Hsepc Hstop) as [tl1 H1].
  destruct (match_plus_greedy _ v tail Hv Hvc Htail) as [tl2 H2].
  simpl. rewrite Hk. simpl. rewrite H1. simpl. rewrite H2. simpl.
  eexists; reflexivity.
Qed.

#[local] Arguments char_eq : simpl never.

Lemma append_assoc (a b c : string) : a ++ b ++ c = (a ++ b) ++ c.
Proof. induction a as [|x a IH]; simpl; [reflexivity | rewrite IH; reflexivity]. Qed.

Lemma char_eq_true_l q p c :
  char_eq true p c = true -> char_eq true q c = char_eq true q p.
Proof.
  unfold char_eq. intros H. apply Ascii.eqb_eq in H. rewrite H. reflexivity.
Qed.

(** A literal that fails on [suf] fails on [suf] followed by a character
    that is none of its own. *)
Lemma match_lit_break kw b : forall suf x,
  forallb (fun p => negb (char_eq true p b)) (list_ascii_of_string kw) = true ->
  match_lit true kw suf = None ->
  match_lit true kw (suf ++ String b x) = None.
Proof.
  induction kw as [|p kw IH]; intros suf x Hb Hn; [discriminate|].
  simpl in Hb. apply andb_prop in Hb. destruct Hb as [Hp Hb].
  apply negb_true_iff in Hp.
  destruct suf as [|c suf]; simpl.
  - rewrite Hp. reflexivity.
  - simpl in Hn. destruct (char_eq true p c); [|reflexivity].
    destruct (match_lit true kw suf) as [[m r]|] eqn:E; [discriminate|].
    rewrite (IH suf x Hb E). reflexivity.
Qed.

Lemma rmatch_lit_fails kw r x :
  match_lit true kw x = None -> rmatch true (Seq (Lit kw) r) x = [].
Proof. intros H. simpl. rewrite H. reflexivity. Qed.

Lemma no_match_before_app ic r p1 : forall p2 x,
  no_match_before ic r (p1 ++ p2) x
  = no_match_before ic r p1 (p2 ++ x) && no_match_before ic r p2 x.
Proof.
  induction p1 as [|c p1 IH]; intros p2 x; simpl; [reflexivity|].
  rewrite <- append_assoc.
  destruct (rmatch ic r (String c (p1 ++ p2 ++ x))); [apply IH | reflexivity].
Qed.

(** A line without the keyword, and its line break, start no match of a
    pattern that begins with the keyword. *)
Lemma no_match_before_line kw r b : forall line x,
  forallb (fun p => negb (char_eq true p b)) (list_ascii_of_string kw) = true ->
  occurs_ci kw line = false ->
  no_match_before true (Seq (Lit kw) r) (line ++ String b EmptyString) x = true.
Proof.
  induction line as [|c line IH]; intros x Hb Ho.
  - simpl in *. destruct (match_lit true kw EmptyString) eqn:E; [discriminate|].
    pose proof (match_lit_break kw b EmptyString x Hb E) as Hn. simpl in Hn.
    rewrite Hn. reflexivity.
  - simpl in Ho. destruct (match_lit true kw (String c line)) eqn:E; [discriminate|].
    pose proof (match_lit_break kw b (String c line) x Hb E) as Hn.
    change (no_match_before true (Seq (Lit kw) r)
              (String c (line ++ String b EmptyString)) x = true).
    cbn [no_match_before].
    change (String c (line ++ String b EmptyString) ++ x)
      with (String c ((line ++ String b EmptyString) ++ x)).
    rewrite <- append_assoc.
    change (String c (line ++ String b EmptyString ++ x))
      with (String c line ++ String b x).
    rewrite (rmatch_lit_fails kw r _ Hn).
    apply IH; assumption.
Qed.

Lemma append_empty (a : string) : a ++ EmptyString = a.
Proof. induction a as [|x a IH]; simpl; [reflexivity | rewrite IH; reflexivity]. Qed.

(** A character that is a letter up to case is neither a colon nor white
    space. *)
Lemma letter_not_separator c :
  is_lower (lower_char c) = true -> is_colon_or_space c = false.
Proof.
  destruct c as [[] [] [] [] [] [] [] []]; vm_compute; intros H;
    first [reflexivity | discriminate H].
Qed.

(** A literal that matches the whole of [t] matches [t] in front of any
    text. *)
Lemma match_lit_whole kw : forall t m y,
  match_lit true kw t = Some (m, EmptyString) ->
  m = t /\ match_lit true kw (t ++ y) = Some (t, y).
Proof.
  induction kw as [|p kw IH]; intros t m y H.
  - simpl in H. inversion H. subst. split; reflexivity.
  - destruct t as [|c t]; [discriminate|]. cbn [match_lit] in H.
    cbn [match_lit append]. destruct (char_eq true p c); [|discriminate].
    destruct (match_lit true kw t) as [[m' r']|] eqn:E; [|discriminate].
    inversion H; subst. destruct (IH t m' y E) as [-> ->]. split; reflexivity.
Qed.

(** A case variant of a word: it matches in front of any text, and its
    first character is the word's first letter up to case. *)
Lemma case_variant_matches p w t y :
  case_variant (String p w) t = true ->
  match_lit true (String p w) (t ++ y) = Some (t, y)
  /\ exists c t', t = String c t' /\ char_eq true p c = true.
Proof.
  unfold case_variant. intros H.
  destruct (match_lit true (String p w) t) as [[m [|]]|] eqn:E; try discriminate.
  destruct (match_lit_whole _ t m y E) as [_ Hy]. split; [exact Hy|].
  destruct t as [|c t']; [discriminate E|]. exists c, t'. split; [reflexivity|].
  cbn [match_lit] in E. destruct (char_eq true p c); [reflexivity | discriminate].
Qed.

Ltac char_facts :=
  repeat match goal with
  | H : char_eq true ?p ?c = true |- context [char_eq true ?q ?c] =>
      rewrite (char_eq_true_l q p c H)
  end.

Lemma lit_other_letter q kw c t' y p :
  char_eq true p c = true -> char_eq true q p = false ->
  match_lit true (String q kw) (String c t' ++ y) = None.
Proof.
  intros Hc Hq. cbn [match_lit append]. rewrite (char_eq_true_l q p c Hc), Hq.
  reflexivity.
Qed.

(** The word of a [Type:] field is what the group of alternatives matches
    first. *)
Lemma type_alternatives t y :
  is_type_word t = true ->
  exists tl,
    rmatch true (Group (Alt (Lit "bug") (Alt (Lit "task") (Alt (Lit "story") (Lit "epic")))))
           (t ++ y)
    = mkSuccess t y (Some t) :: tl.
Proof.
  unfold is_type_word, type_words. cbn [existsb].
  intros H. repeat (apply orb_prop in H; destruct H as [H|H]); try discriminate;
    destruct (case_variant_matches _ _ t y H) as [Hy [c [t' [-> Hc]]]];
    cbn [rmatch].
  - rewrite Hy. cbn [app map matched rest]. eexists; reflexivity.
  - rewrite (lit_other_letter "b" "ug" c t' y "t" Hc eq_refl), Hy.
    cbn [app map matched rest]. eexists; reflexivity.
  - rewrite (lit_other_letter "b" "ug" c t' y "s" Hc eq_refl),
      (lit_other_letter "t" "ask" c t' y "s" Hc eq_refl), Hy.
    cbn [app map matched rest]. eexists; reflexivity.
  - rewrite (lit_other_letter "b" "ug" c t' y "e" Hc eq_refl),
      (lit_other_letter "t" "ask" c t' y "e" Hc eq_refl),
      (lit_other_letter "s" "tory" c t' y "e" Hc eq_refl), Hy.
    cbn [app map matched rest]. eexists; reflexivity.
Qed.

Lemma type_word_starts_with_letter t y :
  is_type_word t = true -> stops is_colon_or_space (t ++ y) = true.
Proof.
  unfold is_type_word, type_words. cbn [existsb].
  intros H. repeat (apply orb_prop in H; destruct H as [H|H]); try discriminate;
    destruct (case_variant_matches _ _ t y H) as [_ [c [t' [-> Hc]]]];
    cbn [append stops]; apply negb_true_iff, letter_not_separator;
    unfold char_eq in Hc; apply Ascii.eqb_eq in Hc; rewrite <- Hc; reflexivity.
Qed.

Lemma rmatch_seq ic r1 r2 s :
  rmatch ic (Seq r1 r2) s
  = flat_map
      (fun a =>
         map (fun b => mkSuccess (matched a ++ matched b) (rest b)
                                 (first_group (group1 a) (group1 b)))
             (rmatch ic r2 (rest a)))
      (rmatch ic r1 s).
Proof. reflexivity. Qed.

Lemma rmatch_plus ic cls s :
  rmatch ic (Plus cls) s
  = map (fun mr => mkSuccess (fst mr) (snd mr) None) (match_plus cls s).
Proof. reflexivity. Qed.

Lemma rmatch_group ic r s :
  rmatch ic (Group r) s
  = map (fun a => mkSuccess (matched a) (rest a) (Some (matched a))) (rmatch ic r s).
Proof. reflexivity. Qed.

(** The whole [Type:] field. *)
Lemma type_field t y :
  is_type_word t = true ->
  exists tl,
    rmatch true type_re ("Type: " ++ t ++ y) = mkSuccess ("Type: " ++ t) y (Some t) :: tl.
Proof.
  intros Ht.
  destruct (match_plus_greedy is_colon_or_space ": " (t ++ y)) as [tl1 H1];
    [discriminate | reflexivity | apply type_word_starts_with_letter; exact Ht |].
  destruct (type_alternatives t y Ht) as [tl2 H2].
  unfold type_re.
  change (rmatch true (Seq (Lit "type") ?r) ("Type: " ++ t ++ y))
    with (flat_map
            (fun a =>
               map (fun b => mkSuccess (matched a ++ matched b) (rest b)
                                       (first_group (group1 a) (group1 b)))
                   (rmatch true r (rest a)))
            [mkSuccess "Type" (": " ++ t ++ y) None]).
  cbn [flat_map rest matched group1 app].
  rewrite app_nil_r.
  rewrite rmatch_seq, rmatch_plus, H1. cbn [map flat_map fst snd rest matched group1].
  rewrite H2. cbn [map app matched rest group1 first_group].
  eexists; reflexivity.
Qed.

(** A text none of whose characters is, up to case, the first letter of a
    keyword does not hold the keyword. *)
Lemma no_first_letter q kw t :
  forallb (fun c => negb (char_eq true q c)) (list_ascii_of_string t) = true ->
  occurs_ci (String q kw) t = false.
Proof.
  induction t as [|c t IH]; intros H; [reflexivity|].
  cbn [list_ascii_of_string forallb] in H. apply andb_prop in H. destruct H as [Hc H].
  apply negb_true_iff in Hc. cbn [occurs_ci match_lit]. rewrite Hc. apply IH, H.
Qed.

Lemma variant_letters q w : forall t m,
  match_lit true w t = Some (m, EmptyString) ->
  forallb (fun p => negb (char_eq true q p)) (list_ascii_of_string w) = true ->
  forallb (fun c => negb (char_eq true q c)) (list_ascii_of_string t) = true.
Proof.
  induction w as [|p w IH]; intros t m H Hw.
  - cbn [match_lit] in H. inversion H; subst. reflexivity.
  - destruct t as [|c t]; [discriminate|]. cbn [match_lit] in H.
    destruct (char_eq true p c) eqn:Hc; [|discriminate].
    destruct (match_lit true w t) as [[m' r']|] eqn:E; [|discriminate].
    inversion H; subst.
    cbn [list_ascii_of_string forallb] in *. apply andb_prop in Hw.
    destruct Hw as [Hp Hw]. rewrite (char_eq_true_l q p c Hc), Hp.
    exact (IH t m' E Hw).
Qed.

Lemma type_word_no_label t : is_type_word t = true -> occurs_ci "label" t = false.
Proof.
  unfold is_type_word, type_words, case_variant. cbn [existsb].
  intros H. apply no_first_letter.
  repeat (apply orb_prop in H; destruct H as [H|H]); try discriminate;
    match type of H with
    | context [match_lit true ?w ?x] =>
        destruct (match_lit true w x) as [[m [|]]|] eqn:E; try discriminate;
        exact (variant_letters "l" w x m E eq_refl)
    end.
Qed.

(** The whole [Labels:] field at the end of the comment. *)
Lemma labels_field l :
  plain_value l = true ->
  exists tl,
    rmatch true labels_re ("Labels: " ++ l) = mkSuccess ("Labels: " ++ l) "" (Some l) :: tl.
Proof.
  unfold plain_value. intros Hl.
  apply andb_prop in Hl. destruct Hl as [Hl Hline].
  apply andb_prop in Hl. destruct Hl as [Hne Hstart].
  assert (Hl : l <> EmptyString) by (destruct l; [discriminate | congruence]).
  destruct (match_plus_greedy is_colon_or_space ": " l) as [tl1 H1];
    [discriminate | reflexivity | exact Hstart |].
  destruct (match_plus_greedy not_newline l "" Hl Hline eq_refl) as [tl2 H2].
  rewrite append_empty in H2.
  unfold labels_re.
  change (rmatch true (Seq (Lit "label") ?r) ("Labels: " ++ l))
    with (flat_map
            (fun a =>
               map (fun b => mkSuccess (matched a ++ matched b) (rest b)
                                       (first_group (group1 a) (group1 b)))
                   (rmatch true r (rest a)))
            [mkSuccess "Label" ("s: " ++ l) None]).
  cbn [flat_map rest matched group1 app]. rewrite app_nil_r.
  change (rmatch true (Seq (Opt (Lit "s")) ?r) ("s: " ++ l))
    with (flat_map
            (fun a =>
               map (fun b => mkSuccess (matched a ++ matched b) (rest b)
                                       (first_group (group1 a) (group1 b)))
                   (rmatch true r (rest a)))
            [mkSuccess "s" (": " ++ l) None; mkSuccess "" ("s: " ++ l) None]).
  cbn [flat_map rest matched group1].
  rewrite rmatch_seq, rmatch_plus, H1. cbn [map flat_map fst snd rest matched group1].
  rewrite rmatch_group, rmatch_plus, H2.
  cbn [map app matched rest group1 first_group fst snd].
  eexists; reflexivity.
Qed.

(** [title] only looks at the letters up to their case. *)
Lemma title_char (c : ascii) (b : bool) :
  (is_upper (lower_char c) || is_lower (lower_char c) = is_upper c || is_lower c)
  /\ (if b then lower_char (lower_char c) else upper_char (lower_char c))
     = (if is_upper c || is_lower c
        then (if b then lower_char c else upper_char c) else c)
  /\ (is_upper c || is_lower c = false -> lower_char c = c).
Proof.
  destruct b; destruct c as [[] [] [] [] [] [] [] []]; vm_compute;
    repeat split; intros; congruence.
Qed.

Lemma title_from_lower t : forall b, title_from b (lower t) = title_from b t.
Proof.
  induction t as [|c t IH]; intros b; [reflexivity|].
  cbn [lower title_from].
  destruct (title_char c b) as [H1 [H2 H3]]. rewrite H1.
  destruct (is_upper c || is_lower c) eqn:E.
  - rewrite H2, IH. reflexivity.
  - rewrite (H3 eq_refl), IH. reflexivity.
Qed.

Lemma variant_lower w : forall t m,
  match_lit true w t = Some (m, EmptyString) -> lower t = lower w.
Proof.
  induction w as [|p w IH]; intros t m H.
  - cbn [match_lit] in H. inversion H; subst. reflexivity.
  - destruct t as [|c t]; [discriminate|]. cbn [match_lit] in H.
    destruct (char_eq true p c) eqn:Hc; [|discriminate].
    destruct (match_lit true w t) as [[m' r']|] eqn:E; [|discriminate].
    inversion H; subst. cbn [lower]. rewrite (IH t m' E).
    unfold char_eq in Hc. apply Ascii.eqb_eq in Hc. rewrite Hc. reflexivity.
Qed.

(** The title-cased word of a [Type:] field is one of the four issue type
    names. *)
Lemma title_type_word t :
  is_type_word t = true -> In (title t) ["Bug"; "Task"; "Story"; "Epic"].
Proof.
  unfold is_type_word, type_words, case_variant, title. cbn [existsb].
  intros H. rewrite <- title_from_lower.
  repeat (apply orb_prop in H; destruct H as [H|H]); try discriminate;
    match type of H with
    | context [match_lit true ?w ?x] =>
        destruct (match_lit true w x) as [[m [|]]|] eqn:E; try discriminate;
        rewrite (variant_lower w x m E)
    end; vm_compute; tauto.
Qed.

Lemma plain_value_parts v :
  plain_value v = true ->
  v <> EmptyString /\ stops is_colon_or_space v = true /\ class_all not_newline v = true.
Proof.
  unfold plain_value. intros H.
  apply andb_prop in H. destruct H as [H Hline].
  apply andb_prop in H. destruct H as [Hne Hstart].
  repeat split; try assumption. destruct v; [discriminate | congruence].
Qed.

Section Fields.
Context (config : Config) (pr_title : string) (pr_body : option string)
  (pr_number : option Z).

(** The extraction when none of the three patterns matches. *)
Lemma extract_defaults comment :
  search true summary_re comment = None ->
  search true type_re comment = None ->
  search true labels_re comment = None ->
  let d := extract_jira_details config comment pr_title pr_body pr_number in
  summary d = "[GitHub PR] " ++ pr_title /\ issue_type d = "Task"
  /\ labels d = ["github-pr"].
Proof.
  intros Hs Ht Hl. unfold extract_jira_details. cbn [summary issue_type labels].
  rewrite Hs, Ht, Hl. repeat split.
Qed.

(** The extraction from a comment of three lines, [Summary:], [Type:] and
    [Labels:]. *)
Lemma extract_three_lines s t l :
  plain_value s = true -> occurs_ci "type" s = false -> occurs_ci "label" s = false ->
  is_type_word t = true -> plain_value l = true ->
  let comment := "Summary: " ++ s ++ nl ++ "Type: " ++ t ++ nl ++ "Labels: " ++ l in
  let d := extract_jira_details config comment pr_title pr_body pr_number in
  summary d = strip s /\ issue_type d = title t
  /\ labels d = "github-pr" :: map strip (split_on ","%char l).
Proof.
  intros Hs Hst Hsl Ht Hl comment d.
  destruct (plain_value_parts s Hs) as [Hs1 [Hs2 Hs3]].
  set (rest_t := "Type: " ++ t ++ nl ++ "Labels: " ++ l).
  (* the summary starts the comment *)
  assert (Hsum : search true summary_re comment = Some
            (mkSuccess ("Summary: " ++ s) (nl ++ rest_t) (Some s))).
  { destruct (field_match "summary" "Summary" ": " s (nl ++ rest_t)) as [tl H];
      [reflexivity | discriminate | reflexivity | assumption.. | reflexivity |].
    eapply search_head. exact H. }
  (* the type is found after the first line *)
  assert (Htyp : search true type_re comment = Some
            (mkSuccess ("Type: " ++ t) (nl ++ "Labels: " ++ l) (Some t))).
  { destruct (type_field t (nl ++ "Labels: " ++ l) Ht) as [tl H].
    change comment with ("Summary: " ++ s ++ nl ++ rest_t).
    rewrite (append_assoc s nl rest_t), (append_assoc "Summary: " (s ++ nl) rest_t).
    eapply search_leftmost; [|exact H].
    rewrite no_match_before_app. apply andb_true_intro. split; [reflexivity|].
    apply no_match_before_line; [reflexivity | assumption]. }
  (* the labels are found after the second line *)
  assert (Hlab : search true labels_re comment = Some
            (mkSuccess ("Labels: " ++ l) "" (Some l))).
  { destruct (labels_field l Hl) as [tl H].
    change comment
      with ("Summary: " ++ s ++ nl ++ "Type: " ++ t ++ nl ++ "Labels: " ++ l).
    rewrite (append_assoc t nl _), (append_assoc "Type: " (t ++ nl) _),
      (append_assoc s nl _), (append_assoc "Summary: " (s ++ nl) _),
      (append_assoc ("Summary: " ++ s ++ nl) ("Type: " ++ t ++ nl) _).
    eapply search_leftmost; [|exact H].
    rewrite (no_match_before_app _ _ ("Summary: " ++ s ++ nl) ("Type: " ++ t ++ nl)),
      (no_match_before_app _ _ "Summary: " (s ++ nl)),
      (no_match_before_app _ _ "Type: " (t ++ nl)).
    repeat (apply andb_true_intro; split).
    - reflexivity.
    - apply no_match_before_line; [reflexivity | assumption].
    - reflexivity.
    - apply no_match_before_line; [reflexivity | apply type_word_no_label, Ht]. }
  subst d. unfold extract_jira_details. cbn [summary issue_type labels].
  rewrite Hsum, Htyp, Hlab. repeat split.
Qed.

End Fields.


(** C9, as the code has it.  The patterns are not anchored: the leftmost
    place of the comment where the pattern of a field matches is taken as
    the field, whatever precedes it on its line. *)
Theorem fields_found_anywhere (config : Config) (f : field) (pre s : string)
    (pr_title : string) (pr_body : option string) (pr_number : option Z)
    (a : success) (tl : list success)
    (Hpre : no_match_before true (pattern_of f) pre s = true)
    (Hm : rmatch true (pattern_of f) s = a :: tl) :
  field_value f (extract_jira_details config (pre ++ s) pr_title pr_body pr_number)
  = extracted f a.
Proof.
  pose proof (search_leftmost true (pattern_of f) pre s a tl Hpre Hm) as H.
  unfold extract_jira_details.
  destruct f; cbn [pattern_of] in H; cbn [field_value extracted summary issue_type labels];
    rewrite H; reflexivity.
Qed.

Lemma fields_found_anywhere_witness :
  field_value FSummary
    (extract_jira_details Sample.config
       ("Please create jira issue, " ++ "summary: Fix login styling") "T" None None)
  = ["Fix login styling"].
Proof.
  apply (fields_found_anywhere Sample.config FSummary "Please create jira issue, "
           "summary: Fix login styling" "T" None None
           (mkSuccess "summary: Fix login styling" "" (Some "Fix login styling"))
           (List.tl (rmatch true summary_re "summary: Fix login styling")));
    vm_compute; reflexivity.
Defined.

(** A comment of one line in which [summary:], [type:] and [labels:] occur
    after other text: all three are taken as structured fields. *)
Lemma midline_fields_counterexample :
  let comment := "Please create jira issue, summary: Fix login" in
  let comment2 := "create jira ticket (type: bug) labels: ui, urgent" in
  class_all not_newline comment = true
  /\ match_lit true "summary" comment = None
  /\ summary (extract_jira_details Sample.config comment "T" None None) = "Fix login"
  /\ summary (extract_jira_details Sample.config comment "T" None None) <> "[GitHub PR] T"
  /\ class_all not_newline comment2 = true
  /\ issue_type (extract_jira_details Sample.config comment2 "T" None None) = "Bug"
  /\ labels (extract_jira_details Sample.config comment2 "T" None None)
     = ["github-pr"; "ui"; "urgent"].
Proof.
  cbv zeta. repeat split; try (vm_compute; reflexivity).
  vm_compute. discriminate.
Qed.

End ExtractFacts.

(** ** The order of binary64 numbers *)

Module FloatFacts.

Import PyBuiltins Spec.
Local Open Scope float_scope.

Ltac cmp_cases :=
  repeat match goal with
  | |- context [Pos.compare_cont Eq ?a ?b] =>
      change (Pos.compare_cont Eq a b) with (Pos.compare a b)
  | H : context [Pos.compare_cont Eq ?a ?b] |- _ =>
      change (Pos.compare_cont Eq a b) with (Pos.compare a b) in H
  | |- context [Z.compare ?a ?b] => destruct (Z.compare_spec a b)
  | H : context [Z.compare ?a ?b] |- _ => destruct (Z.compare_spec a b)
  | |- context [Pos.compare ?a ?b] => destruct (Pos.compare_spec a b)
  | H : context [Pos.compare ?a ?b] |- _ => destruct (Pos.compare_spec a b)
  end; subst; simpl in *; try congruence; try lia.

Lemma SFcompare_antisym x y :
  SFcompare y x = option_map CompOpp (SFcompare x y).
Proof.
  destruct x as [[]|[]| |[] m1 e1], y as [[]|[]| |[] m2 e2]; simpl; try reflexivity;
    cmp_cases.
Qed.

Lemma SFltb_trans x y z :
  SFltb x y = true -> SFltb y z = true -> SFltb x z = true.
Proof.
  unfold SFltb.
  destruct x as [[]|[]| |[] m1 e1], y as [[]|[]| |[] m2 e2], z as [[]|[]| |[] m3 e3];
    simpl; try congruence; cmp_cases.
Qed.

Lemma SFleb_trans x y z :
  SFleb x y = true -> SFleb y z = true -> SFleb x z = true.
Proof.
  unfold SFleb.
  destruct x as [[]|[]| |[] m1 e1], y as [[]|[]| |[] m2 e2], z as [[]|[]| |[] m3 e3];
    simpl; try congruence; cmp_cases.
Qed.

Lemma is_num_compare x y :
  is_num x -> is_num y -> exists c, SFcompare (Prim2SF x) (Prim2SF y) = Some c.
Proof.
  unfold is_num, is_nan. rewrite !FloatAxioms.eqb_spec. unfold SFeqb.
  destruct (Prim2SF x) as [[]|[]| |[] m1 e1], (Prim2SF y) as [[]|[]| |[] m2 e2];
    simpl; intros Hx Hy; try discriminate; eexists; reflexivity.
Qed.

Lemma ltb_irrefl x : (x <? x) = false.
Proof.
  rewrite FloatAxioms.ltb_spec. unfold SFltb.
  destruct (Prim2SF x) as [[]|[]| |[] m e]; simpl; try reflexivity; cmp_cases.
Qed.

Lemma ltb_trans x y z : (x <? y) = true -> (y <? z) = true -> (x <? z) = true.
Proof. rewrite !FloatAxioms.ltb_spec. apply SFltb_trans. Qed.

(** On numbers, [y <= x] is the negation of [x < y]. *)
Lemma leb_not_ltb x y : is_num x -> is_num y -> (y <=? x) = negb (x <? y).
Proof.
  intros Hx Hy. rewrite FloatAxioms.leb_spec, FloatAxioms.ltb_spec. unfold SFleb, SFltb.
  destruct (is_num_compare x y Hx Hy) as [c Hc].
  rewrite (SFcompare_antisym (Prim2SF x) (Prim2SF y)), Hc.
  destruct c; reflexivity.
Qed.

(** Below the threshold is not at or above it, for every pair of floats. *)
Lemma ltb_not_leb x y : (x <? y) = true -> (y <=? x) = false.
Proof.
  rewrite FloatAxioms.leb_spec, FloatAxioms.ltb_spec. unfold SFleb, SFltb.
  rewrite (SFcompare_antisym (Prim2SF x) (Prim2SF y)).
  destruct (SFcompare (Prim2SF x) (Prim2SF y)) as [[]|]; simpl; congruence.
Qed.

Lemma ltb_negtrans x y z :
  is_num x -> is_num y -> is_num z ->
  (x <? y) = false -> (y <? z) = false -> (x <? z) = false.
Proof.
  intros Hx Hy Hz Hxy Hyz.
  assert (H1 : (y <=? x) = true) by (rewrite (leb_not_ltb x y Hx Hy), Hxy; reflexivity).
  assert (H2 : (z <=? y) = true) by (rewrite (leb_not_ltb y z Hy Hz), Hyz; reflexivity).
  rewrite FloatAxioms.leb_spec in H1, H2.
  pose proof (SFleb_trans _ _ _ H2 H1) as H3. rewrite <- FloatAxioms.leb_spec in H3.
  rewrite (leb_not_ltb x z Hx Hz) in H3. apply negb_true_iff in H3. exact H3.
Qed.

(** On numbers, equality is being neither smaller nor greater. *)
Lemma eqb_ltb x y :
  is_num x -> is_num y -> (x =? y) = negb (x <? y) && negb (y <? x).
Proof.
  intros Hx Hy. rewrite FloatAxioms.eqb_spec, !FloatAxioms.ltb_spec. unfold SFeqb, SFltb.
  destruct (is_num_compare x y Hx Hy) as [c Hc].
  rewrite (SFcompare_antisym (Prim2SF x) (Prim2SF y)), Hc.
  destruct c; reflexivity.
Qed.

Lemma eqb_nan_r x y : is_nan y = true -> (x =? y) = false.
Proof.
  unfold is_nan. rewrite !FloatAxioms.eqb_spec. unfold SFeqb.
  destruct (Prim2SF x) as [[]|[]| |[] m1 e1], (Prim2SF y) as [[]|[]| |[] m2 e2];
    simpl; try reflexivity; try discriminate; cmp_cases.
Qed.

End FloatFacts.

(** ** [list.sort] is a stable sort *)

Module SortFacts.

Import PyBuiltins Spec.

Section StableSort.
Context {A K : Type} (key : A -> K) (lt : K -> K -> bool).

(** The keys on which [lt] is known to be a strict weak order. *)
Variable ok : K -> Prop.
Hypothesis lt_irrefl : forall a, ok a -> lt a a = false.
Hypothesis lt_trans :
  forall a b c, ok a -> ok b -> ok c -> lt a b = true -> lt b c = true -> lt a c = true.
Hypothesis lt_negtrans :
  forall a b c, ok a -> ok b -> ok c -> lt a b = false -> lt b c = false -> lt a c = false.

Local Notation keys_ok := (keys_ok key ok).
Local Notation ascending := (ascending key lt).
Local Notation descending := (descending key lt).
Local Notation same_key := (same_key lt).

Lemma lt_asym a b : ok a -> ok b -> lt a b = true -> lt b a = false.
Proof.
  intros Ha Hb Hab. destruct (lt b a) eqn:Hba; [|reflexivity].
  rewrite <- (lt_irrefl a Ha). symmetry. eapply lt_trans; eauto.
Qed.

Lemma insert_sorted_perm x l : Permutation (insert_sorted key lt x l) (x :: l).
Proof.
  induction l as [|y l IH]; simpl; [apply Permutation_refl|].
  destruct (lt (key y) (key x)).
  - eapply Permutation_trans; [apply perm_skip, IH | apply perm_swap].
  - apply Permutation_refl.
Qed.

Lemma sort_ascending_perm l : Permutation (sort_ascending key lt l) l.
Proof.
  induction l as [|x l IH]; simpl; [apply perm_nil|].
  eapply Permutation_trans; [apply insert_sorted_perm | apply perm_skip, IH].
Qed.

Lemma list_sort_perm reverse l : Permutation (list_sort key lt reverse l) l.
Proof.
  unfold list_sort. destruct reverse; [|apply sort_ascending_perm].
  eapply Permutation_trans; [symmetry; apply Permutation_rev|].
  eapply Permutation_trans; [apply sort_ascending_perm|].
  symmetry. apply Permutation_rev.
Qed.

Lemma keys_ok_perm l l' : Permutation l l' -> keys_ok l -> keys_ok l'.
Proof. intros Hp. unfold keys_ok. apply Permutation_Forall, Hp. Qed.

Lemma insert_sorted_ascending x l :
  ok (key x) -> keys_ok l -> ascending l -> ascending (insert_sorted key lt x l).
Proof.
  intros Hx Hok Hs. induction Hs as [|y l Hs IH Hy]; simpl.
  - constructor; [constructor | constructor].
  - inversion Hok as [|? ? Hyok Hlok]; subst.
    destruct (lt (key y) (key x)) eqn:Hyx.
    + constructor; [apply IH; assumption|].
      eapply Permutation_Forall; [symmetry; apply insert_sorted_perm|].
      constructor; [apply lt_asym; assumption | exact Hy].
    + constructor; [constructor; assumption|].
      constructor; [exact Hyx|].
      rewrite Forall_forall in *. intros z Hz.
      eapply (lt_negtrans (key z) (key y) (key x)); auto.
Qed.

Lemma sort_ascending_sorted l : keys_ok l -> ascending (sort_ascending key lt l).
Proof.
  induction l as [|x l IH]; intros Hok; simpl; [constructor|].
  inversion Hok; subst.
  apply insert_sorted_ascending; auto.
  eapply keys_ok_perm; [symmetry; apply sort_ascending_perm | assumption].
Qed.

Lemma sorted_snoc (R : A -> A -> Prop) l x :
  StronglySorted R l -> Forall (fun a => R a x) l -> StronglySorted R (l ++ [x]).
Proof.
  induction 1 as [|y l Hs IH Hy]; intros Hx; simpl.
  - constructor; [constructor | constructor].
  - inversion Hx; subst. constructor; [apply IH; assumption|].
    apply Forall_app. split; [exact Hy | constructor; [assumption | constructor]].
Qed.

Lemma ascending_rev l : ascending l -> descending (rev l).
Proof.
  unfold ascending, descending. induction 1 as [|x l Hs IH Hx]; simpl; [constructor|].
  apply sorted_snoc; [exact IH|].
  rewrite Forall_forall in *. intros z Hz. apply Hx, in_rev, Hz.
Qed.

(** Inserting [x] puts it in front of the elements with the same key. *)
Lemma filter_insert_sorted v x l :
  ok v -> ok (key x) -> keys_ok l ->
  filter (fun a => same_key v (key a)) (insert_sorted key lt x l)
  = filter (fun a => same_key v (key a)) (x :: l).
Proof.
  intros Hv Hx Hok. induction l as [|y l IH]; [reflexivity|].
  inversion Hok as [|? ? Hy Hl]; subst.
  cbn [insert_sorted]. destruct (lt (key y) (key x)) eqn:Hyx; [|reflexivity].
  cbn [filter] in *. rewrite (IH Hl).
  destruct (same_key v (key y)) eqn:Ey; [|reflexivity].
  destruct (same_key v (key x)) eqn:Ex; [|reflexivity].
  exfalso. unfold same_key in Ey, Ex.
  apply andb_prop in Ey. destruct Ey as [_ Ey]. apply negb_true_iff in Ey.
  apply andb_prop in Ex. destruct Ex as [Ex _]. apply negb_true_iff in Ex.
  rewrite (lt_negtrans (key y) v (key x) Hy Hv Hx Ey Ex) in Hyx. discriminate.
Qed.

(** The ascending sort keeps the order of the elements with the same key. *)
Lemma sort_ascending_stable v l :
  ok v -> keys_ok l ->
  filter (fun a => same_key v (key a)) (sort_ascending key lt l)
  = filter (fun a => same_key v (key a)) l.
Proof.
  intros Hv. induction l as [|x l IH]; intros Hok; [reflexivity|].
  inversion Hok as [|? ? Hx Hl]; subst.
  cbn [sort_ascending]. rewrite filter_insert_sorted; try assumption.
  - cbn [filter]. rewrite (IH Hl). reflexivity.
  - eapply keys_ok_perm; [symmetry; apply sort_ascending_perm | assumption].
Qed.

Lemma keys_ok_rev l : keys_ok l -> keys_ok (rev l).
Proof. apply keys_ok_perm, Permutation_rev. Qed.

(** [l.sort(key=key, reverse=True)]: the result is a permutation of [l], no
    later element has a greater key, and the elements with the same key
    keep their order. *)
Theorem list_sort_reverse_stable l :
  keys_ok l ->
  Permutation (list_sort key lt true l) l
  /\ descending (list_sort key lt true l)
  /\ forall v, ok v ->
       filter (fun a => same_key v (key a)) (list_sort key lt true l)
       = filter (fun a => same_key v (key a)) l.
Proof.
  intros Hok. split; [apply list_sort_perm|]. split.
  - unfold list_sort. apply ascending_rev, sort_ascending_sorted, keys_ok_rev, Hok.
  - intros v Hv. unfold list_sort.
    rewrite filter_rev, sort_ascending_stable, filter_rev, rev_involutive;
      [reflexivity | assumption | apply keys_ok_rev, Hok].
Qed.

End StableSort.

End SortFacts.

(** ** The similarity scorer *)

Module ScorerFacts.

Import PyStr PyBuiltins Types Effects JiraClient Spec FloatFacts.
Local Open Scope float_scope.

Lemma in_ratios r : (0 <= r <= 100)%Z -> In r ratios.
Proof.
  intros H. unfold ratios. apply in_map_iff. exists (Z.to_nat r). split; [lia|].
  apply in_seq. lia.
Qed.

Lemma forallb_triples (f : Z -> Z -> Z -> bool) (l : list Z) :
  forallb (fun a => forallb (fun b => forallb (f a b) l) l) l = true ->
  forall a b c, In a l -> In b l -> In c l -> f a b c = true.
Proof.
  intros H a b c Ha Hb Hc.
  rewrite forallb_forall in H. specialize (H a Ha). cbv beta in H.
  rewrite forallb_forall in H. specialize (H b Hb). cbv beta in H.
  rewrite forallb_forall in H. exact (H c Hc).
Qed.

Lemma all_triples_checked :
  forallb (fun rs => forallb (fun rd => forallb (triple_ok rs rd) ratios) ratios) ratios
  = true.
Proof. vm_compute. reflexivity. Qed.

Lemma triple_checked rs rd rl :
  (0 <= rs <= 100)%Z -> (0 <= rd <= 100)%Z -> (0 <= rl <= 100)%Z ->
  triple_ok rs rd rl = true.
Proof.
  intros Hs Hd Hl.
  exact (forallb_triples triple_ok ratios all_triples_checked rs rd rl
           (in_ratios rs Hs) (in_ratios rd Hd) (in_ratios rl Hl)).
Qed.

Section WithLib.
Context {lib : PyLib}.

Lemma scores_of_ratios q i :
  summary_score q i = div100 (summary_ratio q i)
  /\ description_score q i = div100 (description_ratio q i)
  /\ labels_score q i = div100 (labels_ratio q i).
Proof.
  unfold summary_score, description_score, labels_score, summary_ratio,
    description_ratio, labels_ratio.
  split; [reflexivity|]. split.
  - destruct (JiraIssue.description i) as [d|]; [destruct (truthy d)|]; reflexivity.
  - destruct (JiraIssue.labels i); reflexivity.
Qed.

Lemma combined_score_of_ratios q i :
  combined_score q i
  = combined_of_ratios (summary_ratio q i) (description_ratio q i) (labels_ratio q i).
Proof.
  unfold combined_score, combined_of_ratios.
  destruct (scores_of_ratios q i) as [-> [-> ->]]. reflexivity.
Qed.

Lemma ratios_in_range q i :
  ratio_range ->
  (0 <= summary_ratio q i <= 100)%Z /\ (0 <= description_ratio q i <= 100)%Z
  /\ (0 <= labels_ratio q i <= 100)%Z.
Proof.
  intros Hr. unfold summary_ratio, description_ratio, labels_ratio.
  split; [apply Hr|]. split.
  - destruct (JiraIssue.description i) as [d|]; [destruct (truthy d)|];
      first [apply Hr | lia].
  - destruct (JiraIssue.labels i); first [apply Hr | lia].
Qed.

Lemma in_unit_parts x :
  in_unit x = true -> is_num x /\ (0 <=? x) = true /\ (x <=? 1) = true.
Proof.
  unfold in_unit, is_num. intros H.
  apply andb_prop in H. destruct H as [H H1].
  apply andb_prop in H. destruct H as [H H0].
  apply negb_true_iff in H. auto.
Qed.

(** What the check of the triples gives for an issue. *)
Lemma scores_checked q i :
  ratio_range ->
  in_unit (summary_score q i) = true /\ in_unit (description_score q i) = true
  /\ in_unit (labels_score q i) = true /\ in_unit (combined_score q i) = true
  /\ combined_score q i
     = spec_combined (summary_score q i) (description_score q i) (labels_score q i).
Proof.
  intros Hr. destruct (ratios_in_range q i Hr) as [Hs [Hd Hl]].
  pose proof (triple_checked _ _ _ Hs Hd Hl) as H. unfold triple_ok in H.
  rewrite combined_score_of_ratios.
  destruct (scores_of_ratios q i) as [-> [-> ->]].
  apply andb_prop in H. destruct H as [H He].
  apply andb_prop in H. destruct H as [H Hc].
  apply andb_prop in H. destruct H as [H H3].
  apply andb_prop in H. destruct H as [H1 H2].
  apply FloatAxioms.Leibniz.eqb_spec in He. auto.
Qed.

Lemma combined_is_num q i : ratio_range -> is_num (combined_score q i).
Proof.
  intros Hr. destruct (scores_checked q i Hr) as [_ [_ [_ [H _]]]].
  apply in_unit_parts in H. tauto.
Qed.

(** The loop of [find_similar_issues] appends, in the order of the issues,
    the results of the issues that pass. *)
Lemma loop_results q th issues : forall acc,
  fold_left (score_issue q th) issues acc
  = (acc ++ map (result_of q th) (filter (passes q th) issues))%list.
Proof.
  induction issues as [|i issues IH]; intros acc; cbn [fold_left filter map].
  - rewrite app_nil_r. reflexivity.
  - rewrite IH. unfold score_issue, passes.
    destruct (th <=? combined_score q i); [|reflexivity].
    cbn [map]. rewrite <- app_assoc. reflexivity.
Qed.

Lemma find_similar_issues_eq issues q th :
  find_similar_issues issues q th
  = list_sort IssueMatchResult.score PrimFloat.ltb true
      (map (result_of q th) (filter (passes q th) issues)).
Proof.
  unfold find_similar_issues. destruct issues as [|i issues]; [reflexivity|].
  rewrite loop_results. reflexivity.
Qed.

(** Every result is the result of a cached issue that passes. *)
Lemma result_inv issues q th r :
  In r (find_similar_issues issues q th) ->
  In (IssueMatchResult.issue r) issues
  /\ passes q th (IssueMatchResult.issue r) = true
  /\ r = result_of q th (IssueMatchResult.issue r).
Proof.
  rewrite find_similar_issues_eq. intros H.
  eapply Permutation_in in H; [|apply SortFacts.list_sort_perm].
  apply in_map_iff in H. destruct H as [i [<- Hi]].
  apply filter_In in Hi. destruct Hi as [Hi Hp]. cbn. auto.
Qed.

Lemma result_intro issues q th i :
  In i issues -> passes q th i = true ->
  In (result_of q th i) (find_similar_issues issues q th).
Proof.
  intros Hi Hp. rewrite find_similar_issues_eq.
  eapply Permutation_in; [symmetry; apply SortFacts.list_sort_perm|].
  apply in_map, filter_In. auto.
Qed.

End WithLib.

(** C1.  With ratios between 0 and 100: the combined score is
    [min(1.0, 0.7*s + 0.3*d + 0.2*l)] of the three field scores; each field
    score is the ratio of the lower-cased texts divided by 100, a number of
    [[0, 1]]; the description score is 0 without a description and the
    labels score is 0 without labels; every result carries the combined
    score of its item, and an item whose combined score is below the
    threshold is the item of no result. *)
Theorem combined_score_formula {lib : PyLib} (Hr : ratio_range)
    (issues : list JiraIssue.t) (q : string) (th : float) :
  (forall i,
     combined_score q i
     = spec_combined (summary_score q i) (description_score q i) (labels_score q i)
     /\ in_unit (combined_score q i) = true
     /\ in_unit (summary_score q i) = true
     /\ in_unit (description_score q i) = true
     /\ in_unit (labels_score q i) = true)
  /\ (forall i,
        summary_score q i
        = div100 (token_sort_ratio (lower q) (lower (JiraIssue.summary i)))
        /\ (forall d, JiraIssue.description i = Some d -> d <> ""%string ->
              description_score q i = div100 (token_sort_ratio (lower q) (lower d)))
        /\ (JiraIssue.labels i <> [] ->
              labels_score q i
              = div100 (token_sort_ratio (lower q)
                          (lower (join " " (JiraIssue.labels i))))))
  /\ (forall i,
        (JiraIssue.description i = None \/ JiraIssue.description i = Some ""%string ->
         description_score q i = 0)
        /\ (JiraIssue.labels i = [] -> labels_score q i = 0))
  /\ (forall r, In r (find_similar_issues issues q th) ->
        In (IssueMatchResult.issue r) issues
        /\ IssueMatchResult.score r = combined_score q (IssueMatchResult.issue r)
        /\ (th <=? IssueMatchResult.score r) = true)
  /\ (forall i, (combined_score q i <? th) = true ->
        forall r, In r (find_similar_issues issues q th) ->
                  IssueMatchResult.issue r <> i)
  /\ (forall i, In i issues -> (th <=? combined_score q i) = true ->
        exists r, In r (find_similar_issues issues q th)
                  /\ IssueMatchResult.issue r = i).
Proof.
  split; [|split; [|split; [|split; [|split]]]].
  - intros i. destruct (scores_checked q i Hr) as [Hs [Hd [Hl [Hc He]]]]. auto.
  - intros i. split; [reflexivity|]. split.
    + intros d Hd Hne. unfold description_score. rewrite Hd.
      destruct d; [congruence | reflexivity].
    + intros Hne. unfold labels_score.
      destruct (JiraIssue.labels i); [congruence | reflexivity].
  - intros i. split.
    + unfold description_score. intros [-> | ->]; reflexivity.
    + unfold labels_score. intros ->. reflexivity.
  - intros r Hin. destruct (result_inv issues q th r Hin) as [Hi [Hp Hres]].
    split; [exact Hi|]. rewrite Hres at 1 3. cbn [IssueMatchResult.score].
    split; [reflexivity | exact Hp].
  - intros i Hlt r Hin Heq.
    destruct (result_inv issues q th r Hin) as [_ [Hp _]].
    rewrite Heq in Hp. unfold passes in Hp.
    rewrite (ltb_not_leb _ _ Hlt) in Hp. discriminate.
  - intros i Hi Hp. exists (result_of q th i). split; [|reflexivity].
    apply result_intro; assumption.
Qed.

(** The sample library keeps its ratios between 0 and 100. *)
Lemma sample_ratio_range : ratio_range (lib := Sample.lib).
Proof.
  intros a b. cbn. destruct (String.eqb a b); lia.
Qed.

Lemma combined_score_formula_witness :
  combined_score (lib := Sample.lib) "login page" Sample.vague_issue
  = spec_combined 0.6 0.6 0.6
  /\ (forall r, In r (find_similar_issues (lib := Sample.lib) [Sample.vague_issue]
                        "login page" 0.8) ->
                IssueMatchResult.issue r <> Sample.vague_issue).
Proof.
  destruct (combined_score_formula (lib := Sample.lib) sample_ratio_range
              [Sample.vague_issue] "login page" 0.8)
    as [H1 [_ [_ [_ [H5 _]]]]].
  split.
  - destruct (H1 Sample.vague_issue) as [He _]. rewrite He. vm_compute. reflexivity.
  - apply (H5 Sample.vague_issue). vm_compute. reflexivity.
Defined.

Lemma sorted_weaken {A : Type} (R R' : A -> A -> Prop) (P : A -> Prop) l :
  (forall a b, P a -> P b -> R a b -> R' a b) ->
  Forall P l -> StronglySorted R l -> StronglySorted R' l.
Proof.
  intros HR HP Hs. induction Hs as [|x l Hs IH Hx]; [constructor|].
  inversion HP as [|? ? Px Pl]; subst. constructor; [apply IH, Pl|].
  rewrite Forall_forall in *. intros y Hy. apply HR; auto.
Qed.

Lemma same_key_eqb x v :
  is_num x -> is_num v -> same_key PrimFloat.ltb v x = (x =? v).
Proof.
  intros Hx Hv. unfold same_key. rewrite (eqb_ltb x v Hx Hv).
  apply andb_comm.
Qed.

Lemma filter_ext_in_list {A : Type} (f g : A -> bool) l :
  Forall (fun a => f a = g a) l -> filter f l = filter g l.
Proof.
  induction 1 as [|a l Ha Hl IH]; [reflexivity|].
  cbn [filter]. rewrite Ha, IH. reflexivity.
Qed.

Lemma filter_none {A : Type} (l : list A) : filter (fun _ => false) l = [].
Proof. induction l as [|a l IH]; [reflexivity | exact IH]. Qed.

Section WithLib2.
Context {lib : PyLib}.

Lemma results_keys_ok q th issues :
  ratio_range ->
  Forall (fun r => is_num (IssueMatchResult.score r))
         (map (result_of q th) (filter (passes q th) issues)).
Proof.
  intros Hr. rewrite Forall_forall. intros r Hin.
  apply in_map_iff in Hin. destruct Hin as [i [<- _]].
  cbn. apply combined_is_num, Hr.
Qed.

(** The results with the score [v], in their order, are the results of the
    passing issues with the combined score [v], in the order of the cache. *)
Lemma results_with_score q th v issues :
  map IssueMatchResult.issue
      (filter (fun r => IssueMatchResult.score r =? v)
              (map (result_of q th) (filter (passes q th) issues)))
  = filter (fun i => passes q th i && (combined_score q i =? v)) issues.
Proof.
  induction issues as [|i issues IH]; [reflexivity|].
  cbn [filter]. destruct (passes q th i); cbn [andb map filter]; [|exact IH].
  cbn [result_of IssueMatchResult.score].
  destruct (combined_score q i =? v); cbn [map]; rewrite IH; reflexivity.
Qed.

End WithLib2.

(** C4.  With ratios between 0 and 100, the results of
    [find_similar_issues] are sorted by score, greatest first; the results
    that share a score [v] are, in their order, the passing issues of
    combined score [v] in the order of the cache; an empty cache gives no
    result; and the method returns without touching the state: no call is
    recorded and the cache is not refreshed. *)
Theorem find_similar_sorted_stable {lib : PyLib} (Hr : ratio_range)
    (issues : list JiraIssue.t) (q : string) (th : float) :
  let results := find_similar_issues issues q th in
  StronglySorted
    (fun a b => (IssueMatchResult.score b <=? IssueMatchResult.score a) = true) results
  /\ (forall v,
        map IssueMatchResult.issue
            (filter (fun r => IssueMatchResult.score r =? v) results)
        = filter (fun i => (th <=? combined_score q i) && (combined_score q i =? v))
                 issues)
  /\ find_similar_issues [] q th = []
  /\ (forall st, find_similar_issues_ q th st
                 = (Ok (find_similar_issues (Effects.issues st) q th), st)).
Proof.
  cbv zeta. rewrite find_similar_issues_eq.
  pose proof (results_keys_ok q th issues Hr) as Hok.
  destruct (SortFacts.list_sort_reverse_stable IssueMatchResult.score PrimFloat.ltb
              is_num (fun a _ => ltb_irrefl a)
              (fun a b c _ _ _ => ltb_trans a b c) ltb_negtrans _ Hok)
    as [Hperm [Hdesc Hstable]].
  assert (Hok' : Forall (fun r => is_num (IssueMatchResult.score r))
                   (list_sort IssueMatchResult.score PrimFloat.ltb true
                      (map (result_of q th) (filter (passes q th) issues)))).
  { eapply Permutation_Forall; [symmetry; exact Hperm | exact Hok]. }
  split; [|split; [|split]].
  - eapply sorted_weaken; [|exact Hok'|exact Hdesc].
    intros a b Ha Hb Hlt. cbv beta in *.
    rewrite (leb_not_ltb _ _ Ha Hb), Hlt. reflexivity.
  - intros v. destruct (is_nan v) eqn:Hv.
    + rewrite (filter_ext_in_list _ (fun _ => false)).
      * rewrite (filter_ext_in_list
                   (fun i => (th <=? combined_score q i) && (combined_score q i =? v))
                   (fun _ => false) issues).
        { rewrite !filter_none. reflexivity. }
        rewrite Forall_forall. intros i _. rewrite (eqb_nan_r _ v Hv).
        apply andb_false_r.
      * rewrite Forall_forall. intros r _. apply eqb_nan_r, Hv.
    + rewrite (filter_ext_in_list _
                 (fun a => same_key PrimFloat.ltb v (IssueMatchResult.score a))).
      * rewrite (Hstable v Hv).
        transitivity
          (map IssueMatchResult.issue
             (filter (fun r => IssueMatchResult.score r =? v)
                     (map (result_of q th) (filter (passes q th) issues))));
          [|exact (results_with_score q th v issues)].
        f_equal. apply filter_ext_in_list.
        eapply Forall_impl; [|exact Hok]. intros r Hnum.
        apply same_key_eqb; assumption.
      * eapply Forall_impl; [|exact Hok']. intros r Hnum. symmetry.
        apply same_key_eqb; assumption.
  - reflexivity.
  - intros st. reflexivity.
Qed.

Lemma find_similar_sorted_stable_witness :
  let cache := [Sample.vague_issue; Sample.exact_issue; Sample.vague_issue2] in
  let results := find_similar_issues (lib := Sample.lib) cache "login page" 0.5 in
  map IssueMatchResult.issue
      (filter (fun r => IssueMatchResult.score r
                        =? combined_score (lib := Sample.lib) "login page" Sample.vague_issue)
              results)
  = [Sample.vague_issue; Sample.vague_issue2]
  /\ map IssueMatchResult.issue results = [Sample.vague_issue; Sample.vague_issue2; Sample.exact_issue].
Proof.
  cbv zeta.
  destruct (find_similar_sorted_stable (lib := Sample.lib) sample_ratio_range
              [Sample.vague_issue; Sample.exact_issue; Sample.vague_issue2] "login page" 0.5)
    as [_ [Hstable _]].
  split.
  - rewrite Hstable. vm_compute. reflexivity.
  - vm_compute. reflexivity.
Defined.


End ScorerFacts.

(** ** The routes and the event handlers *)

Module RouteFacts.

Import PyStr Types Json Effects GitHubClient JiraClient WebhookServer Spec.

Ltac run := CacheFacts.run.

(** The signature check raises nothing but the [TypeError] of
    [compare_digest]. *)
Lemma verify_signature_raises {lib : PyLib} (config : Config) (body : string)
    (signature : option string) (e : exn) :
  _verify_signature config body signature = inl e -> exists msg, e = TypeError msg.
Proof.
  unfold _verify_signature, option_truthy, compare_digest.
  destruct signature as [sg|]; [|discriminate].
  destruct (truthy sg); [|discriminate].
  destruct (is_ascii _ && is_ascii sg); [discriminate|].
  intros H. inversion H. eexists. reflexivity.
Qed.

(** The three answers of the route [POST /webhook].  It accepts the
    request and leaves one background task exactly when the signature
    verifies, the body decodes and [json.loads] accepts it; it raises the
    [HTTPException] of status 400 exactly when the first two hold and
    [json.loads] refuses the text; in every other case it raises the one of
    status 500, before any call.  No other exception leaves the route, and
    none has the status 401. *)
Theorem github_webhook_answers {lib : PyLib} (config : Config)
    (body : string) (signature event_type : option string) (st : State) :
  (exists text payload,
     _verify_signature config body signature = inr true
     /\ utf8_decode body = Some text /\ json_loads text = Some payload
     /\ github_webhook config body signature event_type st
        = (Ok (JDict [("success", JBool true)], [(event_type, payload)]),
           add_log (add_calls st [JsonLoads text]) INFO
             ("Received GitHub webhook: " ++ str_opt event_type)))
  \/ (exists text,
        _verify_signature config body signature = inr true
        /\ utf8_decode body = Some text /\ json_loads text = None
        /\ github_webhook config body signature event_type st
           = (Raise (HTTPException 400 "Invalid JSON payload"),
              add_calls st [JsonLoads text]))
  \/ (exists st',
        (_verify_signature config body signature <> inr true
         \/ utf8_decode body = None)
        /\ github_webhook config body signature event_type st
           = (Raise (HTTPException 500 "Internal server error"), st')
        /\ trace st' = trace st).
Proof.
  unfold github_webhook, webhook_try, parse_payload, add_log, add_calls. run.
  destruct (_verify_signature config body signature) as [e|[|]] eqn:Hv; simpl.
  - right. right. eexists. split; [left; discriminate|].
    destruct (verify_signature_raises config body signature e Hv) as [msg ->].
    split; reflexivity.
  - destruct (utf8_decode body) as [text|] eqn:Hd; simpl.
    + destruct (json_loads text) as [payload|] eqn:Hj; simpl.
      * left. exists text, payload.
        do 3 (split; [first [reflexivity | assumption]|]).
        reflexivity.
      * right. left. exists text.
        do 3 (split; [first [reflexivity | assumption]|]).
        reflexivity.
    + right. right. eexists. split; [right; reflexivity|]. split; reflexivity.
  - right. right. eexists. split; [left; discriminate|]. split; reflexivity.
Qed.

Lemma eq_str_true v s : eq_str v s = true -> v = JStr s.
Proof.
  destruct v; try discriminate. simpl. intros H. apply String.eqb_eq in H.
  congruence.
Qed.



End RouteFacts.

(** ** What the computations call and what they leave alone *)

Module TraceFacts.

Import PyStr Types Json Effects GitHubClient JiraClient WebhookServer Spec Notions.

Section Only.
Context (P : call -> Prop).

Lemma only_ret {A} (a : A) : only P (ret a).
Proof.
  intros st o st' H. inversion H; subst. exists []. rewrite app_nil_r. auto.
Qed.

Lemma only_raise {A} (e : exn) : only P (@raise A e).
Proof.
  intros st o st' H. inversion H; subst. exists []. rewrite app_nil_r. auto.
Qed.

Lemma only_bind {A B} (m : M A) (k : A -> M B) :
  only P m -> (forall a, only P (k a)) -> only P (bind m k).
Proof.
  intros Hm Hk st o st' H. unfold bind in H.
  destruct (m st) as [[a|e] st1] eqn:E.
  - destruct (Hm _ _ _ E) as [n1 [H1 F1]]. destruct (Hk a _ _ _ H) as [n2 [H2 F2]].
    exists (n1 ++ n2)%list. rewrite H2, H1, app_assoc. split; [reflexivity|].
    apply Forall_app. auto.
  - inversion H; subst. exact (Hm _ _ _ E).
Qed.

Lemma only_try {A} (m : M A) (h : exn -> M A) :
  only P m -> (forall e, only P (h e)) -> only P (try_except m h).
Proof.
  intros Hm Hh st o st' H. unfold try_except in H.
  destruct (m st) as [[a|e] st1] eqn:E.
  - inversion H; subst. exact (Hm _ _ _ E).
  - destruct (Hm _ _ _ E) as [n1 [H1 F1]]. destruct (Hh e _ _ _ H) as [n2 [H2 F2]].
    exists (n1 ++ n2)%list. rewrite H2, H1, app_assoc. split; [reflexivity|].
    apply Forall_app. auto.
Qed.

Lemma only_perform {A} (c : call) (answer : list call -> exn + A) :
  P c -> only P (perform c answer).
Proof.
  intros Hc st o st' H. unfold perform in H. exists [c].
  destruct (answer (trace st)); inversion H; subst; simpl; auto.
Qed.

Lemma only_logger lv msg : only P (logger lv msg).
Proof.
  intros st o st' H. inversion H; subst. exists []. simpl. rewrite app_nil_r. auto.
Qed.

Lemma only_lift {A} (r : exn + A) : only P (lift r).
Proof. destruct r; [apply only_raise | apply only_ret]. Qed.

Lemma only_get_state : only P get_state.
Proof.
  intros st o st' H. inversion H; subst. exists []. rewrite app_nil_r. auto.
Qed.

Lemma only_set_issues l : only P (set_issues l).
Proof.
  intros st o st' H. inversion H; subst. exists []. simpl. rewrite app_nil_r. auto.
Qed.

Lemma only_set_last_sync t : only P (set_last_sync t).
Proof.
  intros st o st' H. inversion H; subst. exists []. simpl. rewrite app_nil_r. auto.
Qed.

Lemma only_datetime_now w : only P (datetime_now w).
Proof.
  intros st o st' H. inversion H; subst. exists []. rewrite app_nil_r. auto.
Qed.

End Only.

Lemma only_weaken {A} (P Q : call -> Prop) (m : M A) :
  (forall c, P c -> Q c) -> only P m -> only Q m.
Proof.
  intros HPQ Hm st o st' H. destruct (Hm _ _ _ H) as [new [Hn F]].
  exists new. split; [exact Hn|]. eapply Forall_impl; eauto.
Qed.

Lemma keeps_ret {A} (a : A) : keeps_cache (ret a).
Proof. intros st o st' H. inversion H; subst. auto. Qed.

Lemma keeps_raise {A} (e : exn) : keeps_cache (@raise A e).
Proof. intros st o st' H. inversion H; subst. auto. Qed.

Lemma keeps_bind {A B} (m : M A) (k : A -> M B) :
  keeps_cache m -> (forall a, keeps_cache (k a)) -> keeps_cache (bind m k).
Proof.
  intros Hm Hk st o st' H. unfold bind in H.
  destruct (m st) as [[a|e] st1] eqn:E.
  - destruct (Hm _ _ _ E) as [H1 H2]. destruct (Hk a _ _ _ H) as [H3 H4].
    split; congruence.
  - inversion H; subst. exact (Hm _ _ _ E).
Qed.

Lemma keeps_try {A} (m : M A) (h : exn -> M A) :
  keeps_cache m -> (forall e, keeps_cache (h e)) -> keeps_cache (try_except m h).
Proof.
  intros Hm Hh st o st' H. unfold try_except in H.
  destruct (m st) as [[a|e] st1] eqn:E.
  - inversion H; subst. exact (Hm _ _ _ E).
  - destruct (Hm _ _ _ E) as [H1 H2]. destruct (Hh e _ _ _ H) as [H3 H4].
    split; congruence.
Qed.

Lemma keeps_perform {A} (c : call) (answer : list call -> exn + A) :
  keeps_cache (perform c answer).
Proof.
  intros st o st' H. unfold perform in H.
  destruct (answer (trace st)); inversion H; subst; auto.
Qed.

Lemma keeps_logger lv msg : keeps_cache (logger lv msg).
Proof. intros st o st' H. inversion H; subst. auto. Qed.

Lemma keeps_lift {A} (r : exn + A) : keeps_cache (lift r).
Proof. destruct r; [apply keeps_raise | apply keeps_ret]. Qed.

Lemma keeps_get_state : keeps_cache get_state.
Proof. intros st o st' H. inversion H; subst. auto. Qed.

Lemma keeps_datetime_now w : keeps_cache (datetime_now w).
Proof. intros st o st' H. inversion H; subst. auto. Qed.

(** Splitting a computation along its binds, handlers and case
    distinctions. *)
Ltac split_only :=
  repeat first
    [ apply only_ret | apply only_raise | apply only_logger | apply only_lift
    | apply only_get_state | apply only_set_issues | apply only_set_last_sync
    | apply only_datetime_now
    | apply only_bind; [|intros ?]
    | apply only_try; [|intros ?]
    | apply only_perform; try exact I
    | match goal with
      | |- only _ (match ?x with _ => _ end) => destruct x
      | |- only _ (if ?b then _ else _) => destruct b
      end ].

Ltac split_keeps :=
  repeat first
    [ apply keeps_ret | apply keeps_raise | apply keeps_logger | apply keeps_lift
    | apply keeps_get_state | apply keeps_datetime_now | apply keeps_perform
    | apply keeps_bind; [|intros ?]
    | apply keeps_try; [|intros ?]
    | match goal with
      | |- keeps_cache (match ?x with _ => _ end) => destruct x
      | |- keeps_cache (if ?b then _ else _) => destruct b
      end ].

(** The two functions of the GitHub client call GitHub only and leave the
    cache of the Jira client alone; [get_pull_request] never raises. *)
Lemma get_pull_request_only w n : only is_github_call (get_pull_request w n).
Proof. unfold get_pull_request. split_only. Qed.

Lemma add_comment_only w n body : only is_github_call (add_comment w n body).
Proof. unfold add_comment. split_only. Qed.

Lemma get_pull_request_keeps w n : keeps_cache (get_pull_request w n).
Proof. unfold get_pull_request. split_keeps. Qed.

Lemma add_comment_keeps w n body : keeps_cache (add_comment w n body).
Proof. unfold add_comment. split_keeps. Qed.

Lemma lift_bind {A B} (x : exn + A) (k : A -> M B) st :
  bind (lift x) k st = match x with inl e => (Raise e, st) | inr a => k a st end.
Proof. unfold bind, lift. destruct x; reflexivity. Qed.

Lemma needs_sync_run (w : World) (st : State) :
  needs_sync w st
  = (Ok match last_sync st with
        | None => true
        | Some t => (five_minutes <? w_now w (trace st) - t)%Z
        end, st).
Proof.
  unfold needs_sync, bind, get_state, datetime_now, ret.
  destruct (last_sync st) as [t|]; [|reflexivity].
  f_equal. f_equal.
  destruct (Z.ltb_spec t (w_now w (trace st) - five_minutes));
    destruct (Z.ltb_spec five_minutes (w_now w (trace st) - t)); first [reflexivity | lia].
Qed.

Lemma get_pull_request_returns w n st :
  exists found st', get_pull_request w n st = (Ok found, st').
Proof.
  unfold get_pull_request, try_except, bind, perform, ret, logger.
  destruct (w_get_pull w (trace st) n); eexists; eexists; reflexivity.
Qed.

End TraceFacts.

(** ** The outcomes of [_process_pr_comment_for_jira] *)

Module OutcomeFacts.

Import PyStr Types Json Effects GitHubClient JiraClient WebhookServer Spec Notions.
Import TraceFacts.

Ltac run := CacheFacts.run.

Lemma last_last_two {A} (l : list A) (a b d : A) : last (l ++ [a; b]) d = b.
Proof.
  change (l ++ [a; b])%list with (l ++ [a] ++ [b])%list.
  rewrite app_assoc. apply last_last.
Qed.

Lemma bind_ok {A B} (m : M A) (k : A -> M B) st b st' :
  bind m k st = (Ok b, st') ->
  exists a st1, m st = (Ok a, st1) /\ k a st1 = (Ok b, st').
Proof.
  unfold bind. destruct (m st) as [[a|e] st1]; [|discriminate].
  intros H. exists a, st1. auto.
Qed.

Section WithEnv.
Context {lib : PyLib} (config : Config) (w : World).

(** The ways the [try] block returns: skipped; a similar issue found and
    reported; or no similar issue, an issue created and reported. *)
Lemma process_try_returns n comment th st r st' :
  process_try config w n comment th st = (Ok r, st') ->
  (is_create_jira_comment comment = false
   /\ r = ProcessingResult.mk "skipped" None None (Some "No Jira creation request found")
   /\ st' = add_log st INFO "Comment does not request Jira creation")
  \/ (exists pr st1 st2,
        is_create_jira_comment comment = true
        /\ get_pull_request w n st = (Ok (Some pr), st1)
        /\ synced_from config w st1 st2
        /\ ((exists best rest c,
               find_similar_issues (issues st2) (search_text_of config comment pr) th
               = best :: rest
               /\ add_comment w n (found_similar_comment config best)
                    (add_log st2 INFO
                       ("Found similar issue: "
                        ++ JiraIssue.key (IssueMatchResult.issue best) ++ " ("
                        ++ format_1f (IssueMatchResult.score best * 100)%float
                        ++ "% similarity)"))
                  = (Ok c, st')
               /\ r = ProcessingResult.mk "found_similar"
                        (Some (IssueMatchResult.issue best))
                        (Some (IssueMatchResult.score best)) None)
            \/ (exists item st3 st4 c,
                  find_similar_issues (issues st2) (search_text_of config comment pr) th
                  = []
                  /\ create_issue w (request_of config comment pr)
                       (add_log st2 INFO "Creating new Jira issue...")
                     = (Ok item, st3)
                  /\ add_comment w n (created_comment config item) st3 = (Ok c, st4)
                  /\ st' = add_log st4 INFO ("Created Jira issue: " ++ JiraIssue.key item)
                  /\ r = ProcessingResult.mk "created" (Some item) None None))).
Proof.
  unfold process_try.
  destruct (is_create_jira_comment comment) eqn:Hc; cbn [negb].
  2:{ unfold bind, logger, ret, add_log. intros H. inversion H; subst. left. auto. }
  intros H. right.
  apply bind_ok in H. destruct H as [[pr|] [st1 [H1 H]]]; [|inversion H].
  exists pr, st1.
  apply bind_ok in H. destruct H as [stale [st1' [Hn H]]].
  pose proof Hn as Hn'. rewrite needs_sync_run in Hn'.
  inversion Hn'; subst st1'. clear Hn'.
  apply bind_ok in H. destruct H as [[] [st2 [Hs H]]].
  assert (Hsf : synced_from config w st1 st2).
  { exists stale. split; [exact Hn|]. destruct stale.
    - apply bind_ok in Hs. destruct Hs as [[] [sl [Hl Hs]]].
      inversion Hl; subst. exact Hs.
    - inversion Hs; reflexivity. }
  exists st2. split; [reflexivity|]. split; [exact H1|]. split; [exact Hsf|].
  apply bind_ok in H. destruct H as [similar [st2' [Hf H]]].
  change (find_similar_issues_ (search_text_of config comment pr) th st2
          = (Ok similar, st2')) in Hf.
  change (find_similar_issues_ (search_text_of config comment pr) th st2)
    with (Ok (find_similar_issues (issues st2) (search_text_of config comment pr) th),
          st2) in Hf.
  injection Hf as Hsim <-. subst similar.
  change (CreateJiraIssueRequest.mk _ _ _ _ _ _ _)
    with (request_of config comment pr) in H.
  destruct (find_similar_issues (issues st2) (search_text_of config comment pr) th)
    as [|best rest] eqn:Hfind.
  - right.
    apply bind_ok in H. destruct H as [[] [sl [Hl H]]]. inversion Hl; subst.
    apply bind_ok in H. destruct H as [item [st3 [H3 H]]].
    apply bind_ok in H. destruct H as [c [st4 [H4 H]]].
    apply bind_ok in H. destruct H as [[] [st5 [H5 H]]].
    inversion H5; subst. inversion H; subst.
    exists item, st3, st4, c. split; [reflexivity|].
    split; [exact H3|]. split; [exact H4|]. split; reflexivity.
  - left.
    apply bind_ok in H. destruct H as [[] [sl [Hl H]]]. inversion Hl; subst.
    apply bind_ok in H. destruct H as [c [st3 [H3 H]]].
    inversion H; subst. exists best, rest, c. split; [reflexivity|].
    split; [exact H3 | reflexivity].
Qed.

End WithEnv.

Lemma sync_issues_only {lib : PyLib} config w : only not_create_issue (sync_issues config w).
Proof. unfold sync_issues. split_only. Qed.

Lemma github_is_not_create c : is_github_call c -> not_create_issue c.
Proof. destruct c; simpl; tauto. Qed.

(** The calls between the start of the processing and the search of the
    cache: the lookup of the pull request and, if the cache is stale, the
    search of the sync. *)
Lemma prefix_calls {lib : PyLib} config w n pr st st1 st2 :
  get_pull_request w n st = (Ok (Some pr), st1) ->
  synced_from config w st1 st2 ->
  exists new, trace st2 = (trace st ++ new)%list /\ Forall not_create_issue new.
Proof.
  intros H1 [stale [_ Hs]].
  destruct (get_pull_request_only w n _ _ _ H1) as [n1 [E1 F1]].
  destruct stale.
  - destruct (sync_issues_only config w _ _ _ Hs) as [n2 [E2 F2]].
    exists (n1 ++ n2)%list. cbn [add_log trace] in E2. rewrite E2, E1, app_assoc.
    split; [reflexivity|]. apply Forall_app. split; [|exact F2].
    eapply Forall_impl; [apply github_is_not_create | exact F1].
  - subst st2. exists n1. split; [exact E1|].
    eapply Forall_impl; [apply github_is_not_create | exact F1].
Qed.

Lemma add_comment_ok w n body st c st' :
  add_comment w n body st = (Ok c, st') ->
  st' = add_calls st [GetIssue n; CreateComment n body].
Proof.
  rewrite OrchestratorFacts.add_comment_run. cbv zeta.
  destruct (w_get_issue w (trace st) n); [discriminate|].
  destruct (w_create_comment w _ n body); [discriminate|].
  intros H. inversion H. reflexivity.
Qed.

Lemma process_ok {lib : PyLib} config w n comment th st r st' :
  _process_pr_comment_for_jira config w n comment th st = (Ok r, st') ->
  process_try config w n comment th st = (Ok r, st').
Proof.
  unfold _process_pr_comment_for_jira, try_except.
  destruct (process_try config w n comment th st) as [[r0|e] st0]; [auto|].
  rewrite OrchestratorFacts.process_except_run. cbv zeta.
  destruct (add_comment w n _ _) as [[c|e2] st2]; discriminate.
Qed.

(** When the processing answers [found_similar], the reported issue is the
    first result of the search of the cache as it is left, its score is at
    or above the threshold, the last call posts the comment about it, and
    no issue was created on the way. *)
Theorem found_similar_reports_without_creating {lib : PyLib} (config : Config)
    (w : World) (n : Z) (comment : string) (th : float) (st : State)
    (r : ProcessingResult.t) (st' : State)
    (H : _process_pr_comment_for_jira config w n comment th st = (Ok r, st'))
    (Ha : ProcessingResult.action r = "found_similar") :
  exists pr best rest new,
    fst (get_pull_request w n st) = Ok (Some pr)
    /\ find_similar_issues (issues st') (search_text_of config comment pr) th = best :: rest
    /\ ProcessingResult.issue r = Some (IssueMatchResult.issue best)
    /\ ProcessingResult.similarity r = Some (IssueMatchResult.score best)
    /\ (th <=? IssueMatchResult.score best)%float = true
    /\ trace st' = (trace st ++ new)%list
    /\ Forall not_create_issue new
    /\ last new (GetPull n) = CreateComment n (found_similar_comment config best).
Proof.
  apply process_ok, process_try_returns in H.
  destruct H as [[_ [-> _]] | [pr [st1 [st2 [_ [H1 [Hs [Hfound | Hcreated]]]]]]]].
  - discriminate Ha.
  - destruct Hfound as [best [rest [c [Hf [Hc ->]]]]].
    apply add_comment_ok in Hc. subst st'.
    destruct (prefix_calls config w n pr st st1 st2 H1 Hs) as [new [En Fn]].
    exists pr, best, rest,
      (new ++ [GetIssue n; CreateComment n (found_similar_comment config best)])%list.
    split; [rewrite H1; reflexivity|]. split; [exact Hf|]. split; [reflexivity|]. split; [reflexivity|]. split.
    + assert (Hin : In best (find_similar_issues (issues st2)
                               (search_text_of config comment pr) th))
        by (rewrite Hf; left; reflexivity).
      destruct (ScorerFacts.result_inv _ _ _ _ Hin) as [_ [Hp Hres]].
      rewrite Hres. exact Hp.
    + split; [cbn [add_calls add_log trace]; rewrite En, app_assoc; reflexivity|].
      split.
      * apply Forall_app. split; [exact Fn|]. repeat constructor.
      * rewrite last_last_two. reflexivity.
  - destruct Hcreated as [item [st3 [st4 [c [_ [_ [_ [_ ->]]]]]]]]. discriminate Ha.
Qed.

Lemma create_issue_ok {lib : PyLib} w request st item st' :
  create_issue w request st = (Ok item, st') ->
  issues st' = item :: issues st
  /\ exists new_key,
       trace st' = (trace st ++ [CreateIssue (issue_data_of request); FetchIssue new_key])%list.
Proof.
  rewrite CacheFacts.create_issue_run. cbv zeta.
  destruct (w_create_issue w (trace st) _) as [e|new_key]; [discriminate|].
  destruct (w_issue w _ new_key) as [e|created]; [discriminate|].
  destruct (_transform_jira_issue created) as [e|item']; [discriminate|].
  intros H. inversion H; subst. split; [reflexivity|].
  exists new_key. cbn [trace]. rewrite <- app_assoc. reflexivity.
Qed.

(** When the processing answers [created], the search of the cache had no
    result at the threshold; the created issue is the one returned and the
    first of the cache, in front of the issues searched; exactly one issue
    was created, with the summary, type and labels extracted from the
    comment, and the last call posts the comment about it. *)
Theorem created_only_without_match {lib : PyLib} (config : Config)
    (w : World) (n : Z) (comment : string) (th : float) (st : State)
    (r : ProcessingResult.t) (st' : State)
    (H : _process_pr_comment_for_jira config w n comment th st = (Ok r, st'))
    (Ha : ProcessingResult.action r = "created") :
  exists pr item searched before new_key,
    fst (get_pull_request w n st) = Ok (Some pr)
    /\ ProcessingResult.issue r = Some item
    /\ issues st' = item :: searched
    /\ find_similar_issues searched (search_text_of config comment pr) th = []
    /\ Forall not_create_issue before
    /\ trace st'
       = (trace st ++ before
          ++ [CreateIssue (issue_data_of (request_of config comment pr));
              FetchIssue new_key; GetIssue n;
              CreateComment n (created_comment config item)])%list.
Proof.
  apply process_ok, process_try_returns in H.
  destruct H as [[_ [-> _]] | [pr [st1 [st2 [_ [H1 [Hs [Hfound | Hcreated]]]]]]]].
  - discriminate Ha.
  - destruct Hfound as [best [rest [c [_ [_ ->]]]]]. discriminate Ha.
  - destruct Hcreated as [item [st3 [st4 [c [Hf [H3 [H4 [-> ->]]]]]]]].
    apply add_comment_ok in H4. subst st4.
    destruct (create_issue_ok w _ _ _ _ H3) as [Hi [new_key Ht]].
    destruct (prefix_calls config w n pr st st1 st2 H1 Hs) as [before [En Fn]].
    exists pr, item, (issues st2), before, new_key.
    split; [rewrite H1; reflexivity|]. split; [reflexivity|]. split; [exact Hi|]. split; [exact Hf|].
    split; [exact Fn|].
    cbn [add_calls add_log trace] in *. rewrite Ht, En.
    rewrite <- !app_assoc. reflexivity.
Qed.

Lemma found_similar_reports_without_creating_witness :
  exists pr best rest new,
    find_similar_issues (lib := Sample.lib)
      (issues (snd (_process_pr_comment_for_jira (lib := Sample.lib) Sample.config
                      Sample.world 7 "please create jira issue" 0.4%float Sample.fresh)))
      (search_text_of Sample.config "please create jira issue" pr) 0.4%float
    = best :: rest
    /\ Some (Sample.issue "PROJ-1" "Fix login page styling")
       = Some (IssueMatchResult.issue best)
    /\ Forall not_create_issue new
    /\ last new (GetPull 7)
       = CreateComment 7 (found_similar_comment (lib := Sample.lib) Sample.config best).
Proof.
  destruct (found_similar_reports_without_creating (lib := Sample.lib) Sample.config
              Sample.world 7 "please create jira issue" 0.4%float Sample.fresh
              (ProcessingResult.mk "found_similar"
                 (Some (Sample.issue "PROJ-1" "Fix login page styling"))
                 (Some (combined_score (lib := Sample.lib) ""
                          (Sample.issue "PROJ-1" "Fix login page styling"))) None)
              (snd (_process_pr_comment_for_jira (lib := Sample.lib) Sample.config
                      Sample.world 7 "please create jira issue" 0.4%float Sample.fresh)))
    as [pr [best [rest [new [_ [H1 [H2 [_ [_ [_ [H6 H7]]]]]]]]]]].
  - vm_compute. reflexivity.
  - reflexivity.
  - exists pr, best, rest, new. auto.
Defined.

Lemma created_only_without_match_witness :
  exists item searched,
    issues (snd (_process_pr_comment_for_jira (lib := Sample.lib) Sample.config
                   Sample.world 7 "please create jira issue" 0.7%float Sample.fresh))
    = item :: searched
    /\ Some (Sample.issue "PROJ-2" "Created from a pull request") = Some item.
Proof.
  destruct (created_only_without_match (lib := Sample.lib) Sample.config
              Sample.world 7 "please create jira issue" 0.7%float Sample.fresh
              (ProcessingResult.mk "created"
                 (Some (Sample.issue "PROJ-2" "Created from a pull request")) None None)
              (snd (_process_pr_comment_for_jira (lib := Sample.lib) Sample.config
                      Sample.world 7 "please create jira issue" 0.7%float Sample.fresh)))
    as [pr [item [searched [before [new_key [_ [H1 [H2 _]]]]]]]].
  - vm_compute. reflexivity.
  - reflexivity.
  - exists item, searched. auto.
Defined.

End OutcomeFacts.

(** ** Pull requests labelled [needs-jira] *)

Module PullRequestFacts.

Import PyStr Re Types Json Effects GitHubClient JiraClient WebhookServer Spec Notions.
Import TraceFacts.

Lemma starts_perform {A} (c : call) (answer : list call -> exn + A) :
  starts_with c (perform c answer).
Proof.
  intros st o st' H. unfold perform in H. exists [].
  destruct (answer (trace st)); inversion H; reflexivity.
Qed.

Lemma starts_bind {A B} c (m : M A) (k : A -> M B) :
  starts_with c m -> (forall a, only any_call (k a)) -> starts_with c (bind m k).
Proof.
  intros Hm Hk st o st' H. unfold bind in H.
  destruct (m st) as [[a|e] st1] eqn:E.
  - destruct (Hm _ _ _ E) as [r1 H1]. destruct (Hk a _ _ _ H) as [n2 [H2 _]].
    exists (r1 ++ n2)%list. rewrite H2, H1, <- app_assoc. reflexivity.
  - inversion H; subst. exact (Hm _ _ _ E).
Qed.

Lemma starts_try {A} c (m : M A) (h : exn -> M A) :
  starts_with c m -> (forall e, only any_call (h e)) -> starts_with c (try_except m h).
Proof.
  intros Hm Hh st o st' H. unfold try_except in H.
  destruct (m st) as [[a|e] st1] eqn:E.
  - inversion H; subst. exact (Hm _ _ _ E).
  - destruct (Hm _ _ _ E) as [r1 H1]. destruct (Hh e _ _ _ H) as [n2 [H2 _]].
    exists (r1 ++ n2)%list. rewrite H2, H1, <- app_assoc. reflexivity.
Qed.

Ltac any_calls := split_only; exact I.

(** A comment that asks for an issue is never skipped: the processing
    starts with the lookup of the pull request. *)
Lemma process_starts {lib : PyLib} config w n comment th :
  is_create_jira_comment comment = true ->
  starts_with (GetPull n) (_process_pr_comment_for_jira config w n comment th).
Proof.
  intros Hc. unfold _process_pr_comment_for_jira, process_try. rewrite Hc. cbn [negb].
  apply starts_try.
  - apply starts_bind.
    + unfold get_pull_request. apply starts_try.
      * apply starts_bind; [apply starts_perform | intros ?; apply only_ret].
      * intros e. any_calls.
    + intros found. unfold needs_sync, sync_issues, find_similar_issues_, create_issue,
        add_comment. any_calls.
  - intros e. unfold process_except, add_comment. any_calls.
Qed.

(** The comment written for a labelled pull request always asks for an
    issue; whatever the title, the extracted type is ["Task"], and a title
    of one line that starts with neither a colon nor white space is the
    extracted summary, stripped. *)
Theorem auto_comment_requests_task (config : Config) (title pr_title : string)
    (pr_body : option string) (pr_number : option Z) :
  let d := extract_jira_details config (auto_comment title) pr_title pr_body pr_number in
  is_create_jira_comment (auto_comment title) = true
  /\ issue_type d = "Task"
  /\ (plain_value title = true -> summary d = strip title).
Proof.
  cbv zeta. split; [reflexivity|]. split; [reflexivity|].
  intros Hp. destruct (ExtractFacts.plain_value_parts title Hp) as [H1 [H2 H3]].
  destruct (ExtractFacts.field_match "summary" "Summary" ": " title "")
    as [tl H];
    [reflexivity | discriminate | reflexivity | assumption.. | reflexivity |].
  rewrite ExtractFacts.append_empty in H.
  unfold extract_jira_details. cbn [summary].
  change (auto_comment title)
    with (("Auto-triggered: Create Jira issue for this PR" ++ nl ++ nl
           ++ "Type: Task" ++ nl) ++ ("Summary: " ++ title)).
  assert (Hpre : no_match_before true summary_re
            ("Auto-triggered: Create Jira issue for this PR" ++ nl ++ nl
             ++ "Type: Task" ++ nl) ("Summary: " ++ title) = true)
    by reflexivity.
  rewrite (ExtractFacts.search_leftmost true summary_re _ _ _ tl Hpre H).
  reflexivity.
Qed.

Lemma logger_bind {B} l msg (k : unit -> M B) st :
  bind (logger l msg) k st = k tt (add_log st l msg).
Proof. reflexivity. Qed.

Lemma app_cons_neq {A} (l r : list A) (c : A) : (l ++ c :: r)%list <> l.
Proof.
  intros H. apply (f_equal (@length A)) in H. rewrite length_app in H.
  simpl in H. lia.
Qed.



End PullRequestFacts.

(** ** Loading the configuration *)

Module ConfigFacts.

Import PyStr Types Effects ConfigPy.

Lemma required_ok env name :
  is_set env name = true -> exists v, get_required_env_var env name = inr v /\ truthy v = true
                                      /\ env name = Some v.
Proof.
  unfold is_set, get_required_env_var. destruct (env name) as [v|]; [|discriminate].
  intros H. rewrite H. exists v. auto.
Qed.

Lemma required_missing env name :
  is_set env name = false ->
  get_required_env_var env name
  = inl (ValueError ("Required environment variable " ++ name ++ " is not set")).
Proof.
  unfold is_set, get_required_env_var. destruct (env name) as [v|]; [|reflexivity].
  intros H. rewrite H. reflexivity.
Qed.

Lemma required_inv env name v :
  get_required_env_var env name = inr v -> truthy v = true /\ env name = Some v.
Proof.
  unfold get_required_env_var. destruct (env name) as [x|]; [|discriminate].
  destruct (truthy x) eqn:E; [|discriminate]. intros H. inversion H; subst. auto.
Qed.

Lemma required_value env name :
  is_set env name = true ->
  get_required_env_var env name = inr (get_optional_env_var env name "").
Proof.
  unfold is_set, get_required_env_var, get_optional_env_var.
  destruct (env name) as [v|]; [|discriminate]. intros H. rewrite H. reflexivity.
Qed.

(** A run of [load_config]: the first required variable that is not set
    decides the error; with all of them set, the port decides. *)
Lemma load_config_run env int_of_str :
  load_config env int_of_str =
  match find (fun name => negb (is_set env name)) required_names with
  | Some name =>
      inl (ValueError ("Required environment variable " ++ name ++ " is not set"))
  | None =>
      match int_of_str (get_optional_env_var env "PORT" "3000") with
      | None => inl (ValueError ("invalid literal for int() with base 10: '"
                                 ++ get_optional_env_var env "PORT" "3000" ++ "'"))
      | Some port => inr (config_of env port)
      end
  end.
Proof.
  unfold load_config, required_names, and_then. cbn [find].
  repeat match goal with
  | |- context [is_set env ?n] =>
      let E := fresh "E" in
      destruct (is_set env n) eqn:E;
      [rewrite (required_value env n E) | rewrite (required_missing env n E); reflexivity];
      cbn [negb]
  end.
  cbv zeta. destruct (int_of_str _); reflexivity.
Qed.

Lemma find_first {A} (f : A -> bool) (before : list A) (x : A) (after : list A) :
  forallb (fun y => negb (f y)) before = true -> f x = true ->
  find f (before ++ x :: after) = Some x.
Proof.
  induction before as [|y before IH]; simpl.
  - intros _ ->. reflexivity.
  - intros H Hx. apply andb_prop in H. destruct H as [Hy H].
    apply negb_true_iff in Hy. rewrite Hy. auto.
Qed.

(** [load_config] reports the first required variable, in the order
    [JIRA_HOST], ..., [GITHUB_REPO], that is unset or empty, and only that
    one, whatever the variables after it and the port are. *)
Theorem load_config_reports_first_missing (env : environ)
    (int_of_str : string -> option Z) (before : list string) (name : string)
    (after : list string)
    (Hsplit : required_names = (before ++ name :: after)%list)
    (Hbefore : forallb (is_set env) before = true)
    (Hname : is_set env name = false) :
  load_config env int_of_str
  = inl (ValueError ("Required environment variable " ++ name ++ " is not set")).
Proof.
  rewrite load_config_run, Hsplit, (find_first _ before name after); [reflexivity | |].
  - rewrite forallb_forall in *. intros y Hy. rewrite (Hbefore y Hy). reflexivity.
  - rewrite Hname. reflexivity.
Qed.

Lemma load_config_reports_first_missing_witness :
  load_config sample_env sample_int
  = inl (ValueError "Required environment variable GITHUB_OWNER is not set").
Proof.
  apply (load_config_reports_first_missing sample_env sample_int
           ["JIRA_HOST"; "JIRA_USERNAME"; "JIRA_API_TOKEN"; "JIRA_PROJECT_KEY";
            "GITHUB_TOKEN"; "GITHUB_WEBHOOK_SECRET"]
           "GITHUB_OWNER" ["GITHUB_REPO"]); reflexivity.
Defined.

Lemma find_none_forallb {A} (f : A -> bool) (l : list A) :
  find (fun x => negb (f x)) l = None <-> forallb f l = true.
Proof.
  induction l as [|x l IH]; simpl; [tauto|].
  destruct (f x); simpl; [exact IH|]. split; discriminate.
Qed.

Lemma load_config_ok env int_of_str c :
  load_config env int_of_str = inr c ->
  forallb (is_set env) required_names = true
  /\ exists port, int_of_str (get_optional_env_var env "PORT" "3000") = Some port
                  /\ c = config_of env port.
Proof.
  rewrite load_config_run, <- find_none_forallb.
  destruct (find _ required_names) as [name|]; [discriminate|].
  destruct (int_of_str _) as [port|]; [|discriminate].
  intros H. inversion H. split; [reflexivity|]. exists port. auto.
Qed.

(** [load_config] returns a configuration exactly when the eight required
    variables are set and not empty and the port, ["3000"] unless [PORT] is
    set, is an integer for [int]; the configuration then holds the
    environment's values. *)
Theorem load_config_succeeds_iff (env : environ) (int_of_str : string -> option Z)
    (c : Config) :
  load_config env int_of_str = inr c
  <-> forallb (is_set env) required_names = true
      /\ exists port, int_of_str (get_optional_env_var env "PORT" "3000") = Some port
                      /\ c = config_of env port.
Proof.
  split; [apply load_config_ok|].
  rewrite load_config_run, <- find_none_forallb.
  intros [Hfind [port [Hp ->]]]. rewrite Hfind, Hp. reflexivity.
Qed.

Lemma is_set_truthy env name :
  is_set env name = true -> truthy (get_optional_env_var env name "") = true.
Proof.
  unfold is_set, get_optional_env_var. destruct (env name); [auto | discriminate].
Qed.

Lemma config_of_valid env port :
  forallb (is_set env) required_names = true ->
  validate_config (config_of env port) = inr tt.
Proof.
  unfold required_names. cbn [forallb]. intros H.
  repeat (apply andb_prop in H; destruct H as [?H H]).
  unfold validate_config, required_fields, config_of.
  cbn [jira github host username api_token project_key token webhook_secret owner repo
       filter fst].
  repeat match goal with
  | Hs : is_set env ?n = true |- _ => rewrite (is_set_truthy env n Hs); clear Hs
  end.
  reflexivity.
Qed.

(** [get_config], called while the global is unset.  When it returns a
    configuration, that configuration passes [validate_config], the global
    holds it, and every later call returns it again whatever the
    environment has become.  When it raises, the error is the one of
    [load_config], never the one of [validate_config], and the global is
    still unset. *)
Theorem get_config_caches_valid (env : environ) (int_of_str : string -> option Z)
    (r : exn + Config) (g : option Config)
    (H : get_config env int_of_str None = (r, g)) :
  match r with
  | inr c =>
      g = Some c /\ validate_config c = inr tt
      /\ forall env' int_of_str', get_config env' int_of_str' g = (inr c, g)
  | inl e => g = None /\ load_config env int_of_str = inl e
  end.
Proof.
  revert H. unfold get_config.
  destruct (load_config env int_of_str) as [e|c] eqn:Hl.
  - intros H. inversion H; subst. auto.
  - apply load_config_ok in Hl. destruct Hl as [Hset [port [_ ->]]].
    rewrite (config_of_valid env port Hset). intros H. inversion H; subst.
    split; [reflexivity|]. split; [apply config_of_valid; exact Hset|].
    intros env' i'. reflexivity.
Qed.

Lemma get_config_caches_valid_witness :
  validate_config (config_of full_env 8080) = inr tt
  /\ get_config sample_env sample_int (Some (config_of full_env 8080))
     = (inr (config_of full_env 8080), Some (config_of full_env 8080)).
Proof.
  destruct (get_config_caches_valid full_env sample_int
              (inr (config_of full_env 8080)) (Some (config_of full_env 8080)))
    as [_ [Hv Hc]].
  - vm_compute. reflexivity.
  - split; [exact Hv | apply Hc].
Defined.

End ConfigFacts.

(** ** The login of the Jira client *)

Module AuthFacts.

Import PyStr Types Effects AuthPy.

Lemma prefix_split (old : string) : forall s,
  String.prefix old s = true -> exists rest, s = old ++ rest.
Proof.
  induction old as [|a old IH]; intros s H.
  - exists s. reflexivity.
  - destruct s as [|b s]; [discriminate|]. simpl in H.
    destruct (ascii_dec a b) as [->|]; [|discriminate].
    destruct (IH s H) as [rest ->]. exists rest. reflexivity.
Qed.

Lemma prefix_app (old : string) : forall rest, String.prefix old (old ++ rest) = true.
Proof.
  induction old as [|a old IH]; intros rest; simpl.
  - destruct rest; reflexivity.
  - destruct (ascii_dec a a); [apply IH | congruence].
Qed.

Lemma length_append (a b : string) :
  String.length (a ++ b) = String.length a + String.length b.
Proof. induction a; simpl; congruence. Qed.

(** Removing the occurrences of [old] never lengthens a string. *)
Lemma replace_from_length old : forall s k,
  String.length (replace_from old "" k s) <= String.length s.
Proof.
  induction s as [|c s IH]; intros k; [reflexivity|].
  cbn [replace_from]. destruct k as [|k].
  - destruct (String.prefix old (String c s)).
    + cbn [append String.length]. specialize (IH (String.length old - 1)). lia.
    + cbn [String.length]. specialize (IH 0). lia.
  - specialize (IH k). cbn [String.length]. lia.
Qed.

Lemma replace_shortens old : forall before after,
  old <> EmptyString ->
  String.length (replace old "" (before ++ old ++ after))
  < String.length (before ++ old ++ after).
Proof.
  intros before after Hold. unfold replace.
  assert (Hhead : forall s c s', s = String c s' -> String.prefix old s = true ->
            String.length (replace_from old "" 0 s) < String.length s).
  { intros s c s' -> Hp. cbn [replace_from]. rewrite Hp. cbn [append String.length].
    pose proof (replace_from_length old s' (String.length old - 1)). lia. }
  induction before as [|c before IH].
  - destruct old as [|a old]; [congruence|].
    apply (Hhead _ a (old ++ after)); [reflexivity | apply (prefix_app (String a old))].
  - change (String c before ++ old ++ after) with (String c (before ++ old ++ after)).
    destruct (String.prefix old (String c (before ++ old ++ after))) eqn:Hp.
    + apply (Hhead _ c (before ++ old ++ after)); [reflexivity | exact Hp].
    + cbn [replace_from]. rewrite Hp. cbn [String.length]. lia.
Qed.

Lemma replace_without old new : forall s,
  ~ occurs old s -> replace old new s = s.
Proof.
  unfold replace. induction s as [|c s IH]; intros Hno; [reflexivity|].
  cbn [replace_from].
  destruct (String.prefix old (String c s)) eqn:Hp.
  - exfalso. apply Hno. destruct (prefix_split _ _ Hp) as [rest ->].
    exists EmptyString, rest. reflexivity.
  - rewrite IH; [reflexivity|]. intros [before [after ->]]. apply Hno.
    exists (String c before), after. reflexivity.
Qed.

(** [s.replace(old, "")] gives back [s] exactly when [old] does not occur
    in it. *)
Lemma replace_same_iff old s :
  old <> EmptyString -> (replace old "" s = s <-> ~ occurs old s).
Proof.
  intros Hold. split.
  - intros H [before [after ->]].
    pose proof (replace_shortens old before after Hold) as Hlt.
    rewrite H in Hlt. lia.
  - apply replace_without.
Qed.

Lemma bearer_header_replace token :
  replace "Bearer " "" ("Bearer " ++ token) = replace "Bearer " "" token.
Proof.
  unfold replace.
  change ("Bearer " ++ token) with (String "B" ("earer " ++ token)).
  cbn [replace_from].
  replace (String.prefix "Bearer " (String "B" ("earer " ++ token))) with true
    by (symmetry; apply (prefix_app "Bearer ")).
  reflexivity.
Qed.

Lemma truthy_iff (x : string) : truthy x = true <-> x <> EmptyString.
Proof. destruct x; simpl; split; congruence. Qed.

Lemma arguments_of_basic config u p :
  init_arguments config (BasicAuthenticator u p)
  = basic_auth (host (jira config)) (username (jira config)) (api_token (jira config)).
Proof.
  unfold init_arguments. cbn [get_headers dict_get]. rewrite String.eqb_refl.
  rewrite (prefix_app "Basic "). reflexivity.
Qed.

Lemma prefix_basic_bearer token : String.prefix "Basic " ("Bearer " ++ token) = false.
Proof.
  simpl. destruct (ascii_dec "B" "B"); [|congruence].
  destruct (ascii_dec "a" "e"); [discriminate | reflexivity].
Qed.

Lemma arguments_of_bearer config token :
  init_arguments config (BearerAuthenticator token)
  = token_auth (host (jira config)) (replace "Bearer " "" token).
Proof.
  unfold init_arguments. cbn [get_headers dict_get]. rewrite String.eqb_refl.
  rewrite prefix_basic_bearer, (prefix_app "Bearer "), bearer_header_replace.
  reflexivity.
Qed.

(** What [JiraClient.__init__] logs in with.  With the method ["bearer"]
    and a token, [JIRA] gets [token_auth], the token without its
    occurrences of ["Bearer "], and no user name is needed.  With any other
    method, a user name and a token, [JIRA] gets [basic_auth] with both;
    for a method other than ["basic"] a warning is logged first.  In every
    other case the constructor raises the [ValueError] of
    [BasicAuthenticator] and [JIRA] is not called. *)
Theorem jira_client_login {J : Type} (JIRA : jira_arguments -> exn + J)
    (config : Config) :
  let jc := jira config in
  let missing :=
    ValueError "Basic authentication requires both username and password/token" in
  (auth_method jc = "bearer" -> api_token jc <> "" ->
   init JIRA config
   = connect JIRA config []
       (token_auth (host jc) (replace "Bearer " "" (api_token jc))))
  /\ (auth_method jc = "basic" -> username jc <> "" -> api_token jc <> "" ->
      init JIRA config
      = connect JIRA config [] (basic_auth (host jc) (username jc) (api_token jc)))
  /\ (auth_method jc <> "basic" -> auth_method jc <> "bearer" ->
      username jc <> "" -> api_token jc <> "" ->
      init JIRA config
      = connect JIRA config
          [(WARNING, "Invalid auth method '" ++ auth_method jc
                     ++ "', falling back to basic auth: "
                     ++ "Unknown authentication method: " ++ auth_method jc)]
          (basic_auth (host jc) (username jc) (api_token jc)))
  /\ (api_token jc = "" \/ (auth_method jc <> "bearer" /\ username jc = "") ->
      exists logs, init JIRA config = (inl missing, logs)).
Proof.
  cbv zeta. unfold init, init_authenticator, create_authenticator.
  destruct config as [[h u t k m] gh sv]. cbn [jira host username api_token auth_method].
  split; [|split; [|split]].
  - intros -> Ht. apply truthy_iff in Ht. cbn [String.eqb Ascii.eqb Bool.eqb].
    unfold new_bearer. rewrite Ht. cbn [negb].
    rewrite arguments_of_bearer. reflexivity.
  - intros -> Hu Ht. apply truthy_iff in Hu. apply truthy_iff in Ht.
    cbn [String.eqb Ascii.eqb Bool.eqb]. unfold new_basic. rewrite Hu, Ht. cbn [negb orb].
    rewrite arguments_of_basic. reflexivity.
  - intros Hb Hbe Hu Ht. apply truthy_iff in Hu. apply truthy_iff in Ht.
    apply String.eqb_neq in Hb. apply String.eqb_neq in Hbe. rewrite Hb, Hbe.
    cbn [String.eqb Ascii.eqb Bool.eqb]. unfold new_basic. rewrite Hu, Ht. cbn [negb orb].
    rewrite arguments_of_basic. reflexivity.
  - intros Hcase.
    assert (Hbasic : new_basic u t
              = inl (ValueError
                       "Basic authentication requires both username and password/token")).
    { unfold new_basic. destruct Hcase as [-> | [_ ->]]; [|reflexivity].
      destruct (truthy u); reflexivity. }
    destruct (String.eqb m "basic") eqn:Hb.
    + rewrite !Hbasic. cbn [String.eqb Ascii.eqb Bool.eqb].
      eexists. reflexivity.
    + destruct (String.eqb m "bearer") eqn:Hbe.
      * destruct Hcase as [-> | [Hm _]];
          [|apply String.eqb_eq in Hbe; congruence].
        unfold new_bearer. rewrite !Hbasic.
        cbn [truthy negb String.eqb Ascii.eqb Bool.eqb].
        eexists. reflexivity.
      * rewrite !Hbasic. cbn [String.eqb Ascii.eqb Bool.eqb]. eexists. reflexivity.
Qed.

(** The token of a bearer login reaches [JIRA] unchanged exactly when
    ["Bearer "] does not occur in it. *)
Theorem bearer_token_unchanged_iff (config : Config) (tok : string) :
  init_arguments config (BearerAuthenticator tok) = token_auth (host (jira config)) tok
  <-> ~ occurs "Bearer " tok.
Proof.
  rewrite arguments_of_bearer, <- (replace_same_iff "Bearer " tok) by discriminate.
  split; [intros H; inversion H; congruence | intros ->; reflexivity].
Qed.

End AuthFacts.

(** ** The server of tools *)

Module McpFacts.

Import PyStr Types Json Effects GitHubClient JiraClient WebhookServer McpTools Spec.
Import TraceFacts.

(** The call of a handler inside its [try]. *)
Lemma handler_run (h : handler) (arguments : json) (st : State) :
  try_except (bind (h arguments) (fun result => ret (text_content result)))
    (fun e => ret (error_content ("Error: " ++ str_exn e))) st
  = match h arguments st with
    | (Ok text, st1) => (Ok (text_content text), st1)
    | (Raise e, st1) => (Ok (error_content ("Error: " ++ str_exn e)), st1)
    end.
Proof.
  unfold try_except, bind, ret. destruct (h arguments st) as [[text|e] st1]; reflexivity.
Qed.

(** A call of a tool by its name, with [dict] parameters. *)
Lemma tools_call_run {lib : PyLib} (s : SimpleMCPServer) (d p : list (string * json))
    (n : string) (st : State) :
  lookup "method" d = Some (JStr "tools/call") ->
  lookup "params" d = Some (JDict p) ->
  lookup "name" p = Some (JStr n) ->
  handle_request s (JDict d) st
  = let arguments :=
      match lookup "arguments" p with Some a => a | None => JDict [] end in
    match dict_find n (tool_handlers s) with
    | Some h =>
        match h arguments st with
        | (Ok text, st1) => (Ok (text_content text), st1)
        | (Raise e, st1) => (Ok (error_content ("Error: " ++ str_exn e)), st1)
        end
    | None => (Ok (error_content ("Unknown tool: " ++ str_json (JStr n))), st)
    end.
Proof.
  intros Hm Hp Hn. unfold handle_request. cbn [get]. rewrite Hm, Hp.
  rewrite !lift_bind. cbn [eq_str String.eqb Ascii.eqb Bool.eqb get]. rewrite Hn.
  rewrite lift_bind.
  destruct (lookup "arguments" p) as [a|]; rewrite lift_bind; cbn [find_handler];
    rewrite lift_bind; (destruct (dict_find n (tool_handlers s)) as [h|];
                        [apply handler_run | reflexivity]).
Qed.

(** No exception of a handler leaves [handle_request]: for a well-formed
    request it returns, whatever the tools registered and whatever they do. *)
Theorem handle_request_contains_errors {lib : PyLib} (s : SimpleMCPServer)
    (request : json) (st : State)
    (H : well_formed request = true) :
  exists r st', handle_request s request st = (Ok r, st').
Proof.
  unfold handle_request. destruct request as [| | | | |d]; try discriminate.
  cbn [well_formed] in H. cbn [get].
  set (method := match lookup "method" d with Some x => x | None => JNull end).
  assert (Hmethod : match lookup "method" d with
                    | Some x => @inr exn json x
                    | None => inr JNull
                    end = inr method) by (unfold method; destruct (lookup "method" d); reflexivity).
  rewrite Hmethod, lift_bind. clear Hmethod.
  destruct (lookup "params" d) as [params|].
  - destruct params as [| | | | |p]; try discriminate. rewrite lift_bind.
    destruct (eq_str method "tools/list"); [eexists; eexists; reflexivity|].
    destruct (eq_str method "tools/call"); [|eexists; eexists; reflexivity].
    cbn [get].
    destruct (lookup "name" p) as [tool_name|]; rewrite lift_bind;
      (destruct (lookup "arguments" p) as [arguments|]; rewrite lift_bind).
    1,2: destruct tool_name as [| | |n| |]; try discriminate; cbn [find_handler];
         rewrite lift_bind; try (eexists; eexists; reflexivity);
         (destruct (dict_find n (tool_handlers s)) as [h|];
          [rewrite handler_run;
           match goal with
           | |- context [h ?a ?x] => destruct (h a x) as [[text|e] st1]
           end; eexists; eexists; reflexivity
          | eexists; eexists; reflexivity]).
    all: cbn [find_handler]; rewrite lift_bind; eexists; eexists; reflexivity.
  - rewrite lift_bind.
    destruct (eq_str method "tools/list"); [eexists; eexists; reflexivity|].
    destruct (eq_str method "tools/call"); [|eexists; eexists; reflexivity].
    cbn [get lookup]. rewrite !lift_bind. cbn [find_handler].
    eexists; eexists; reflexivity.
Qed.

Lemma handle_request_contains_errors_witness :
  exists r st',
    handle_request (lib := Sample.lib)
      (sample_server (lib := Sample.lib) Sample.config Sample.broken_world)
      (tools_call "sync_jira_issues" (JDict [])) Sample.fresh = (Ok r, st').
Proof.
  apply (handle_request_contains_errors (lib := Sample.lib)
           (sample_server (lib := Sample.lib) Sample.config Sample.broken_world)
           (tools_call "sync_jira_issues" (JDict [])) Sample.fresh).
  reflexivity.
Defined.

Lemma dict_find_set_same {V} (k : string) (v : V) (d : list (string * V)) :
  dict_find k (dict_set k v d) = Some v.
Proof.
  induction d as [|[k' v'] d IH]; simpl.
  - rewrite String.eqb_refl. reflexivity.
  - destruct (String.eqb k k') eqn:E; simpl; [rewrite String.eqb_refl | rewrite E]; auto.
Qed.

Lemma dict_find_set_other {V} (k k0 : string) (v : V) (d : list (string * V)) :
  k0 <> k -> dict_find k0 (dict_set k v d) = dict_find k0 d.
Proof.
  intros Hne. apply String.eqb_neq in Hne.
  induction d as [|[k' v'] d IH]; simpl.
  - rewrite Hne. reflexivity.
  - destruct (String.eqb k k') eqn:E; simpl.
    + apply String.eqb_eq in E. subst k'. rewrite Hne. reflexivity.
    + rewrite IH. reflexivity.
Qed.

(** The list of tools and the handlers agree on every server built with
    [add_tool]: a name is listed exactly when a call of it finds a handler.
    A name added again is listed once more, and its calls go to the handler
    added last; the calls of the other names are not affected. *)
Theorem listed_iff_callable (s : SimpleMCPServer) (H : built s) :
  (forall n, listed s n <-> dict_find n (tool_handlers s) <> None)
  /\ (forall name description input_schema h,
        let s' := add_tool name description input_schema h s in
        List.length (tools s') = S (List.length (tools s))
        /\ dict_find name (tool_handlers s') = Some h
        /\ forall n, n <> name ->
             dict_find n (tool_handlers s') = dict_find n (tool_handlers s)).
Proof.
  split.
  - induction H as [name|name description input_schema h s Hs IH]; intros n.
    + unfold listed. simpl. split; [tauto | congruence].
    + unfold listed in *. cbn [add_tool tools tool_handlers].
      rewrite map_app, in_app_iff, IH. cbn [map tool_name_of lookup In].
      change (String.eqb "name" "name") with true. cbv iota.
      destruct (String.eqb n name) eqn:E.
      * apply String.eqb_eq in E. subst n. rewrite dict_find_set_same.
        split; [discriminate | intros _; right; left; reflexivity].
      * apply String.eqb_neq in E. rewrite (dict_find_set_other name n h _ E).
        split; [|tauto]. intros [Hl | [Hn | []]]; [exact Hl|]. congruence.
  - intros name description input_schema h. cbv zeta.
    cbn [add_tool tools tool_handlers]. split; [|split].
    + rewrite length_app. simpl. lia.
    + apply dict_find_set_same.
    + intros n Hn. apply dict_find_set_other. exact Hn.
Qed.

Lemma listed_iff_callable_witness :
  listed (sample_server (lib := Sample.lib) Sample.config Sample.world) "sync_jira_issues"
  /\ ~ listed (sample_server (lib := Sample.lib) Sample.config Sample.world) "get_jira_boards".
Proof.
  destruct (listed_iff_callable
              (sample_server (lib := Sample.lib) Sample.config Sample.world))
    as [Hl _].
  - unfold sample_server. repeat constructor.
  - split.
    + apply Hl. discriminate.
    + intros Hn. apply Hl in Hn. apply Hn. reflexivity.
Defined.

Lemma tools_call_named {lib : PyLib} (s : SimpleMCPServer) (tool : string)
    (arguments : json) (st : State) :
  handle_request s (tools_call tool arguments) st
  = match dict_find tool (tool_handlers s) with
    | Some h =>
        match h arguments st with
        | (Ok text, st1) => (Ok (text_content text), st1)
        | (Raise e, st1) => (Ok (error_content ("Error: " ++ str_exn e)), st1)
        end
    | None => (Ok (error_content ("Unknown tool: " ++ str_json (JStr tool))), st)
    end.
Proof.
  unfold tools_call.
  rewrite (tools_call_run s
             [("method", JStr "tools/call");
              ("params", JDict [("name", JStr tool); ("arguments", arguments)])]
             [("name", JStr tool); ("arguments", arguments)] tool st);
    reflexivity.
Qed.

(** The tool [sync_jira_issues], called through [handle_request], always
    answers.  Either the search and the transformation of its issues
    succeeded, the cache holds the transformed issues and the text tells
    their number; or the answer is an error text and the cache and the time
    of the last sync are as before. *)
Theorem sync_tool_reports {lib : PyLib} (config : Config) (w : World)
    (s : SimpleMCPServer) (arguments : json) (st : State)
    (Hreg : dict_find "sync_jira_issues" (tool_handlers s)
            = Some (_sync_jira_issues config w)) :
  exists r st',
    handle_request s (tools_call "sync_jira_issues" arguments) st = (Ok r, st')
    /\ ((exists found,
           w_search_issues w (trace st) (sync_jql config) 1000 sync_fields = inr found
           /\ transform_all found = inr (issues st')
           /\ last_sync st' = Some (w_now w (trace st'))
           /\ r = text_content ("Successfully synced "
                                ++ str_of_Z (Z.of_nat (List.length (issues st')))
                                ++ " Jira issues"))
        \/ (exists e,
              r = error_content ("Error: " ++ str_exn e)
              /\ issues st' = issues st /\ last_sync st' = last_sync st)).
Proof.
  rewrite tools_call_named, Hreg.
  unfold _sync_jira_issues, get_all_issues, bind, get_state, ret.
  rewrite CacheFacts.sync_issues_run. cbv zeta.
  destruct (w_search_issues w (trace st) (sync_jql config) 1000 sync_fields)
    as [e|found] eqn:Hs.
  - eexists; eexists. split; [reflexivity|]. right. exists e. auto.
  - destruct (transform_all found) as [e|items] eqn:Ht.
    + eexists; eexists. split; [reflexivity|]. right. exists e. auto.
    + eexists; eexists. split; [reflexivity|]. left. exists found.
      cbn [issues last_sync trace]. auto.
Qed.

Lemma sync_tool_reports_witness :
  exists r st',
    handle_request (lib := Sample.lib)
      (sample_server (lib := Sample.lib) Sample.config Sample.sync_fails)
      (tools_call "sync_jira_issues" (JDict [])) Sample.synced = (Ok r, st')
    /\ r = error_content "Error: Jira is down"
    /\ issues st' = issues Sample.synced.
Proof.
  destruct (sync_tool_reports (lib := Sample.lib) Sample.config Sample.sync_fails
              (sample_server (lib := Sample.lib) Sample.config Sample.sync_fails)
              (JDict []) Sample.synced eq_refl)
    as [r [st' [Hrun Hcase]]].
  exists r, st'. split; [exact Hrun|].
  vm_compute in Hrun. inversion Hrun. split; reflexivity.
Defined.



(** [start] never fails: when the first sync raises, the error is logged,
    the cache and the time of the last sync stay as they were, so that
    [needs_sync] still asks for a sync on a server that never had one. *)
Theorem start_survives_failed_sync {lib : PyLib} (config : Config) (w : World)
    (st : State) :
  exists st',
    start config w st = (Ok tt, st')
    /\ ((exists found,
           w_search_issues w (trace st) (sync_jql config) 1000 sync_fields = inr found
           /\ transform_all found = inr (issues st'))
        \/ (issues st' = issues st /\ last_sync st' = last_sync st
            /\ (last_sync st = None -> needs_sync w st' = (Ok true, st')))).
Proof.
  unfold start, try_except, bind, logger. rewrite CacheFacts.sync_issues_run. cbv zeta.
  destruct (w_search_issues w (trace st) (sync_jql config) 1000 sync_fields)
    as [e|found] eqn:Hs.
  - eexists. split; [reflexivity|]. right. cbn [issues last_sync].
    split; [reflexivity|]. split; [reflexivity|].
    intros Hn. unfold needs_sync, bind, get_state. cbn [last_sync]. rewrite Hn. reflexivity.
  - destruct (transform_all found) as [e|items] eqn:Ht.
    + eexists. split; [reflexivity|]. right. cbn [issues last_sync].
      split; [reflexivity|]. split; [reflexivity|].
      intros Hn. unfold needs_sync, bind, get_state. cbn [last_sync]. rewrite Hn.
      reflexivity.
    + eexists. split; [reflexivity|]. left. exists found. auto.
Qed.

End McpFacts.

(** ** What a sync needs and keeps *)

Module SyncFacts.

Import PyStr Types Json Effects GitHubClient JiraClient Spec Notions.

Section WithLib.
Context {lib : PyLib}.

Lemma transform_ok_iff (issue : RawIssue) :
  (exists item, _transform_jira_issue issue = inr item) <-> dates_ok issue = true.
Proof.
  unfold _transform_jira_issue, dates_ok, date_ok.
  destruct (parse_date (f_created issue)) as [e|c]; cbn [andb].
  - split; [intros [item H]; discriminate | discriminate].
  - destruct (parse_date (f_updated issue)) as [e|u].
    + split; [intros [item H]; discriminate | discriminate].
    + split; [reflexivity | intros _; eexists; reflexivity].
Qed.

Lemma transform_keeps_key (issue : RawIssue) (item : JiraIssue.t) :
  _transform_jira_issue issue = inr item ->
  JiraIssue.key item = raw_key issue /\ JiraIssue.summary item = f_summary issue.
Proof.
  unfold _transform_jira_issue.
  destruct (parse_date (f_created issue)) as [e|c]; [discriminate|].
  destruct (parse_date (f_updated issue)) as [e|u]; [discriminate|].
  intros H. inversion H. split; reflexivity.
Qed.

Lemma transform_error (issue : RawIssue) (e : exn) :
  _transform_jira_issue issue = inl e -> exists msg, e = ValueError msg.
Proof.
  unfold _transform_jira_issue, parse_date.
  destruct (f_created issue) as [d|].
  - destruct (truthy d).
    + destruct (fromisoformat _); [|intros H; inversion H; eexists; reflexivity].
      destruct (f_updated issue) as [d'|]; [|discriminate].
      destruct (truthy d'); [|discriminate].
      destruct (fromisoformat _); [discriminate|].
      intros H; inversion H; eexists; reflexivity.
    + destruct (f_updated issue) as [d'|]; [|discriminate].
      destruct (truthy d'); [|discriminate].
      destruct (fromisoformat _); [discriminate|].
      intros H; inversion H; eexists; reflexivity.
  - destruct (f_updated issue) as [d'|]; [|discriminate].
    destruct (truthy d'); [|discriminate].
    destruct (fromisoformat _); [discriminate|].
    intros H; inversion H; eexists; reflexivity.
Qed.

Lemma transform_all_ok_iff (found : list RawIssue) :
  (exists items, transform_all found = inr items) <-> forallb dates_ok found = true.
Proof.
  induction found as [|issue found IH]; cbn [transform_all forallb].
  - split; [reflexivity | intros _; eexists; reflexivity].
  - rewrite andb_true_iff, <- IH, <- transform_ok_iff.
    destruct (_transform_jira_issue issue) as [e|item].
    + split; [intros [items H]; discriminate | intros [[item H] _]; discriminate].
    + destruct (transform_all found) as [e|items].
      * split; [intros [x H]; discriminate | intros [_ [x H]]; discriminate].
      * split; [intros _; split; eexists; reflexivity | intros _; eexists; reflexivity].
Qed.

Lemma transform_all_keys (found : list RawIssue) : forall items,
  transform_all found = inr items ->
  map JiraIssue.key items = map raw_key found
  /\ map JiraIssue.summary items = map f_summary found.
Proof.
  induction found as [|issue found IH]; cbn [transform_all]; intros items.
  - intros H. inversion H. split; reflexivity.
  - destruct (_transform_jira_issue issue) as [e|item] eqn:Hi; [discriminate|].
    destruct (transform_all found) as [e|rest]; [discriminate|].
    intros H. inversion H. subst items. cbn [map].
    destruct (transform_keeps_key issue item Hi) as [-> ->].
    destruct (IH rest eq_refl) as [-> ->]. split; reflexivity.
Qed.

Lemma transform_all_error (found : list RawIssue) (e : exn) :
  transform_all found = inl e -> exists msg, e = ValueError msg.
Proof.
  induction found as [|issue found IH]; cbn [transform_all]; [discriminate|].
  destruct (_transform_jira_issue issue) as [e'|item] eqn:Hi.
  - intros H. inversion H. subst e'. exact (transform_error issue e Hi).
  - destruct (transform_all found) as [e'|rest]; [|discriminate].
    intros H. inversion H. subst e'. apply IH. reflexivity.
Qed.

End WithLib.

(** When the search answers, [sync_issues] succeeds exactly when the two
    dates of every issue found are absent, empty or in ISO format: one
    issue with another date makes the sync fail with a [ValueError] and
    the cache stays as it was.  After a sync that succeeds, the cache has
    the keys and summaries of the issues found, in their order. *)
Theorem sync_needs_every_date {lib : PyLib} (config : Config) (w : World) (st : State)
    (found : list RawIssue)
    (Hfound : w_search_issues w (trace st) (sync_jql config) 1000 sync_fields
              = inr found) :
  ((exists st', sync_issues config w st = (Ok tt, st'))
   <-> forallb dates_ok found = true)
  /\ (forall st', sync_issues config w st = (Ok tt, st') ->
        map JiraIssue.key (issues st') = map raw_key found
        /\ map JiraIssue.summary (issues st') = map f_summary found)
  /\ (forall e st', sync_issues config w st = (Raise e, st') ->
        (exists msg, e = ValueError msg)
        /\ issues st' = issues st /\ last_sync st' = last_sync st).
Proof.
  rewrite CacheFacts.sync_issues_run. cbv zeta. rewrite Hfound.
  rewrite <- transform_all_ok_iff.
  destruct (transform_all found) as [e|items] eqn:Ht.
  - split; [|split].
    + split; [intros [st' H]; discriminate | intros [items H]; discriminate].
    + intros st' H. discriminate.
    + intros e' st' H. inversion H. subst. cbn [issues last_sync].
      split; [exact (transform_all_error found e' Ht) | auto].
  - split; [|split].
    + split; [intros _; eexists; reflexivity | intros _; eexists; reflexivity].
    + intros st' H. inversion H. cbn [issues]. exact (transform_all_keys found items Ht).
    + intros e st' H. discriminate.
Qed.

Lemma sync_needs_every_date_witness :
  exists st', sync_issues (lib := Sample.lib) Sample.config Sample.world Sample.fresh
              = (Ok tt, st').
Proof.
  destruct (sync_needs_every_date (lib := Sample.lib) Sample.config Sample.world
              Sample.fresh [Sample.raw_issue "PROJ-1" "Fix login page styling"] eq_refl)
    as [[_ H] _].
  apply H. reflexivity.
Defined.

End SyncFacts.

(** ** The lookup of the pull request *)

Module LookupFacts.

Import PyStr Types Json Effects GitHubClient JiraClient WebhookServer Spec Notions.

Lemma get_pull_request_failed (w : World) (n : Z) (st : State) (e : exn) :
  w_get_pull w (trace st) n = inl e ->
  get_pull_request w n st
  = (Ok None, add_log (add_calls st [GetPull n]) ERROR
                ("Error fetching PR #" ++ str_of_Z n ++ ": " ++ str_exn e)).
Proof.
  intros H. unfold get_pull_request, try_except, bind, perform, logger, ret.
  rewrite H. reflexivity.
Qed.

(** Whatever makes the lookup of the pull request fail, the processing
    raises [Pull request #n not found]: the cause is logged only.  The one
    other call is the attempt to comment on that pull request, the cache
    and the time of the last sync are as before, and Jira is not called. *)
Theorem lookup_failure_reported_as_not_found {lib : PyLib} (config : Config)
    (w : World) (n : Z) (comment : string) (th : float) (st : State) (e : exn)
    (Hask : is_create_jira_comment comment = true)
    (Hfail : w_get_pull w (trace st) n = inl e) :
  let not_found := Exception ("Pull request #" ++ str_of_Z n ++ " not found") in
  exists st',
    _process_pr_comment_for_jira config w n comment th st = (Raise not_found, st')
    /\ issues st' = issues st /\ last_sync st' = last_sync st
    /\ In (ERROR, "Error fetching PR #" ++ str_of_Z n ++ ": " ++ str_exn e) (log st')
    /\ (trace st' = (trace st ++ [GetPull n; GetIssue n])%list
        \/ trace st' = (trace st ++ [GetPull n; GetIssue n;
                                     CreateComment n (error_comment not_found)])%list).
Proof.
  cbv zeta. unfold _process_pr_comment_for_jira, process_try, try_except.
  rewrite Hask. cbn [negb]. unfold bind at 1.
  rewrite (get_pull_request_failed w n st e Hfail). unfold raise at 1.
  rewrite OrchestratorFacts.process_except_run. cbv zeta.
  rewrite OrchestratorFacts.add_comment_run. cbv zeta.
  cbn [add_log add_calls trace issues last_sync log].
  destruct (w_get_issue w _ n) as [e1|].
  - eexists. split; [reflexivity|]. cbn [add_log add_calls trace issues last_sync log].
    split; [reflexivity|]. split; [reflexivity|]. split.
    + rewrite !in_app_iff. left. left. left. right. left. reflexivity.
    + left. rewrite <- app_assoc. reflexivity.
  - destruct (w_create_comment w _ n _) as [e2|c].
    + eexists. split; [reflexivity|].
      cbn [add_log add_calls trace issues last_sync log].
      split; [reflexivity|]. split; [reflexivity|]. split.
      * rewrite !in_app_iff. left. left. left. right. left. reflexivity.
      * right. rewrite <- app_assoc. reflexivity.
    + eexists. split; [reflexivity|].
      cbn [add_log add_calls trace issues last_sync log].
      split; [reflexivity|]. split; [reflexivity|]. split.
      * rewrite !in_app_iff. left. right. left. reflexivity.
      * right. rewrite <- app_assoc. reflexivity.
Qed.

Lemma lookup_failure_reported_as_not_found_witness :
  exists st',
    _process_pr_comment_for_jira (lib := Sample.lib) Sample.config Sample.broken_world 7
      "please create jira issue" 0.7%float Sample.fresh
    = (Raise (Exception "Pull request #7 not found"), st')
    /\ issues st' = [].
Proof.
  destruct (lookup_failure_reported_as_not_found (lib := Sample.lib) Sample.config
              Sample.broken_world 7 "please create jira issue" 0.7%float Sample.fresh
              (SdkError "GitHub is down") eq_refl eq_refl)
    as [st' [H1 [H2 _]]].
  exists st'. split; [exact H1 | exact H2].
Defined.

End LookupFacts.

(** ** The threshold of the search *)

Module ThresholdFacts.

Import PyStr Types PyBuiltins JiraClient Spec FloatFacts.
Local Open Scope float_scope.

Lemma SFleb_ltb_trans x y z :
  SFleb x y = true -> SFltb y z = true -> SFltb x z = true.
Proof.
  unfold SFleb, SFltb.
  destruct x as [[]|[]| |[] m1 e1], y as [[]|[]| |[] m2 e2], z as [[]|[]| |[] m3 e3];
    simpl; try congruence; cmp_cases.
Qed.

Lemma leb_trans x y z : (x <=? y) = true -> (y <=? z) = true -> (x <=? z) = true.
Proof. rewrite !FloatAxioms.leb_spec. apply SFleb_trans. Qed.

(** Nothing at or below [y] reaches a threshold above [y]. *)
Lemma above_excludes x y th :
  (x <=? y) = true -> (y <? th) = true -> (th <=? x) = false.
Proof.
  intros Hxy Hyt. apply ltb_not_leb.
  rewrite FloatAxioms.leb_spec in Hxy. rewrite FloatAxioms.ltb_spec in *.
  exact (SFleb_ltb_trans _ _ _ Hxy Hyt).
Qed.

Lemma nan_excludes x th : is_nan th = true -> (th <=? x) = false.
Proof.
  unfold is_nan. rewrite FloatAxioms.eqb_spec, FloatAxioms.leb_spec.
  unfold SFeqb, SFleb.
  destruct (Prim2SF th) as [[]|[]| |[] m1 e1], (Prim2SF x) as [[]|[]| |[] m2 e2];
    simpl; try reflexivity; try discriminate; cmp_cases.
Qed.

Section WithLib.
Context {lib : PyLib}.

Lemma filter_all {A : Type} (f : A -> bool) (l : list A) :
  (forall a, In a l -> f a = true) -> filter f l = l.
Proof.
  induction l as [|a l IH]; intros H; [reflexivity|].
  cbn [filter]. rewrite (H a (or_introl eq_refl)), IH; [reflexivity|].
  intros b Hb. apply H. right. exact Hb.
Qed.

Lemma filter_nothing {A : Type} (f : A -> bool) (l : list A) :
  (forall a, In a l -> f a = false) -> filter f l = [].
Proof.
  induction l as [|a l IH]; intros H; [reflexivity|].
  cbn [filter]. rewrite (H a (or_introl eq_refl)), IH; [reflexivity|].
  intros b Hb. apply H. right. exact Hb.
Qed.

End WithLib.

(** The ends of the threshold, with ratios between 0 and 100.  A threshold
    above 1, or one that is not a number, finds nothing in any cache; a
    threshold at or below 0 finds every cached issue. *)
Theorem threshold_edges {lib : PyLib} (Hr : ratio_range) (issues : list JiraIssue.t)
    (q : string) (th : float) :
  ((1 <? th) = true \/ is_nan th = true -> find_similar_issues issues q th = [])
  /\ ((th <=? 0) = true ->
      Permutation (map IssueMatchResult.issue (find_similar_issues issues q th)) issues).
Proof.
  split.
  - intros Hth. rewrite ScorerFacts.find_similar_issues_eq.
    rewrite filter_nothing; [reflexivity|].
    intros i _. unfold passes.
    destruct (ScorerFacts.scores_checked q i Hr) as [_ [_ [_ [Hc _]]]].
    apply ScorerFacts.in_unit_parts in Hc. destruct Hc as [_ [_ H1]].
    destruct Hth as [Hth | Hth];
      [exact (above_excludes _ _ _ H1 Hth) | exact (nan_excludes _ _ Hth)].
  - intros Hth. rewrite ScorerFacts.find_similar_issues_eq.
    eapply Permutation_trans;
      [apply Permutation_map, SortFacts.list_sort_perm|].
    rewrite filter_all.
    + rewrite map_map. cbn [result_of IssueMatchResult.issue]. rewrite map_id. reflexivity.
    + intros i _. unfold passes.
      destruct (ScorerFacts.scores_checked q i Hr) as [_ [_ [_ [Hc _]]]].
      apply ScorerFacts.in_unit_parts in Hc. destruct Hc as [_ [H0 _]].
      exact (leb_trans _ _ _ Hth H0).
Qed.

Lemma threshold_edges_witness :
  find_similar_issues (lib := Sample.lib) [Sample.vague_issue; Sample.exact_issue]
    "login page" 1.5 = []
  /\ Permutation
       (map IssueMatchResult.issue
          (find_similar_issues (lib := Sample.lib) [Sample.vague_issue; Sample.exact_issue]
             "login page" 0))
       [Sample.vague_issue; Sample.exact_issue].
Proof.
  split.
  - apply (threshold_edges (lib := Sample.lib) ScorerFacts.sample_ratio_range
             [Sample.vague_issue; Sample.exact_issue] "login page" 1.5).
    left. vm_compute. reflexivity.
  - apply (threshold_edges (lib := Sample.lib) ScorerFacts.sample_ratio_range
             [Sample.vague_issue; Sample.exact_issue] "login page" 0).
    vm_compute. reflexivity.
Defined.

(** Raising the threshold only removes results: what is found at a
    threshold is found, with the same score, at every lower one. *)
Theorem threshold_monotone {lib : PyLib} (issues : list JiraIssue.t) (q : string)
    (low high : float) (r : IssueMatchResult.t)
    (Hle : (low <=? high) = true)
    (Hin : In r (find_similar_issues issues q high)) :
  exists r',
    In r' (find_similar_issues issues q low)
    /\ IssueMatchResult.issue r' = IssueMatchResult.issue r
    /\ IssueMatchResult.score r' = IssueMatchResult.score r.
Proof.
  destruct (ScorerFacts.result_inv issues q high r Hin) as [Hi [Hp Hres]].
  exists (result_of q low (IssueMatchResult.issue r)). split; [|split].
  - apply ScorerFacts.result_intro; [exact Hi|].
    unfold passes in *. exact (leb_trans _ _ _ Hle Hp).
  - reflexivity.
  - rewrite Hres at 2. reflexivity.
Qed.

Lemma threshold_monotone_witness :
  exists r',
    In r' (find_similar_issues (lib := Sample.lib) [Sample.vague_issue] "login page" 0.5)
    /\ IssueMatchResult.issue r' = Sample.vague_issue.
Proof.
  destruct (threshold_monotone (lib := Sample.lib) [Sample.vague_issue] "login page"
              0.5 0.7
              (result_of (lib := Sample.lib) "login page" 0.7 Sample.vague_issue))
    as [r' [H1 [H2 _]]].
  - vm_compute. reflexivity.
  - vm_compute. left. reflexivity.
  - exists r'. split; [exact H1 | exact H2].
Defined.

Lemma exact_summary_checked :
  forallb (fun rd => forallb (fun rl => 0.7 <=? combined_of_ratios 100 rd rl) ratios)
          ratios = true.
Proof. vm_compute. reflexivity. Qed.

(** An issue whose summary is the searched text up to the case of the
    letters is found at every threshold up to 0.7, when the ratio of that
    text with itself is 100; its score is at least 0.7 and [summary] is
    among its matched fields. *)
Theorem same_summary_is_found {lib : PyLib} (Hr : ratio_range)
    (issues : list JiraIssue.t) (q : string) (th : float) (i : JiraIssue.t)
    (Hself : token_sort_ratio (lower q) (lower q) = 100%Z)
    (Hsame : lower (JiraIssue.summary i) = lower q)
    (Hin : In i issues)
    (Hth : (th <=? 0.7) = true) :
  exists r,
    In r (find_similar_issues issues q th)
    /\ IssueMatchResult.issue r = i
    /\ (0.7 <=? IssueMatchResult.score r) = true
    /\ In "summary"%string (IssueMatchResult.matched_fields r).
Proof.
  assert (Hs : summary_ratio q i = 100%Z)
    by (unfold summary_ratio; rewrite Hsame; exact Hself).
  assert (Hc : (0.7 <=? combined_score q i) = true).
  { rewrite ScorerFacts.combined_score_of_ratios, Hs.
    destruct (ScorerFacts.ratios_in_range q i Hr) as [_ [Hd Hl]].
    pose proof exact_summary_checked as H.
    rewrite forallb_forall in H.
    specialize (H _ (ScorerFacts.in_ratios _ Hd)). cbv beta in H.
    rewrite forallb_forall in H. exact (H _ (ScorerFacts.in_ratios _ Hl)). }
  exists (result_of q th i). split; [|split; [|split]].
  - apply ScorerFacts.result_intro; [exact Hin|].
    unfold passes. exact (leb_trans _ _ _ Hth Hc).
  - reflexivity.
  - exact Hc.
  - cbn [result_of IssueMatchResult.matched_fields]. unfold matched_fields_of.
    assert (H1 : (th <=? summary_score q i) = true).
    { destruct (ScorerFacts.scores_of_ratios q i) as [-> _]. rewrite Hs.
      apply (leb_trans _ _ _ Hth). vm_compute. reflexivity. }
    rewrite H1. left. reflexivity.
Qed.

Lemma same_summary_is_found_witness :
  exists r,
    In r (find_similar_issues (lib := Sample.lib) [Sample.vague_issue; Sample.exact_issue]
            "login page" 0.7)
    /\ IssueMatchResult.issue r = Sample.exact_issue.
Proof.
  destruct (same_summary_is_found (lib := Sample.lib) ScorerFacts.sample_ratio_range
              [Sample.vague_issue; Sample.exact_issue] "login page" 0.7
              Sample.exact_issue)
    as [r [H1 [H2 _]]].
  - reflexivity.
  - reflexivity.
  - right. left. reflexivity.
  - vm_compute. reflexivity.
  - exists r. split; [exact H1 | exact H2].
Defined.

End ThresholdFacts.

(** ** The trigger of a creation *)

Module TriggerFacts.

Import PyStr Re Types GitHubClient Spec Notions.

#[local] Arguments char_eq : simpl never.

Lemma match_lit_exact (l : string) : forall s m r,
  match_lit false l s = Some (m, r) -> m = l /\ s = l ++ r.
Proof.
  induction l as [|p l IH]; intros s m r H.
  - cbn [match_lit] in H. inversion H. split; reflexivity.
  - destruct s as [|c s]; [discriminate|]. cbn [match_lit] in H.
    destruct (char_eq false p c) eqn:Hc; [|discriminate].
    destruct (match_lit false l s) as [[m' r']|] eqn:E; [|discriminate].
    inversion H; subst. destruct (IH s m' r E) as [-> ->].
    unfold char_eq in Hc. apply Ascii.eqb_eq in Hc. subst. split; reflexivity.
Qed.

Lemma match_lit_here (l : string) : forall r, match_lit false l (l ++ r) = Some (l, r).
Proof.
  induction l as [|p l IH]; intros r; [reflexivity|].
  cbn [match_lit append]. unfold char_eq. rewrite Ascii.eqb_refl, IH. reflexivity.
Qed.

(** What [cls+] can match: a non-empty run of the class. *)
Lemma match_plus_inv cls : forall s m r,
  In (m, r) (match_plus cls s) ->
  m <> EmptyString /\ class_all cls m = true /\ s = m ++ r.
Proof.
  induction s as [|c s IH]; intros m r H; [destruct H|].
  cbn [match_plus] in H. destruct (cls c) eqn:Hc; [|destruct H].
  apply in_app_iff in H. destruct H as [H | [H | []]].
  - apply in_map_iff in H. destruct H as [[m' r'] [Heq Hin]].
    inversion Heq; subst. destruct (IH m' r Hin) as [_ [Hall ->]].
    split; [discriminate|]. split; [|reflexivity].
    unfold class_all in *. cbn [list_ascii_of_string forallb]. rewrite Hc. exact Hall.
  - inversion H; subst. split; [discriminate|]. split; [|reflexivity].
    unfold class_all. cbn [list_ascii_of_string forallb]. rewrite Hc. reflexivity.
Qed.

Lemma match_plus_intro cls : forall m r,
  m <> EmptyString -> class_all cls m = true -> In (m, r) (match_plus cls (m ++ r)).
Proof.
  induction m as [|c m IH]; intros r Hne Hall; [congruence|].
  unfold class_all in Hall. cbn [list_ascii_of_string forallb] in Hall.
  apply andb_prop in Hall. destruct Hall as [Hc Hall].
  cbn [append match_plus]. rewrite Hc. apply in_app_iff.
  destruct m as [|c' m'].
  - right. left. reflexivity.
  - left. apply in_map_iff. exists (String c' m', r). split; [reflexivity|].
    apply IH; [discriminate | exact Hall].
Qed.

(** [search] answers with a match at some place of the text. *)
Lemma search_inv ic r : forall s a,
  search ic r s = Some a -> exists before rest, s = before ++ rest /\ In a (rmatch ic r rest).
Proof.
  induction s as [|c s IH]; intros a H.
  - cbn [search] in H. destruct (rmatch ic r EmptyString) as [|x l] eqn:E; [discriminate|].
    inversion H; subst. exists EmptyString, EmptyString. split; [reflexivity|].
    rewrite E. left. reflexivity.
  - cbn [search] in H. destruct (rmatch ic r (String c s)) as [|x l] eqn:E.
    + destruct (IH a H) as [before [rest [-> Hin]]].
      exists (String c before), rest. split; [reflexivity | exact Hin].
    + inversion H; subst. exists EmptyString, (String c s). split; [reflexivity|].
      rewrite E. left. reflexivity.
Qed.

(** A match at some place of the text makes [search] answer. *)
Lemma search_intro ic r a : forall before rest,
  In a (rmatch ic r rest) -> search ic r (before ++ rest) <> None.
Proof.
  induction before as [|c before IH]; intros rest Hin.
  - cbn [append]. destruct rest as [|c rest]; cbn [search];
      destruct (rmatch ic r _); [destruct Hin | discriminate | destruct Hin | discriminate].
  - cbn [append search].
    destruct (rmatch ic r (String c (before ++ rest))); [apply IH, Hin | discriminate].
Qed.

Lemma two_words_inv w1 w2 s a :
  In a (rmatch false (two_words w1 w2) s) ->
  exists space after,
    space <> EmptyString /\ class_all is_space space = true
    /\ s = w1 ++ space ++ w2 ++ after.
Proof.
  unfold two_words. cbn [rmatch]. intros H.
  destruct (match_lit false w1 s) as [[m1 r1]|] eqn:E1; [|destruct H].
  destruct (match_lit_exact w1 s m1 r1 E1) as [-> ->].
  cbn [flat_map matched rest] in H. rewrite app_nil_r in H.
  apply in_map_iff in H. destruct H as [b [_ Hb]].
  apply in_flat_map in Hb. destruct Hb as [p [Hp Hb]].
  apply in_map_iff in Hp. destruct Hp as [[space r2] [<- Hp]].
  cbn [rest fst snd] in Hb.
  destruct (match_lit false w2 r2) as [[m2 after]|] eqn:E2; [|destruct Hb].
  destruct (match_lit_exact w2 r2 m2 after E2) as [-> ->].
  destruct (match_plus_inv is_space r1 space _ Hp) as [Hne [Hall ->]].
  exists space, after. auto.
Qed.

Lemma two_words_intro w1 w2 space after :
  space <> EmptyString -> class_all is_space space = true ->
  exists a, In a (rmatch false (two_words w1 w2) (w1 ++ space ++ w2 ++ after)).
Proof.
  intros Hne Hall. unfold two_words. cbn [rmatch].
  rewrite match_lit_here. cbn [flat_map matched rest]. rewrite app_nil_r.
  eexists. apply in_map_iff. eexists. split; [reflexivity|].
  apply in_flat_map. exists (mkSuccess space (w2 ++ after) None). split.
  - apply in_map_iff. exists (space, w2 ++ after). split; [reflexivity|].
    apply match_plus_intro; assumption.
  - cbn [rest]. rewrite match_lit_here. left. reflexivity.
Qed.


End TriggerFacts.

(** ** What every extraction satisfies *)

Module InvariantFacts.

Import PyStr Re Types GitHubClient Spec Notions.

#[local] Arguments char_eq : simpl never.

Lemma match_lit_self (l : string) : forall s m r,
  match_lit true l s = Some (m, r) -> match_lit true l m = Some (m, EmptyString).
Proof.
  induction l as [|p l IH]; intros s m r H.
  - cbn [match_lit] in H. inversion H. reflexivity.
  - destruct s as [|c s]; [discriminate|]. cbn [match_lit] in H.
    destruct (char_eq true p c) eqn:Hc; [|discriminate].
    destruct (match_lit true l s) as [[m' r']|] eqn:E; [|discriminate].
    inversion H; subst. cbn [match_lit]. rewrite Hc, (IH s m' r E). reflexivity.
Qed.

Lemma lit_group w s x :
  In x (rmatch true (Lit w) s) -> case_variant w (matched x) = true.
Proof.
  cbn [rmatch]. destruct (match_lit true w s) as [[m r]|] eqn:E; [|intros []].
  intros [<- | []]. cbn [matched]. unfold case_variant.
  rewrite (match_lit_self w s m r E). reflexivity.
Qed.

(** The group of a match of the pattern of the type is one of the four
    words, in some case. *)
Lemma type_group s a :
  In a (rmatch true type_re s) -> is_type_word (group_1 a) = true.
Proof.
  unfold type_re. rewrite ExtractFacts.rmatch_seq. intros H.
  apply in_flat_map in H. destruct H as [a1 [_ H]].
  apply in_map_iff in H. destruct H as [b [<- H]].
  rewrite ExtractFacts.rmatch_seq in H.
  apply in_flat_map in H. destruct H as [a2 [_ H]].
  apply in_map_iff in H. destruct H as [g [<- H]].
  rewrite ExtractFacts.rmatch_group in H.
  apply in_map_iff in H. destruct H as [x [<- H]].
  unfold group_1. cbn [group1 first_group].
  unfold is_type_word, type_words. cbn [existsb].
  cbn [rmatch] in H. rewrite !in_app_iff in H.
  destruct H as [H | [H | [H | H]]];
    apply (lit_group _ _ x) in H; rewrite H; rewrite ?orb_true_r; reflexivity.
Qed.

Lemma rstrip_idempotent (s : string) : rstrip (rstrip s) = rstrip s.
Proof.
  induction s as [|c s IH]; [reflexivity|].
  cbn [rstrip]. destruct (rstrip s) as [|c' r] eqn:E.
  - destruct (is_space c) eqn:Hc; [reflexivity|]. cbn [rstrip]. rewrite Hc. reflexivity.
  - cbn [rstrip]. cbn [rstrip] in IH. rewrite IH. reflexivity.
Qed.

Lemma lstrip_stops (s : string) : stops is_space (lstrip s) = true.
Proof.
  induction s as [|c s IH]; [reflexivity|].
  cbn [lstrip]. destruct (is_space c) eqn:Hc; [exact IH|].
  cbn [stops]. rewrite Hc. reflexivity.
Qed.

Lemma rstrip_stops (s : string) : stops is_space s = true -> stops is_space (rstrip s) = true.
Proof.
  destruct s as [|c s]; [reflexivity|]. cbn [stops rstrip]. intros Hc.
  destruct (rstrip s); [|exact Hc].
  apply negb_true_iff in Hc. rewrite Hc. cbn [stops]. rewrite Hc. reflexivity.
Qed.

Lemma lstrip_fixed (s : string) : stops is_space s = true -> lstrip s = s.
Proof.
  destruct s as [|c s]; [reflexivity|]. cbn [stops lstrip]. intros Hc.
  apply negb_true_iff in Hc. rewrite Hc. reflexivity.
Qed.

(** [strip] changes nothing the second time. *)
Lemma strip_idempotent (s : string) : strip (strip s) = strip s.
Proof.
  unfold strip. rewrite (lstrip_fixed (rstrip (lstrip s))).
  - apply rstrip_idempotent.
  - apply rstrip_stops, lstrip_stops.
Qed.

Lemma lstrip_class cls (s : string) :
  class_all cls s = true -> class_all cls (lstrip s) = true.
Proof.
  unfold class_all. induction s as [|c s IH]; [reflexivity|].
  cbn [list_ascii_of_string forallb lstrip]. intros H.
  destruct (is_space c); [|exact H].
  apply andb_prop in H. apply IH, H.
Qed.

Lemma rstrip_class cls (s : string) :
  class_all cls s = true -> class_all cls (rstrip s) = true.
Proof.
  unfold class_all. induction s as [|c s IH]; [reflexivity|].
  cbn [list_ascii_of_string forallb rstrip]. intros H.
  apply andb_prop in H. destruct H as [Hc H]. specialize (IH H).
  destruct (rstrip s) as [|c' r].
  - destruct (is_space c); [reflexivity|]. cbn [list_ascii_of_string forallb].
    rewrite Hc. reflexivity.
  - cbn [list_ascii_of_string forallb] in *. rewrite Hc. exact IH.
Qed.

Lemma strip_class cls (s : string) :
  class_all cls s = true -> class_all cls (strip s) = true.
Proof. intros H. apply rstrip_class, lstrip_class, H. Qed.

(** The group of a match of the pattern of the summary is on one line. *)
Lemma summary_group s a :
  In a (rmatch true summary_re s) -> class_all not_newline (group_1 a) = true.
Proof.
  unfold summary_re. rewrite ExtractFacts.rmatch_seq. intros H.
  apply in_flat_map in H. destruct H as [a1 [_ H]].
  apply in_map_iff in H. destruct H as [b [<- H]].
  rewrite ExtractFacts.rmatch_seq in H.
  apply in_flat_map in H. destruct H as [a2 [_ H]].
  apply in_map_iff in H. destruct H as [g [<- H]].
  rewrite ExtractFacts.rmatch_group in H.
  apply in_map_iff in H. destruct H as [x [<- H]].
  rewrite ExtractFacts.rmatch_plus in H.
  apply in_map_iff in H. destruct H as [[m r] [<- H]].
  unfold group_1. cbn [group1 first_group matched fst].
  apply (TriggerFacts.match_plus_inv not_newline _ m r H).
Qed.

Lemma join_last (sep : string) (x : string) : forall l,
  l <> [] -> join sep (l ++ [x]) = join sep l ++ sep ++ x.
Proof.
  induction l as [|p l IH]; intros Hne; [congruence|].
  destruct l as [|q l].
  - reflexivity.
  - change (join sep ((p :: q :: l) ++ [x])) with (p ++ sep ++ join sep ((q :: l) ++ [x])).
    rewrite IH by discriminate.
    change (join sep (p :: q :: l)) with (p ++ sep ++ join sep (q :: l)).
    rewrite <- !ExtractFacts.append_assoc. reflexivity.
Qed.


End InvariantFacts.

(** ** The two servers *)

Module AgreementFacts.

Import PyStr Types Json Effects GitHubClient JiraClient WebhookServer Spec Notions.
Import TraceFacts.

Lemma get_pull_request_run (w : World) (n : Z) (st : State) :
  get_pull_request w n st
  = match w_get_pull w (trace st) n with
    | inr pr => (Ok (Some pr), add_calls st [GetPull n])
    | inl e => (Ok None, add_log (add_calls st [GetPull n]) ERROR
                           ("Error fetching PR #" ++ str_of_Z n ++ ": " ++ str_exn e))
    end.
Proof.
  unfold get_pull_request, try_except, bind, perform, logger, ret.
  destruct (w_get_pull w (trace st) n); reflexivity.
Qed.

Lemma same_jira_trans s1 s2 s3 : same_jira s1 s2 -> same_jira s2 s3 -> same_jira s1 s3.
Proof. unfold same_jira. intros [-> [-> ->]] [-> [-> ->]]. repeat split. Qed.

Lemma add_comment_same w n body s : same_jira (snd (add_comment w n body s)) s.
Proof.
  rewrite OrchestratorFacts.add_comment_run. cbv zeta. unfold same_jira, jira_calls.
  destruct (w_get_issue w (trace s) n); [|destruct (w_create_comment w _ n body)];
    cbn [snd trace issues last_sync add_log add_calls];
    rewrite filter_app; cbn [filter is_jira_call]; rewrite app_nil_r; repeat split.
Qed.

Lemma add_log_same s lv msg : same_jira (add_log s lv msg) s.
Proof. repeat split. Qed.

Section WithEnv.
Context {lib : PyLib} (config : Config) (w : World).

Lemma process_except_same n e s : same_jira (snd (process_except w n e s)) s.
Proof.
  rewrite OrchestratorFacts.process_except_run. cbv zeta.
  pose proof (add_comment_same w n (error_comment e)
                (add_log s ERROR ("Error processing PR comment for Jira: " ++ str_exn e)))
    as H.
  destruct (add_comment w n (error_comment e) _) as [[c|e2] s2]; cbn [snd] in *.
  - eapply same_jira_trans; [exact H | apply add_log_same].
  - eapply same_jira_trans; [apply add_log_same|].
    eapply same_jira_trans; [exact H | apply add_log_same].
Qed.

Ltac step_comments :=
  repeat match goal with
  | |- context [add_comment ?w0 ?n0 ?b ?s] =>
      let H := fresh "Hc" in
      pose proof (add_comment_same w0 n0 b s) as H;
      destruct (add_comment w0 n0 b s) as [[?|?] ?]; cbn [snd] in H
  | |- context [process_except ?w0 ?n0 ?e ?s] =>
      let H := fresh "Hx" in
      pose proof (process_except_same n0 e s) as H;
      destruct (process_except w0 n0 e s) as [? ?]; cbn [snd] in H
  end.

Ltac close_same :=
  unfold raise, ret, logger; step_comments; cbn [snd];
  unfold same_jira in *; cbn [trace issues last_sync log add_log add_calls] in *;
  repeat match goal with H : _ /\ _ |- _ => destruct H end;
  repeat split; congruence.

(** From the same state and with the same answers of Jira and GitHub, the
    tool [process_pr_comment_for_jira] of the MCP server and the handler of
    the webhook server make the same calls to Jira, in the same order, and
    leave the same cache and the same time of the last sync, whatever the
    comment, the pull request and the threshold are and however either of
    them ends.  They differ in the comments they post and in what they
    return or raise. *)
Theorem both_servers_same_jira_calls (n : Z) (comment : string) (th : float)
    (st : State) :
  let tool := McpServer._process_pr_comment_for_jira_impl config w n comment th st in
  let hook := _process_pr_comment_for_jira config w n comment th st in
  jira_calls (trace (snd tool)) = jira_calls (trace (snd hook))
  /\ issues (snd tool) = issues (snd hook)
  /\ last_sync (snd tool) = last_sync (snd hook).
Proof.
  cbv zeta.
  change (same_jira
            (snd (McpServer._process_pr_comment_for_jira_impl config w n comment th st))
            (snd (_process_pr_comment_for_jira config w n comment th st))).
  unfold _process_pr_comment_for_jira, process_try,
    McpServer._process_pr_comment_for_jira_impl.
  destruct (is_create_jira_comment comment); cbn [negb].
  2:{ repeat split. }
  unfold try_except, bind. rewrite get_pull_request_run.
  destruct (w_get_pull w (trace st) n) as [e|pr]; [close_same|].
  rewrite !needs_sync_run.
  set (q := summary _ ++ " " ++ description _).
  set (request := CreateJiraIssueRequest.mk _ _ _ _ _ _ _).
  cbn [last_sync trace add_calls].
  destruct (match last_sync st with Some t => _ | None => true end).
  - unfold logger. rewrite !CacheFacts.sync_issues_run. cbv zeta.
    cbn [last_sync trace add_calls issues log].
    destruct (w_search_issues w _ _ _ _) as [e|found]; [close_same|].
    destruct (transform_all found) as [e|items]; [close_same|].
    unfold find_similar_issues_, bind, get_state, ret. cbn [issues].
    destruct (find_similar_issues items q th) as [|best rest].
    + unfold logger. rewrite !CacheFacts.create_issue_run. cbv zeta.
      cbn [last_sync trace add_calls issues log].
      destruct (w_create_issue w _ _) as [e|new_key]; [close_same|].
      destruct (w_issue w _ new_key) as [e|created]; [close_same|].
      destruct (_transform_jira_issue created) as [e|item]; [close_same|].
      close_same.
    + close_same.
  - unfold ret at 1 3. unfold find_similar_issues_, bind, get_state, ret.
    cbn [issues add_calls].
    destruct (find_similar_issues (issues st) q th) as [|best rest].
    + unfold logger. rewrite !CacheFacts.create_issue_run. cbv zeta.
      cbn [last_sync trace add_calls issues log].
      destruct (w_create_issue w _ _) as [e|new_key]; [close_same|].
      destruct (w_issue w _ new_key) as [e|created]; [close_same|].
      destruct (_transform_jira_issue created) as [e|item]; [close_same|].
      close_same.
    + close_same.
Qed.

End WithEnv.

End AgreementFacts.

(** ** The boards of the project *)

Module BoardFacts.

Import PyStr Types Json Effects JiraClient Boards.

(** The loop on boards whose locations are [dict]s: the boards kept are
    appended in their order. *)
Lemma for_boards_run key boards : forall acc,
  forallb location_typed boards = true ->
  exists result,
    for_boards key boards acc = inr (acc ++ result)%list
    /\ map board_id result = map b_id (filter (board_kept key) boards)
    /\ Forall (fun b => board_project_key b = None
                        \/ board_project_key b = Some (JStr key)) result.
Proof.
  induction boards as [|b boards IH]; intros acc Hall.
  - exists []. rewrite app_nil_r. repeat split. constructor.
  - cbn [forallb] in Hall. apply andb_prop in Hall. destruct Hall as [Hb Hall].
    cbn [for_boards filter]. unfold add_board, board_kept, location_typed in *.
    destruct (location_of b) as [e|[location|]]; [discriminate| |].
    + destruct (WebhookServer.eq_str (project_key_of location) key) eqn:E.
      * destruct (IH (acc ++ [mkJiraBoard (b_id b) (b_name b) (b_type b)
                                (Some (project_key_of location))])%list Hall)
          as [result [H1 [H2 H3]]].
        eexists (_ :: result). rewrite H1, <- app_assoc. split; [reflexivity|].
        cbn [map board_id]. rewrite H2. split; [reflexivity|].
        constructor; [|exact H3]. right. cbn [board_project_key].
        apply RouteFacts.eq_str_true in E. rewrite E. reflexivity.
      * exact (IH acc Hall).
    + destruct (IH (acc ++ [mkJiraBoard (b_id b) (b_name b) (b_type b) None])%list Hall)
        as [result [H1 [H2 H3]]].
      eexists (_ :: result). rewrite H1, <- app_assoc. split; [reflexivity|].
      cbn [map board_id]. rewrite H2. split; [reflexivity|].
      constructor; [left; reflexivity | exact H3].
Qed.



End BoardFacts.

(** ** The manual trigger *)

Module ManualFacts.

Import PyStr Types Json Effects GitHubClient JiraClient WebhookServer Spec Notions.
Import TraceFacts AgreementFacts.

Section WithEnv.
Context {lib : PyLib} (config : Config) (w : World).

Ltac crunch :=
  unfold raise, ret, logger;
  repeat (first
   [ rewrite !OrchestratorFacts.add_comment_run
   | rewrite !OrchestratorFacts.process_except_run
   | progress cbv zeta
   | progress cbn [trace add_log add_calls issues last_sync log fst snd]
   | match goal with
     | |- context [w_get_issue ?w0 ?t0 ?n0] => destruct (w_get_issue w0 t0 n0)
     end
   | match goal with
     | |- context [w_create_comment ?w0 ?t0 ?n0 ?b0] =>
         destruct (w_create_comment w0 t0 n0 b0)
     end ]);
  repeat split.

(** The processing does not read the log: from two states that differ in
    their logs only, it ends the same way, with the same calls and the
    same cache. *)
Lemma process_log_blind n comment th i l t lg1 lg2 :
  let r1 := _process_pr_comment_for_jira config w n comment th (mkState i l t lg1) in
  let r2 := _process_pr_comment_for_jira config w n comment th (mkState i l t lg2) in
  fst r1 = fst r2 /\ trace (snd r1) = trace (snd r2)
  /\ issues (snd r1) = issues (snd r2) /\ last_sync (snd r1) = last_sync (snd r2).
Proof.
  cbv zeta. unfold _process_pr_comment_for_jira, process_try.
  destruct (is_create_jira_comment comment); cbn [negb].
  2:{ repeat split. }
  unfold try_except, bind. rewrite !get_pull_request_run. cbn [trace].
  destruct (w_get_pull w t n) as [e|pr]; [crunch|].
  rewrite !needs_sync_run.
  set (q := summary _ ++ " " ++ description _).
  set (request := CreateJiraIssueRequest.mk _ _ _ _ _ _ _).
  cbn [last_sync trace add_calls].
  destruct (match l with Some t0 => _ | None => true end).
  - unfold logger. rewrite !CacheFacts.sync_issues_run. cbv zeta.
    cbn [last_sync trace add_calls issues log].
    destruct (w_search_issues w _ _ _ _) as [e|found]; [crunch|].
    destruct (transform_all found) as [e|items]; [crunch|].
    unfold find_similar_issues_, bind, get_state, ret. cbn [issues].
    destruct (find_similar_issues items q th) as [|best rest].
    + unfold logger. rewrite !CacheFacts.create_issue_run. cbv zeta.
      cbn [last_sync trace add_calls issues log].
      destruct (w_create_issue w _ _) as [e|new_key]; [crunch|].
      destruct (w_issue w _ new_key) as [e|created]; [crunch|].
      destruct (_transform_jira_issue created) as [e|item]; [crunch|].
      crunch.
    + crunch.
  - unfold ret at 1 3. unfold find_similar_issues_, bind, get_state, ret.
    cbn [issues add_calls].
    destruct (find_similar_issues i q th) as [|best rest].
    + unfold logger. rewrite !CacheFacts.create_issue_run. cbv zeta.
      cbn [last_sync trace add_calls issues log].
      destruct (w_create_issue w _ _) as [e|new_key]; [crunch|].
      destruct (w_issue w _ new_key) as [e|created]; [crunch|].
      destruct (_transform_jira_issue created) as [e|item]; [crunch|].
      crunch.
    + crunch.
Qed.

End WithEnv.

(** The route [POST /trigger-jira-creation] does what the webhook does for
    a new comment with the same text on the same pull request, without
    any signature: the same calls in the same order, the same cache and
    time of the last sync.  Where the handler of the event returns, the
    route returns; where the handler raises [e], the route raises the
    [HTTPException] of status 500 whose detail is the text of [e]. *)
Theorem manual_trigger_like_comment_event {lib : PyLib} (config : Config) (w : World)
    (payload : json) (n : Z) (text : string) (st : State)
    (H : comment_event payload n text) :
  let hook := _handle_issue_comment config w payload st in
  let manual := manual_trigger config w n text st in
  trace (snd hook) = trace (snd manual)
  /\ issues (snd hook) = issues (snd manual)
  /\ last_sync (snd hook) = last_sync (snd manual)
  /\ match fst hook, fst manual with
     | Ok _, Ok _ => True
     | Raise e, Raise x => x = HTTPException 500 (str_exn e)
     | _, _ => False
     end.
Proof.
  destruct H as [c [issue [Ha [Hc [Hi [Hp [Hn Hb]]]]]]].
  cbv zeta. unfold _handle_issue_comment, manual_trigger.
  rewrite lift_bind, Ha. cbn [eq_str String.eqb Ascii.eqb Bool.eqb negb].
  rewrite lift_bind, Hc, lift_bind, Hi, lift_bind, Hp. cbn [negb].
  rewrite lift_bind, Hn, lift_bind, Hb. rewrite lift_bind. cbn [as_int].
  unfold bind at 1. unfold logger at 1.
  destruct st as [i l t lg].
  cbn [issues last_sync trace log].
  pose proof (process_log_blind config w n text 0.7%float i l t
                (lg ++ [(INFO, "Processing comment on PR #" ++ str_of_Z n ++ ": "
                               ++ take 100 text ++ "...")]) lg) as Hblind.
  cbv zeta in Hblind.
  destruct (is_create_jira_comment text) eqn:Hask.
  - unfold bind, try_except, logger. cbn [issues last_sync trace log].
    destruct (_process_pr_comment_for_jira config w n text 0.7%float
                (mkState i l t (lg ++ _))) as [[r1|e1] s1];
    destruct (_process_pr_comment_for_jira config w n text 0.7%float
                (mkState i l t lg)) as [[r2|e2] s2];
    cbn [fst snd] in Hblind; destruct Hblind as [Ho [Ht [Hiss Hls]]];
    try discriminate; unfold ret, logger, raise;
    cbn [fst snd trace issues last_sync]; repeat split; try assumption;
    inversion Ho; reflexivity.
  - unfold ret, try_except, _process_pr_comment_for_jira, try_except, process_try.
    rewrite Hask. cbn [negb]. repeat split.
Qed.

Lemma manual_trigger_like_comment_event_witness :
  trace (snd (_handle_issue_comment (lib := Sample.lib) Sample.config Sample.world
                comment_payload Sample.fresh))
  = trace (snd (manual_trigger (lib := Sample.lib) Sample.config Sample.world 7
                  "please create jira issue" Sample.fresh)).
Proof.
  assert (Hev : comment_event comment_payload 7 "please create jira issue").
  { exists (JDict [("body", JStr "please create jira issue")]),
           (JDict [("number", JNum 7); ("pull_request", JDict [])]).
    do 5 (split; [vm_compute; reflexivity|]). vm_compute. reflexivity. }
  pose proof (manual_trigger_like_comment_event (lib := Sample.lib) Sample.config
                Sample.world comment_payload 7 "please create jira issue" Sample.fresh
                Hev) as H.
  cbv zeta in H. destruct H as [H _]. exact H.
Defined.

End ManualFacts.
